(** * relay-client diagnostic probes: STUN codec and UDP benchmark phases

    A shallow embedding of the parts of the repository's test programs that
    carry the binary probe format and the measurement logic:

    - [test-stun-server.py]: [create_stun_request], [parse_stun_response],
      [test_stun_server], [test_multiple_requests], [main];
    - [test-simple-stun.py]: [test_simple_stun];
    - [test-speed.py]: the methods [test_latency], [test_throughput],
      [test_concurrent_throughput], [test_stress] and [run_all_tests] of
      [SpeedTest];
    - [test-relay-speed.py]: the methods [test_single_throughput],
      [test_throughput_range], [test_concurrent_throughput], [test_latency]
      and [run_all_tests] of [RelaySpeedTest].

    Python integers of the codec are never negative and are modelled in [N];
    byte strings are [list byte]; a raised exception is an explicit [Raise]
    result.  Sockets, the clock and the random generator are inputs of the
    functions.  Clock readings and durations are real numbers, and the
    rounding of the statistics to binary64 is a parameter where a statement
    depends on it; the success rate of the stress phase, which is compared
    with a threshold, is computed in binary64 as Python does.

    The first part holds the definitions, the second the lemmas and the
    theorems. *)

From Stdlib Require Import Floats Uint63.
From Stdlib Require Import NArith ZArith List Lia Bool String Ascii.
From Stdlib.Strings Require Import Byte.
From Stdlib Require Import Reals Lra.
From Equations Require Import Equations.
From Equations.Prop Require Import Logic.
Import ListNotations.

(* ===================================================================== *)
(** * Part I: the programs *)
(* ===================================================================== *)

(* ===================================================================== *)
(** ** Python primitives used by the programs *)
(* ===================================================================== *)

Module Py.

(** Exceptions the modelled code can meet. *)
Inductive exn : Type :=
| StructError          (* struct.error *)
| OSError              (* socket and inet_ntoa failures *)
| SocketTimeout        (* socket.timeout *)
| StatisticsError      (* statistics.StatisticsError *)
| ZeroDivisionError
| TypeError
| ValueError
| UnboundLocalError.

(** A computation either returns or raises. *)
Inductive result (A : Type) : Type :=
| Ok (a : A)
| Raise (e : exn).
Arguments Ok {A} a.
Arguments Raise {A} e.

Definition bind {A B} (m : result A) (k : A -> result B) : result B :=
  match m with
  | Ok a => k a
  | Raise e => Raise e
  end.

(** [len(x)] *)
Definition len {A} (l : list A) : N := N.of_nat (List.length l).

(** [x[lo:hi]] for non-negative bounds: the elements whose index lies in
    [lo, hi), clamped to the sequence; empty when [hi <= lo]. *)
Definition slice {A} (l : list A) (lo hi : N) : list A :=
  firstn (N.to_nat (hi - lo)) (skipn (N.to_nat lo) l).

(** The byte holding [v mod 256]. *)
Definition byte_of_N (v : N) : byte :=
  match Byte.of_N (v mod 256) with
  | Some b => b
  | None => x00
  end.

(** [struct.unpack('>H', s)[0]]: exactly two bytes, big-endian. *)
Definition unpack_H (s : list byte) : result N :=
  match s with
  | [hi; lo] => Ok (256 * Byte.to_N hi + Byte.to_N lo)%N
  | _ => Raise StructError
  end.

(** [struct.pack('>H', v)]: fails outside the unsigned 16-bit range. *)
Definition pack_H (v : N) : result (list byte) :=
  if (v <? 65536)%N then Ok [byte_of_N (v / 256); byte_of_N (v mod 256)]
  else Raise StructError.

(** [struct.pack('>HH', a, b)] *)
Definition pack_HH (a b : N) : result (list byte) :=
  bind (pack_H a) (fun x => bind (pack_H b) (fun y => Ok (x ++ y))).

Definition hex_digit (d : N) : ascii :=
  match d with
  | 0 => "0" | 1 => "1" | 2 => "2" | 3 => "3" | 4 => "4"
  | 5 => "5" | 6 => "6" | 7 => "7" | 8 => "8" | 9 => "9"
  | 10 => "a" | 11 => "b" | 12 => "c" | 13 => "d" | 14 => "e"
  | _ => "f"
  end%N%char.

(** [bytes.hex()]: two lower-case digits per byte. *)
Fixpoint hex (s : list byte) : string :=
  match s with
  | [] => EmptyString
  | b :: s' =>
      String (hex_digit (Byte.to_N b / 16))
             (String (hex_digit (Byte.to_N b mod 16)) (hex s'))
  end.

(** [socket.inet_ntoa(packed)] accepts exactly four bytes; the dotted text
    is kept as the four octets. *)
Definition inet_ntoa (packed : list byte) : result (N * N * N * N) :=
  match packed with
  | [a; b; c; d] => Ok (Byte.to_N a, Byte.to_N b, Byte.to_N c, Byte.to_N d)
  | _ => Raise OSError
  end.

End Py.

Notation "x <- m ;; k" := (Py.bind m (fun x => k))
  (at level 61, m at next level, right associativity).

(* ===================================================================== *)
(** ** test-stun-server.py *)
(* ===================================================================== *)

Module Stun.
Import Py.
Local Open Scope N_scope.

(** One entry of [result['attributes']]. *)
Record attribute : Type := Attribute {
  attr_type : N;
  attr_length : N;
  attr_value : list byte
}.

(** The dictionary built by [parse_stun_response]; the key ['attributes']
    is present only when the attribute branch ran. *)
Record parsed : Type := Parsed {
  msg_type : N;
  msg_length : N;
  transaction_id : string;
  attributes : option (list attribute)
}.

(** [create_stun_request]: [randint i] is the i-th draw of
    [random.randint(0, 255)]. *)
Definition create_stun_request (randint : nat -> byte)
  : result (list byte * list byte) :=
  let msg_type := 0x0001 in
  let msg_length := 0x0000 in
  let transaction_id := map randint (seq 0 12) in
  header <- pack_HH msg_type msg_length ;;
  Ok (header ++ transaction_id, transaction_id).

(** One evaluation of the [while] loop of [parse_stun_response] at
    [offset]: the loop is left ([Exit], by the loop condition or by the
    [break]), an unpacking raises ([Fault]), or one attribute is appended
    and the offset moves ([Next]). *)
Inductive loop_step : Type :=
| Exit
| Fault (e : exn)
| Next (offset' : N) (attr : attribute).

Definition attr_step (data : list byte) (msg_length offset : N) : loop_step :=
  if negb (offset <? 20 + msg_length) then Exit
  else if len data <? offset + 4 then Exit
  else
    match unpack_H (slice data offset (offset + 2)) with
    | Raise e => Fault e
    | Ok attr_type =>
        match unpack_H (slice data (offset + 2) (offset + 4)) with
        | Raise e => Fault e
        | Ok attr_length =>
            let attr_value := slice data (offset + 4) (offset + 4 + attr_length) in
            Next (offset + 4 + attr_length)
                 (Attribute attr_type attr_length attr_value)
        end
    end.

(** Bytes of the declared attribute section still ahead of [offset]: the
    quantity the loop consumes. *)
Definition remaining (msg_length offset : N) : nat :=
  N.to_nat (20 + msg_length - offset).
Arguments remaining : simpl never.

(** The [while offset < 20 + msg_length] loop, from [offset] with the
    attributes gathered so far. *)
Equations attr_loop (data : list byte) (msg_length offset : N)
          (attributes : list attribute)
  : result (list attribute)
  by wf (remaining msg_length offset) lt :=
  attr_loop data msg_length offset attributes
    with inspect (attr_step data msg_length offset) := {
    | exist _ Exit _ => Ok attributes
    | exist _ (Fault e) _ => Raise e
    | exist _ (Next offset' a) H =>
        attr_loop data msg_length offset' (attributes ++ [a]) }.
Next Obligation.
  match goal with
  | H : attr_step _ ?m ?o = Next _ _ |- _ =>
      unfold attr_step in H;
      destruct (o <? 20 + m) eqn:Hc; cbn [negb] in H; [|discriminate];
      destruct (len data <? o + 4); [discriminate|];
      destruct (unpack_H _); [|discriminate];
      destruct (unpack_H _); [|discriminate];
      injection H as <- _
  end.
  apply N.ltb_lt in Hc. unfold remaining. lia.
Qed.

(** [parse_stun_response]: the returned pair is [(result, error)]. *)
Definition parse_stun_response (data : list byte)
  : result (option parsed * option string) :=
  if len data <? 20 then Ok (None, Some "Response too short"%string)
  else
    msg_type <- unpack_H (slice data 0 2) ;;
    msg_length <- unpack_H (slice data 2 4) ;;
    let transaction_id := slice data 4 16 in
    attributes <-
      (if (0 <? msg_length) && (20 + msg_length <=? len data)
       then attrs <- attr_loop data msg_length 20 [] ;; Ok (Some attrs)
       else Ok None) ;;
    Ok (Some (Parsed msg_type msg_length (hex transaction_id) attributes),
        None).

(** The loop counted in evaluations of [attr_step]: [None] when [fuel]
    evaluations were not enough to leave it. *)
Fixpoint attr_run (fuel : nat) (data : list byte) (msg_length offset : N)
         (attributes : list attribute) : option (result (list attribute)) :=
  match fuel with
  | O => None
  | S fuel' =>
      match attr_step data msg_length offset with
      | Exit => Some (Ok attributes)
      | Fault e => Some (Raise e)
      | Next offset' a =>
          attr_run fuel' data msg_length offset' (attributes ++ [a])
      end
  end.

(** What the MAPPED-ADDRESS branch of [test_stun_server] reads from an
    attribute value and prints: [mapped_ip] is present when the family test
    passed. *)
Record mapped : Type := Mapped {
  family : N;
  port : N;
  mapped_ip : option (N * N * N * N)
}.

(** Lines 110-116 of [test_stun_server], on [attr['value']]. *)
Definition mapped_address (value : list byte) : result (option mapped) :=
  if 8 <=? len value then
    family <- unpack_H (slice value 2 4) ;;
    port <- unpack_H (slice value 4 6) ;;
    if family =? 0x01 then
      ip <- inet_ntoa (slice value 6 10) ;;
      Ok (Some (Mapped family port (Some ip)))
    else Ok (Some (Mapped family port None))
  else Ok None.

(** Lines 106-117: the [for attr in parsed['attributes']] loop, left at the
    first attribute of type 0x0001. *)
Fixpoint find_mapped_address (attrs : list attribute) : result (option mapped) :=
  match attrs with
  | [] => Ok None
  | attr :: rest =>
      if attr_type attr =? 0x0001 then mapped_address (attr_value attr)
      else find_mapped_address rest
  end.

(** What the socket does during one run of [test_stun_server]. *)
Inductive received : Type :=
| Datagram (response : list byte)   (* what recvfrom(1024) returned *)
| TimedOut
| RecvFailed.

Record network : Type := Network {
  socket_created : bool;   (* socket.socket(...) returned *)
  sendto_ok : bool;        (* sock.sendto(...) returned *)
  recvfrom : received      (* sock.recvfrom(1024) *)
}.

(** Truth value of the [error] component in [if error:]. *)
Definition truthy (error : option string) : bool :=
  match error with
  | Some (String _ _) => true
  | _ => false
  end.

(** The [try] block of [test_stun_server], after the socket exists. *)
Definition exchange (randint : nat -> byte) (net : network) : result bool :=
  request <- create_stun_request randint ;;
  let '(stun_request, transaction_id) := request in
  if negb (sendto_ok net) then Raise OSError
  else
    match recvfrom net with
    | TimedOut => Raise SocketTimeout
    | RecvFailed => Raise OSError
    | Datagram response =>
        answer <- parse_stun_response response ;;
        let '(parsed, error) := answer in
        if truthy error then Ok false
        else
          match parsed with
          | None => Raise TypeError
          | Some parsed =>
              if msg_type parsed =? 0x0101 then
                _ <- match attributes parsed with
                     | Some attrs => find_mapped_address attrs
                     | None => Ok None
                     end ;;
                Ok true
              else Ok false
          end
    end.

(** [test_stun_server]: both [except] clauses return [False]; the
    [finally] clause closes [sock], which is unbound when the socket could
    not be created. *)
Definition test_stun_server (randint : nat -> byte) (net : network)
  : result bool :=
  if socket_created net then
    match exchange randint net with
    | Ok b => Ok b
    | Raise _ => Ok false
    end
  else Raise UnboundLocalError.

End Stun.

(* ===================================================================== *)
(** ** Measurements: clock readings, [statistics] and the builtins *)
(* ===================================================================== *)

(** Clock readings and durations are real numbers; the functions of the
    [statistics] module and the builtins [min] and [max] are taken with
    their documented behaviour on them. *)
Module Stats.
Import Py.
Local Open Scope R_scope.

(** [x / y] on numbers: division by zero raises. *)
Definition div (x y : R) : result R :=
  if Req_dec_T y 0 then Raise ZeroDivisionError else Ok (x / y).

Definition total (data : list R) : R := fold_right Rplus 0 data.

(** One step of [min]: the running minimum is replaced by a strictly
    smaller item. *)
Definition running_min (m item : R) : R := if Rlt_dec item m then item else m.

(** One step of [max]. *)
Definition running_max (m item : R) : R := if Rlt_dec m item then item else m.

(** [min(data)]: an empty argument raises [ValueError]. *)
Definition min (data : list R) : result R :=
  match data with
  | [] => Raise ValueError
  | x :: rest => Ok (fold_left running_min rest x)
  end.

(** [max(data)] *)
Definition max (data : list R) : result R :=
  match data with
  | [] => Raise ValueError
  | x :: rest => Ok (fold_left running_max rest x)
  end.

(** [statistics.mean(data)]: [StatisticsError] when [data] is empty. *)
Definition mean (data : list R) : result R :=
  match data with
  | [] => Raise StatisticsError
  | _ => Ok (total data / INR (List.length data))
  end.

(** Sum of the squared deviations of [data] from [c]. *)
Definition squared_deviations (c : R) (data : list R) : R :=
  total (map (fun x => (x - c) * (x - c)) data).

(** [statistics.stdev(data)]: the square root of the sample variance;
    [StatisticsError] when there are fewer than two data points. *)
Definition stdev (data : list R) : result R :=
  if (List.length data <? 2)%nat then Raise StatisticsError
  else
    let n := INR (List.length data) in
    let c := total data / n in
    Ok (sqrt (squared_deviations c data / (n - 1))).

(** The four figures both programs derive from a list of durations. *)
Record figures : Type := Figures {
  average : R;
  minimum : R;
  maximum : R;
  std_dev : R
}.

(** The statistics block shared by [SpeedTest.test_latency] (lines 51-54),
    [RelaySpeedTest.test_single_throughput] (lines 59-62) and
    [RelaySpeedTest.test_latency] (lines 256-259). *)
Definition summary (samples : list R) : result figures :=
  avg <- mean samples ;;
  lo <- min samples ;;
  hi <- max samples ;;
  std <- (if (1 <? List.length samples)%nat then stdev samples else Ok 0) ;;
  Ok (Figures avg lo hi std).

(** The same block with the rounding of the results written out.  The
    samples are binary64 numbers; [statistics.mean] and [statistics.stdev]
    (Python 3.11) compute the mean and the variance as exact fractions and
    round once, when the result is converted to a float; [min] and [max]
    return one of their arguments.  [rnd] is that final rounding. *)
Section Rounding.
Variable rnd : R -> R.

Definition rounded_mean (data : list R) : result R :=
  match data with
  | [] => Raise StatisticsError
  | _ => Ok (rnd (total data / INR (List.length data)))
  end.

Definition rounded_stdev (data : list R) : result R :=
  if (List.length data <? 2)%nat then Raise StatisticsError
  else
    let n := INR (List.length data) in
    let c := total data / n in
    Ok (rnd (sqrt (squared_deviations c data / (n - 1)))).

Definition rounded_summary (samples : list R) : result figures :=
  avg <- rounded_mean samples ;;
  lo <- min samples ;;
  hi <- max samples ;;
  std <- (if (1 <? List.length samples)%nat then rounded_stdev samples
          else Ok 0) ;;
  Ok (Figures avg lo hi std).

End Rounding.

End Stats.

(** What one send-and-wait on a datagram socket comes to. *)
Inductive exchange : Type :=
| Replied (start_time end_time : R) (response : list byte)
| SendFailed        (* sendto raised *)
| RecvTimedOut      (* recvfrom raised socket.timeout *)
| RecvFailed.       (* recvfrom raised another error *)

Definition exchange_error (x : exchange) : Py.exn :=
  match x with
  | RecvTimedOut => Py.SocketTimeout
  | _ => Py.OSError
  end.

(* ===================================================================== *)
(** ** test-speed.py *)
(* ===================================================================== *)

Module SpeedTest.
Import Py.

(** [self.results['latency']] *)
Record latency_report : Type := LatencyReport {
  latency_figures : Stats.figures;
  samples : list R
}.

(** What a run of a test method leaves behind: its return value (or the
    exception leaving it), the entry stored in [self.results], and the
    number of loop iterations that were started. *)
Record run (A : Type) : Type := Run {
  returned : result bool;
  stored : option A;
  iterations_run : nat
}.
Arguments Run {A} _ _ _.
Arguments returned {A} _.
Arguments stored {A} _.
Arguments iterations_run {A} _.

(** The [for i in range(iterations)] loop of [test_latency] from
    iteration [i], [todo] iterations being left: no [try] surrounds the
    body, so a failed exchange leaves the loop with its exception. *)
Fixpoint latency_loop (net : nat -> exchange) (i todo : nat)
         (latencies : list R) : result (list R) * nat :=
  match todo with
  | O => (Ok latencies, i)
  | S todo' =>
      match net i with
      | Replied start_time end_time _ =>
          let latency := ((end_time - start_time) * 1000)%R in
          latency_loop net (S i) todo' (latencies ++ [latency])
      | failure => (Raise (exchange_error failure), S i)
      end
  end.

(** [SpeedTest.test_latency]: one socket for the sweep, one [try] around
    everything; [except Exception] returns [False], and [finally] closes
    [sock], which is unbound when its creation failed. *)
Definition test_latency (iterations : nat) (socket_created : bool)
           (net : nat -> exchange) : run latency_report :=
  if socket_created then
    let '(swept, started) := latency_loop net 0 iterations [] in
    match (latencies <- swept ;;
           figures <- Stats.summary latencies ;;
           Ok (LatencyReport figures latencies)) with
    | Ok report => Run (Ok true) (Some report) started
    | Raise _ => Run (Ok false) None started
    end
  else Run (Raise UnboundLocalError) None 0.

(** Counters of [test_stress]. *)
Record counters : Type := Counters {
  messages_sent : Z;
  messages_received : Z;
  errors : Z
}.

(** One pass through the body of the [while] loop of [test_stress]. *)
Inductive attempt : Type :=
| Echo (same : bool)   (* a reply came; [same] is [response == message] *)
| NotSent              (* sendto raised *)
| NoReply.             (* recvfrom raised, socket.timeout included *)

Definition stress_step (c : counters) (a : attempt) : counters :=
  let '(Counters sent received errs) := c in
  match a with
  | Echo same =>
      Counters (sent + 1) (if same then received + 1 else received) errs
  | NotSent => Counters sent received (errs + 1)
  | NoReply => Counters (sent + 1) received (errs + 1)
  end%Z.

(** The [while time.time() - start_time < duration] loop over the passes
    the clock allowed. *)
Definition stress_loop (passes : list attempt) : counters :=
  fold_left stress_step passes (Counters 0 0 0).

(** A counter as a binary64 number (exact below 2^53). *)
Definition to_float (n : Z) : float := PrimFloat.of_uint63 (Uint63.of_Z n).

(** Float division: a zero divisor raises. *)
Definition fdiv (x y : float) : result float :=
  if PrimFloat.eqb y 0%float then Raise ZeroDivisionError
  else Ok (x / y)%float.

(** Line 263. *)
Definition success_rate (c : counters) : float :=
  if (0 <? messages_sent c)%Z
  then (to_float (messages_received c) / to_float (messages_sent c) * 100)%float
  else 0%float.

(** [self.results['stress']] *)
Record stress_report : Type := StressReport {
  duration : float;
  final : counters;
  stress_success_rate : float;
  messages_per_second : float
}.

(** Lines 260-282: the report and the verdict. *)
Definition stress_summary (c : counters) (actual_duration : float)
  : result (stress_report * bool) :=
  let rate := success_rate c in
  per_second <- fdiv (to_float (messages_sent c)) actual_duration ;;
  Ok (StressReport actual_duration c rate per_second,
      PrimFloat.ltb 80%float rate).

(** [SpeedTest.test_stress]: [passes] are the loop passes made before the
    deadline, [actual_duration] the elapsed time read after the loop. *)
Definition test_stress (socket_created : bool) (passes : list attempt)
           (actual_duration : float) : run stress_report :=
  if socket_created then
    match stress_summary (stress_loop passes) actual_duration with
    | Ok (report, verdict) => Run (Ok verdict) (Some report) (List.length passes)
    | Raise _ => Run (Ok false) None (List.length passes)
    end
  else Run (Raise UnboundLocalError) None 0.

End SpeedTest.

(* ===================================================================== *)
(** ** test-relay-speed.py *)
(* ===================================================================== *)

Module RelaySpeedTest.
Import Py.

(** One loop iteration: each opens a socket of its own. *)
Inductive attempt : Type :=
| NoSocket                    (* socket.socket(...) raised *)
| Exchange (x : exchange).

(** The dictionary returned by [test_single_throughput]. *)
Record throughput_report : Type := ThroughputReport {
  data_size : nat;
  iterations : nat;
  successful_transfers : nat;
  success_rate : R;
  avg_duration_ms : R;
  min_duration_ms : R;
  max_duration_ms : R;
  std_duration_ms : R;
  throughput_mbps : R;
  throughput_roundtrip_mbps : R
}.

Definition same_bytes (a b : list byte) : bool :=
  if list_eq_dec Byte.byte_eq_dec a b then true else false.

(** The [for i in range(iterations)] loop of [test_single_throughput]:
    [test_data i] is the payload generated in iteration [i]; every
    exception is caught inside the body and the loop continues. *)
Fixpoint throughput_loop (test_data : nat -> list byte) (net : nat -> attempt)
         (i todo : nat) (durations : list R) (successful_transfers : nat)
  : list R * nat :=
  match todo with
  | O => (durations, successful_transfers)
  | S todo' =>
      match net i with
      | Exchange (Replied start_time end_time response) =>
          if same_bytes response (test_data i) then
            throughput_loop test_data net (S i) todo'
              (durations ++ [(end_time - start_time)%R])
              (S successful_transfers)
          else
            throughput_loop test_data net (S i) todo' durations
              successful_transfers
      | _ =>
          throughput_loop test_data net (S i) todo' durations
            successful_transfers
      end
  end.

(** Lines 58-89: the summary of the gathered durations, [None] when there
    are none. *)
Definition throughput_summary (data_size iterations : nat)
           (durations : list R) (successful_transfers : nat)
  : result (option throughput_report) :=
  match durations with
  | [] => Ok None
  | _ =>
      f <- Stats.summary durations ;;
      let avg_duration := Stats.average f in
      throughput_mbps <-
        Stats.div (INR data_size * 8) (avg_duration * 1000000) ;;
      throughput_roundtrip_mbps <-
        Stats.div (INR data_size * 8 * 2) (avg_duration * 1000000) ;;
      ratio <- Stats.div (INR successful_transfers) (INR iterations) ;;
      let success_rate := (ratio * 100)%R in
      Ok (Some (ThroughputReport data_size iterations successful_transfers
                  success_rate
                  (avg_duration * 1000) (Stats.minimum f * 1000)
                  (Stats.maximum f * 1000) (Stats.std_dev f * 1000)
                  throughput_mbps throughput_roundtrip_mbps))
  end%R.

(** [RelaySpeedTest.test_single_throughput] *)
Definition test_single_throughput (data_size iterations : nat)
           (test_data : nat -> list byte) (net : nat -> attempt)
  : result (option throughput_report) :=
  let '(durations, successful_transfers) :=
    throughput_loop test_data net 0 iterations [] 0 in
  throughput_summary data_size iterations durations successful_transfers.

(** The loop of [RelaySpeedTest.test_latency]: the [try] is inside the
    body, so a failed iteration only [continue]s. *)
Fixpoint latency_loop (net : nat -> attempt) (i todo : nat)
         (latencies : list R) : list R * nat :=
  match todo with
  | O => (latencies, i)
  | S todo' =>
      match net i with
      | Exchange (Replied start_time end_time _) =>
          let latency := ((end_time - start_time) * 1000)%R in
          latency_loop net (S i) todo' (latencies ++ [latency])
      | _ => latency_loop net (S i) todo' latencies
      end
  end.

(** [RelaySpeedTest.test_latency]: the statistics are outside any [try]. *)
Definition test_latency (iterations : nat) (net : nat -> attempt)
  : SpeedTest.run SpeedTest.latency_report :=
  let '(latencies, started) := latency_loop net 0 iterations [] in
  match latencies with
  | [] => SpeedTest.Run (Ok false) None started
  | _ =>
      match Stats.summary latencies with
      | Ok figures =>
          SpeedTest.Run (Ok true)
            (Some (SpeedTest.LatencyReport figures latencies)) started
      | Raise e => SpeedTest.Run (Raise e) None started
      end
  end.

End RelaySpeedTest.


(* ===================================================================== *)
(** ** Readings taken from the specification, and what the statements name *)
(* ===================================================================== *)

Module Spec.
Import Py Stun.
Local Open Scope N_scope.

(** The reading of a Mapped-Address value in the words of the
    specification: at least 8 bytes; byte 1 is the address family, bytes 2-3
    the port, and for family 0x01 bytes 4-7 the IPv4 address. *)
Definition spec_mapped_address (value : list byte) : option mapped :=
  if 8 <=? len value then
    match slice value 1 2, unpack_H (slice value 2 4) with
    | [f], Ok port =>
        let family := Byte.to_N f in
        Some (Mapped family port
                (if family =? 0x01 then
                   match inet_ntoa (slice value 4 8) with
                   | Ok ip => Some ip
                   | Raise _ => None
                   end
                 else None))
    | _, _ => None
    end
  else None.

(** A 16-bit number as two bytes, most significant first. *)
Definition be16 (v : N) : list byte :=
  [byte_of_N (v / 256); byte_of_N (v mod 256)].

(** The serialization of an attribute in the words of the specification:
    type (2 bytes), length (2 bytes), value, without padding.  The sources
    have no attribute encoder. *)
Definition wire_attribute (a : attribute) : list byte :=
  be16 (attr_type a) ++ be16 (attr_length a) ++ attr_value a.

Definition wire_attributes (attrs : list attribute) : list byte :=
  List.concat (map wire_attribute attrs).

(** An attribute whose fields fit the wire format. *)
Definition well_formed (a : attribute) : Prop :=
  attr_type a < 65536 /\ attr_length a < 65536 /\
  attr_length a = len (attr_value a).

(** The verdict of [test_stun_server] on a reply that was received and
    decoded, as a function of the decoded reply alone. *)
Definition verdict (p : parsed) : bool :=
  if msg_type p =? 0x0101 then
    match attributes p with
    | Some attrs =>
        match find_mapped_address attrs with
        | Ok _ => true
        | Raise _ => false
        end
    | None => true
    end
  else false.

(** Value of a hexadecimal digit, and the bytes of a hexadecimal text. *)
Definition digit_value (c : ascii) : N :=
  let n := N_of_ascii c in
  if n <? 58 then n - 48 else n - 87.

Fixpoint unhex (s : string) : list byte :=
  match s with
  | String h (String l s') =>
      byte_of_N (16 * digit_value h + digit_value l) :: unhex s'
  | _ => []
  end.

(** Iteration [i] of [test_single_throughput] yields a duration sample: a
    reply came and equals the payload sent. *)
Definition completed (test_data : nat -> list byte)
           (net : nat -> RelaySpeedTest.attempt) (i : nat) : bool :=
  match net i with
  | RelaySpeedTest.Exchange (Replied _ _ response) =>
      RelaySpeedTest.same_bytes response (test_data i)
  | _ => false
  end.

(** A pass of the stress loop whose message went out, and one whose
    message came back unchanged. *)
Definition was_sent (a : SpeedTest.attempt) : bool :=
  match a with
  | SpeedTest.NotSent => false
  | _ => true
  end.

Definition was_echoed (a : SpeedTest.attempt) : bool :=
  match a with
  | SpeedTest.Echo true => true
  | _ => false
  end.

(** The rounding to integers downwards, a coarse stand-in for the rounding
    of [Stats.rounded_summary]. *)
Definition round_down (x : R) : R := IZR (Int_part x).





End Spec.

(* ===================================================================== *)
(** ** Concrete inputs *)
(* ===================================================================== *)

Module Samples.

(** A success response declaring 8 attribute bytes of which only the
    4-byte attribute header arrived. *)
Definition truncated_reply : list byte :=
  [x01; x01; x00; x08;
   xa0; xa1; xa2; xa3; xa4; xa5; xa6; xa7; xa8; xa9; xaa; xab;
   x21; x12; xa4; x42;
   x00; x01; x00; x04].

(** A success response without attributes whose transaction id is twelve
    bytes 0xff. *)
Definition foreign_reply : list byte :=
  [x01; x01; x00; x00;
   xff; xff; xff; xff; xff; xff; xff; xff; xff; xff; xff; xff;
   x21; x12; xa4; x42].

(** The draws that make the transaction id twelve bytes 0x00. *)
Definition zero_draws : nat -> byte := fun _ => x00.

(** The draws that make the transaction id a0 a1 ... ab. *)
Definition counting_draws : nat -> byte :=
  fun i => Py.byte_of_N (160 + N.of_nat i).

(** The value of an IPv4 MAPPED-ADDRESS attribute: reserved byte, family
    0x01, port 0x1234, address 192.168.1.2. *)
Definition mapped_value : list byte :=
  [x00; x01; x12; x34; xc0; xa8; x01; x02].

(** The same for port 1. *)
Definition mapped_value_port_1 : list byte :=
  [x00; x01; x00; x01; xc0; xa8; x01; x02].

(** A success response carrying [mapped_value_port_1]. *)
Definition mapped_reply_port_1 : list byte :=
  [x01; x01; x00; x0c;
   xa0; xa1; xa2; xa3; xa4; xa5; xa6; xa7; xa8; xa9; xaa; xab;
   x21; x12; xa4; x42;
   x00; x01; x00; x08] ++ mapped_value_port_1.

(** A network whose first exchange times out and whose later exchanges are
    answered after 20 ms. *)
Definition first_times_out (i : nat) : exchange :=
  match i with
  | O => RecvTimedOut
  | S _ => Replied 0 0.02 []
  end.

(** The same network as [RelaySpeedTest] meets it, a socket being opened in
    every iteration. *)
Definition relay_first_times_out (i : nat) : RelaySpeedTest.attempt :=
  RelaySpeedTest.Exchange (first_times_out i).

(** A network on which every receive times out. *)
Definition silent : nat -> RelaySpeedTest.attempt :=
  fun _ => RelaySpeedTest.Exchange RecvTimedOut.

(** Payloads of 4 bytes. *)
Definition payloads : nat -> list byte := fun _ => [x61; x62; x63; x64].

(** Sockets for a sweep over payload sizes: every transfer of the first
    size is echoed within a second, the later sizes get no reply. *)
Definition first_size_echoes (k i : nat) : RelaySpeedTest.attempt :=
  match k with
  | O => RelaySpeedTest.Exchange (Replied 0 1 [x61; x62; x63; x64])
  | S _ => RelaySpeedTest.Exchange RecvTimedOut
  end.

(** Stress passes: 7 echoes and 3 timeouts; 4 echoes and 1 foreign reply;
    9 echoes and 1 timeout. *)
Definition seven_of_ten : list SpeedTest.attempt :=
  repeat (SpeedTest.Echo true) 7 ++ repeat SpeedTest.NoReply 3.

Definition four_of_five : list SpeedTest.attempt :=
  repeat (SpeedTest.Echo true) 4 ++ [SpeedTest.Echo false].

Definition nine_of_ten : list SpeedTest.attempt :=
  repeat (SpeedTest.Echo true) 9 ++ [SpeedTest.NoReply].

End Samples.

From Stdlib Require Import Permutation.

(* ===================================================================== *)
(** ** Dictionaries *)
(* ===================================================================== *)

(** A Python [dict] as the list of its items in insertion order: assigning
    to a key that is present replaces its value in place. *)
Module Dict.

Section Items.
Variables K V : Type.
Variable eq_dec : forall a b : K, {a = b} + {a <> b}.

(** [d[k] = v] *)
Fixpoint set (d : list (K * V)) (k : K) (v : V) : list (K * V) :=
  match d with
  | [] => [(k, v)]
  | (k', v') :: d' =>
      if eq_dec k k' then (k, v) :: d' else (k', v') :: set d' k v
  end.

(** [d.get(k)] *)
Fixpoint get (d : list (K * V)) (k : K) : option V :=
  match d with
  | [] => None
  | (k', v') :: d' => if eq_dec k k' then Some v' else get d' k
  end.

(** [d.values()] *)
Definition values (d : list (K * V)) : list V := map snd d.

(** [d.keys()] *)
Definition keys (d : list (K * V)) : list K := map fst d.

End Items.

Arguments set {K V} eq_dec d k v.
Arguments get {K V} eq_dec d k.
Arguments values {K V} d.
Arguments keys {K V} d.

End Dict.

(* ===================================================================== *)
(** ** test-stun-server.py: the callers of [test_stun_server] *)
(* ===================================================================== *)

Module StunSuite.
Import Py Stun.

(** The loop of [test_multiple_requests] from request [i]: [draws i] are the
    random draws and [nets i] the socket of request [i]; an exception leaving
    [test_stun_server] leaves the loop. *)
Fixpoint requests_loop (draws : nat -> nat -> byte) (nets : nat -> network)
         (i todo success_count : nat) : result nat :=
  match todo with
  | O => Ok success_count
  | S todo' =>
      ok <- test_stun_server (draws i) (nets i) ;;
      requests_loop draws nets (S i) todo'
        (if ok then S success_count else success_count)
  end.

(** [test_multiple_requests] *)
Definition test_multiple_requests (count : nat) (draws : nat -> nat -> byte)
           (nets : nat -> network) : result bool :=
  success_count <- requests_loop draws nets 0 count 0 ;;
  Ok (success_count =? count)%nat.

(** How [main] ends: it returns, or [sys.exit] is called. *)
Inductive ending : Type :=
| Completed
| SystemExit (code : N).

(** [main]: request 0 is the single probe, requests 1 to 3 are the ones of
    [test_multiple_requests], whose result is dropped. *)
Definition main (draws : nat -> nat -> byte) (nets : nat -> network)
  : result ending :=
  success <- test_stun_server (draws 0%nat) (nets 0%nat) ;;
  _ <- (if success
        then test_multiple_requests 3 (fun i => draws (S i))
               (fun i => nets (S i))
        else Ok false) ;;
  if success then Ok Completed else Ok (SystemExit 1).

End StunSuite.

(* ===================================================================== *)
(** ** test-simple-stun.py *)
(* ===================================================================== *)

Module SimpleStun.
Import Py Stun.
Local Open Scope N_scope.

(** The outer [try] block of [test_simple_stun], after the socket exists:
    [socket.timeout] is caught around [recvfrom] and gives [False]. *)
Definition exchange (randint : nat -> byte) (net : network) : result bool :=
  let transaction_id := map randint (seq 0 12) in
  header <- pack_HH 0x0001 0x0000 ;;
  let stun_request := header ++ transaction_id in
  if negb (sendto_ok net) then Raise OSError
  else
    match recvfrom net with
    | TimedOut => Ok false
    | RecvFailed => Raise OSError
    | Datagram response =>
        if 20 <=? len response then
          msg_type <- unpack_H (slice response 0 2) ;;
          if msg_type =? 0x0101 then Ok true else Ok false
        else Ok false
    end.

(** [test_simple_stun] *)
Definition test_simple_stun (randint : nat -> byte) (net : network)
  : result bool :=
  if socket_created net then
    match exchange randint net with
    | Ok b => Ok b
    | Raise _ => Ok false
    end
  else Raise UnboundLocalError.

End SimpleStun.

(* ===================================================================== *)
(** ** test-speed.py: [test_throughput] *)
(* ===================================================================== *)

Module SpeedThroughput.
Import Py.

(** The entry of a size whose echo matched; the entry [{'success': False}]
    is [None]. *)
Record entry : Type := Entry {
  duration_ms : R;
  throughput_mbps : R;
  throughput_roundtrip_mbps : R
}.

(** The body of the [try] for one size: [test_data] is the payload
    generated for it and [a] what its socket did. *)
Definition measure (size : nat) (test_data : list byte)
           (a : RelaySpeedTest.attempt) : result (option entry) :=
  match a with
  | RelaySpeedTest.NoSocket => Raise OSError
  | RelaySpeedTest.Exchange (Replied start_time end_time response) =>
      if RelaySpeedTest.same_bytes response test_data then
        let duration := (end_time - start_time)%R in
        throughput_mbps <-
          Stats.div (INR size * 8) (duration * 1000000) ;;
        throughput_mbps_roundtrip <-
          Stats.div (INR size * 8 * 2) (duration * 1000000) ;;
        Ok (Some (Entry (duration * 1000) throughput_mbps
                    throughput_mbps_roundtrip))
      else Ok None
  | RelaySpeedTest.Exchange failure => Raise (exchange_error failure)
  end.

(** One size with its [except Exception]. *)
Definition attempt_size (size : nat) (test_data : list byte)
           (a : RelaySpeedTest.attempt) : option entry :=
  match measure size test_data a with
  | Ok e => e
  | Raise _ => None
  end.

(** The [for size in data_sizes] loop; [k] counts the sizes done. *)
Fixpoint sizes_loop (data_sizes : list nat) (k : nat)
         (test_data : nat -> list byte) (net : nat -> RelaySpeedTest.attempt)
         (throughput_results : list (nat * option entry))
  : list (nat * option entry) :=
  match data_sizes with
  | [] => throughput_results
  | size :: rest =>
      sizes_loop rest (S k) test_data net
        (Dict.set Nat.eq_dec throughput_results size
           (attempt_size size (test_data k) (net k)))
  end.

(** [result.get('success', False)] *)
Definition succeeded (e : option entry) : bool :=
  match e with
  | Some _ => true
  | None => false
  end.

(** [SpeedTest.test_throughput]: the value returned and
    [self.results['throughput']]. *)
Definition test_throughput (data_sizes : list nat)
           (test_data : nat -> list byte) (net : nat -> RelaySpeedTest.attempt)
  : bool * list (nat * option entry) :=
  let throughput_results := sizes_loop data_sizes 0 test_data net [] in
  (existsb succeeded (Dict.values throughput_results), throughput_results).

(** The default of [data_sizes]. *)
Definition default_sizes : list nat := [64; 256; 1024; 4096; 16384]%nat.

End SpeedThroughput.

(* ===================================================================== *)
(** ** test-relay-speed.py: [test_throughput_range] *)
(* ===================================================================== *)

Module RelayRange.
Import Py RelaySpeedTest.

(** The [for size in sizes] loop: size number [k] has the payloads
    [test_data k] and the sockets [net k]; an exception leaving
    [test_single_throughput] leaves the loop. *)
Fixpoint range_loop (sizes : list nat) (k : nat)
         (test_data : nat -> nat -> list byte) (net : nat -> nat -> attempt)
         (results : list (nat * throughput_report))
  : result (list (nat * throughput_report)) :=
  match sizes with
  | [] => Ok results
  | size :: rest =>
      r <- test_single_throughput size 5 (test_data k) (net k) ;;
      range_loop rest (S k) test_data net
        match r with
        | Some report => Dict.set Nat.eq_dec results size report
        | None => results
        end
  end.

(** [RelaySpeedTest.test_throughput_range] *)
Definition test_throughput_range (sizes : list nat)
           (test_data : nat -> nat -> list byte) (net : nat -> nat -> attempt)
  : result (list (nat * throughput_report)) :=
  range_loop sizes 0 test_data net [].

(** The default of [sizes]. *)
Definition default_sizes : list nat := [64; 256; 1024; 4096; 8192]%nat.

End RelayRange.

(* ===================================================================== *)
(** ** test-speed.py: [test_concurrent_throughput] *)
(* ===================================================================== *)

(** Each client thread is sequential and appends one entry to the shared
    list when it ends; the order in which the threads end is an input. *)
Module SpeedConcurrent.
Import Py.

(** One pass through the body of a client's [while] loop. *)
Inductive pass : Type :=
| Echoed (same : bool)   (* a reply came; [same] is [response == message] *)
| SendTimedOut           (* sendto raised socket.timeout *)
| NotSent                (* sendto raised another error *)
| TimedOut               (* recvfrom raised socket.timeout *)
| RecvFailed.            (* recvfrom raised another error *)

(** The dictionary a client appends when it ran to its end. *)
Record client_report : Type := ClientReport {
  client_id : nat;
  messages_sent : Z;
  messages_received : Z;
  duration : R;
  success_rate : R
}.

(** An entry of [results]: a report, or [{'client_id': ..., 'error': ...}]. *)
Inductive client_entry : Type :=
| Report (r : client_report)
| Failed (client_id : nat).

(** The [while] loop of [client_thread]: only [socket.timeout] is caught
    inside it, around [sendto] as around [recvfrom]; a send that timed out
    is not counted. *)
Fixpoint client_loop (passes : list pass) (messages_sent messages_received : Z)
  : result (Z * Z) :=
  match passes with
  | [] => Ok (messages_sent, messages_received)
  | Echoed same :: rest =>
      client_loop rest (messages_sent + 1)
        (if same then messages_received + 1 else messages_received)
  | SendTimedOut :: rest => client_loop rest messages_sent messages_received
  | TimedOut :: rest => client_loop rest (messages_sent + 1) messages_received
  | NotSent :: _ => Raise OSError
  | RecvFailed :: _ => Raise OSError
  end%Z.

(** Line 175. *)
Definition rate (messages_sent messages_received : Z) : R :=
  if (0 <? messages_sent)%Z
  then (IZR messages_received / IZR messages_sent * 100)%R
  else 0%R.

(** What one client is given: whether its socket could be created, the
    passes its loop made before the deadline and the time it measured. *)
Record client : Type := Client {
  socket_created : bool;
  passes : list pass;
  actual_duration : R
}.

(** [client_thread(client_id)]: the entry it appends to [results]. *)
Definition client_thread (id : nat) (c : client) : client_entry :=
  if socket_created c then
    match client_loop (passes c) 0 0 with
    | Ok (sent, received) =>
        Report (ClientReport id sent received (actual_duration c)
                  (rate sent received))
    | Raise _ => Failed id
    end
  else Failed id.

(** [[r for r in results if 'error' not in r]] *)
Fixpoint successful (results : list client_entry) : list client_report :=
  match results with
  | [] => []
  | Report r :: rest => r :: successful rest
  | Failed _ :: rest => successful rest
  end.

(** [sum(...)] of integers. *)
Definition total (l : list Z) : Z := fold_right Z.add 0%Z l.

(** [self.results['concurrent']] *)
Record concurrent_report : Type := ConcurrentReport {
  total_sent : Z;
  total_received : Z;
  overall_success_rate : R;
  avg_client_success_rate : R;
  clients : list client_report
}.

(** Lines 197-221: the analysis of [results]; the overall rate is first
    computed for the report printed on line 207. *)
Definition analyse (results : list client_entry)
  : result (bool * option concurrent_report) :=
  match successful results with
  | [] => Ok (false, None)
  | successful_results =>
      let total_sent := total (map messages_sent successful_results) in
      let total_received := total (map messages_received successful_results) in
      avg_success_rate <- Stats.mean (map success_rate successful_results) ;;
      ratio <- Stats.div (IZR total_received) (IZR total_sent) ;;
      Ok (true,
          Some (ConcurrentReport total_sent total_received (ratio * 100)%R
                  avg_success_rate successful_results))
  end.

(** [SpeedTest.test_concurrent_throughput]: [finished] lists the clients in
    the order in which their threads appended to [results]. *)
Definition test_concurrent_throughput (clients : nat -> client)
           (finished : list nat) : result (bool * option concurrent_report) :=
  analyse (map (fun id => client_thread id (clients id)) finished).

End SpeedConcurrent.

(* ===================================================================== *)
(** ** test-relay-speed.py: [test_concurrent_throughput] *)
(* ===================================================================== *)

Module RelayConcurrent.
Import Py.

(** One pass through the body of a client's [while] loop, with the message
    it built. *)
Inductive pass : Type :=
| Reply (message response : list byte)
| NotSent (message : list byte)     (* sendto raised *)
| NoReply (message : list byte).    (* recvfrom raised *)

Record counters : Type := Counters {
  messages_sent : Z;
  messages_received : Z;
  total_bytes_sent : Z;
  total_bytes_received : Z
}.

(** The body of the loop: every exception is caught inside it. *)
Definition client_step (c : counters) (p : pass) : counters :=
  let '(Counters sent received bytes_sent bytes_received) := c in
  match p with
  | Reply message response =>
      if RelaySpeedTest.same_bytes response message
      then Counters (sent + 1) (received + 1)
                    (bytes_sent + Z.of_N (len message))
                    (bytes_received + Z.of_N (len response))
      else Counters (sent + 1) received
                    (bytes_sent + Z.of_N (len message)) bytes_received
  | NotSent _ => c
  | NoReply message =>
      Counters (sent + 1) received (bytes_sent + Z.of_N (len message))
               bytes_received
  end%Z.

Definition client_loop (passes : list pass) : counters :=
  fold_left client_step passes (Counters 0 0 0 0).

(** The dictionary a client appends when it ran to its end. *)
Record client_report : Type := ClientReport {
  client_id : nat;
  final : counters;
  duration : R;
  success_rate : R;
  throughput_mbps : R;
  throughput_roundtrip_mbps : R
}.

Inductive client_entry : Type :=
| Report (r : client_report)
| Failed (client_id : nat).

Record client : Type := Client {
  socket_created : bool;
  passes : list pass;
  actual_duration : R
}.

(** [client_thread(client_id)]: the two throughput figures are computed
    inside the outer [try], before the dictionary is built. *)
Definition client_thread (id : nat) (c : client) : client_entry :=
  if socket_created c then
    let n := client_loop (passes c) in
    match
      (throughput_mbps <-
         Stats.div (IZR (total_bytes_sent n) * 8)
                   (actual_duration c * 1000000) ;;
       throughput_roundtrip_mbps <-
         Stats.div (IZR (total_bytes_received n) * 8)
                   (actual_duration c * 1000000) ;;
       Ok (ClientReport id n (actual_duration c)
             (SpeedConcurrent.rate (messages_sent n) (messages_received n))
             throughput_mbps throughput_roundtrip_mbps))
    with
    | Ok r => Report r
    | Raise _ => Failed id
    end
  else Failed id.

Fixpoint successful (results : list client_entry) : list client_report :=
  match results with
  | [] => []
  | Report r :: rest => r :: successful rest
  | Failed _ :: rest => successful rest
  end.

(** [self.results['concurrent']] *)
Record concurrent_report : Type := ConcurrentReport {
  total_sent : Z;
  total_received : Z;
  sum_bytes_sent : Z;
  sum_bytes_received : Z;
  overall_success_rate : R;
  avg_client_success_rate : R;
  avg_throughput_mbps : R;
  clients : list client_report
}.

(** Lines 188-221. *)
Definition analyse (results : list client_entry)
  : result (bool * option concurrent_report) :=
  match successful results with
  | [] => Ok (false, None)
  | successful_results =>
      let counts := map final successful_results in
      let total_sent := SpeedConcurrent.total (map messages_sent counts) in
      let total_received :=
        SpeedConcurrent.total (map messages_received counts) in
      let total_bytes_sent :=
        SpeedConcurrent.total (map total_bytes_sent counts) in
      let total_bytes_received :=
        SpeedConcurrent.total (map total_bytes_received counts) in
      avg_success_rate <- Stats.mean (map success_rate successful_results) ;;
      avg_throughput <- Stats.mean (map throughput_mbps successful_results) ;;
      ratio <- Stats.div (IZR total_received) (IZR total_sent) ;;
      Ok (true,
          Some (ConcurrentReport total_sent total_received total_bytes_sent
                  total_bytes_received (ratio * 100)%R avg_success_rate
                  avg_throughput successful_results))
  end.

(** [RelaySpeedTest.test_concurrent_throughput] *)
Definition test_concurrent_throughput (clients : nat -> client)
           (finished : list nat) : result (bool * option concurrent_report) :=
  analyse (map (fun id => client_thread id (clients id)) finished).

End RelayConcurrent.

(* ===================================================================== *)
(** ** [run_all_tests] of both classes *)
(* ===================================================================== *)

Module Suite.
Import Py.

(** What a test method hands back: a truth value, or a dictionary. *)
Inductive value (D : Type) : Type :=
| Flag (b : bool)
| Mapping (d : D).
Arguments Flag {D} b.
Arguments Mapping {D} d.

(** [sum(values)] from the integer [acc]: a [bool] counts as 0 or 1, a
    dictionary cannot be added to an integer. *)
Fixpoint py_sum {D} (values : list (value D)) (acc : Z) : result Z :=
  match values with
  | [] => Ok acc
  | Flag b :: rest => py_sum rest (acc + (if b then 1 else 0))%Z
  | Mapping _ :: _ => Raise TypeError
  end.

(** One turn of the [for test_name, test_func in tests] loop: the outcome of
    calling [test_func] is stored, [False] when it raised. *)
Definition record {D} (results : list (string * value D))
           (test : string * result (value D)) : list (string * value D) :=
  Dict.set string_dec results (fst test)
    match snd test with
    | Ok success => success
    | Raise _ => Flag false
    end.

(** The body shared by both [run_all_tests]: [tests] pairs each name with
    the outcome of its call; the final report sums the stored values. *)
Definition run_all_tests {D} (tests : list (string * result (value D)))
  : result (list (string * value D)) :=
  let results := fold_left record tests [] in
  passed <- py_sum (Dict.values results) 0 ;;
  Ok results.

(** What the four phases of [SpeedTest.run_all_tests] meet. *)
Record speed_world : Type := SpeedWorld {
  latency_socket : bool;
  latency_net : nat -> exchange;
  throughput_data : nat -> list byte;
  throughput_net : nat -> RelaySpeedTest.attempt;
  concurrent_clients : nat -> SpeedConcurrent.client;
  concurrent_finished : list nat;
  stress_socket : bool;
  stress_passes : list SpeedTest.attempt;
  stress_duration : float
}.

Definition flag_of {D} (r : result bool) : result (value D) :=
  b <- r ;; Ok (Flag b).

(** The [tests] list of [SpeedTest.run_all_tests], each test called. *)
Definition speed_tests (w : speed_world)
  : list (string * result (value Empty_set)) :=
  [ ("Latency Test"%string,
     flag_of (SpeedTest.returned
                (SpeedTest.test_latency 10 (latency_socket w) (latency_net w))));
    ("Throughput Test"%string,
     Ok (Flag (fst (SpeedThroughput.test_throughput
                      SpeedThroughput.default_sizes
                      (throughput_data w) (throughput_net w)))));
    ("Concurrent Test"%string,
     r <- SpeedConcurrent.test_concurrent_throughput
            (concurrent_clients w) (concurrent_finished w) ;;
     Ok (Flag (fst r)));
    ("Stress Test"%string,
     flag_of (SpeedTest.returned
                (SpeedTest.test_stress (stress_socket w) (stress_passes w)
                   (stress_duration w)))) ].

(** [SpeedTest.run_all_tests] *)
Definition speed_run_all_tests (w : speed_world)
  : result (list (string * value Empty_set)) :=
  run_all_tests (speed_tests w).

(** What the three phases of [RelaySpeedTest.run_all_tests] meet. *)
Record relay_world : Type := RelayWorld {
  relay_latency_net : nat -> RelaySpeedTest.attempt;
  range_data : nat -> nat -> list byte;
  range_net : nat -> nat -> RelaySpeedTest.attempt;
  relay_clients : nat -> RelayConcurrent.client;
  relay_finished : list nat
}.

(** The dictionary [test_throughput_range] returns. *)
Definition range_results : Type :=
  list (nat * RelaySpeedTest.throughput_report).

(** The [tests] list of [RelaySpeedTest.run_all_tests], each test called:
    the second one returns its dictionary of results. *)
Definition relay_tests (w : relay_world)
  : list (string * result (value range_results)) :=
  [ ("Latency Test"%string,
     flag_of (SpeedTest.returned
                (RelaySpeedTest.test_latency 20 (relay_latency_net w))));
    ("Throughput Range Test"%string,
     d <- RelayRange.test_throughput_range RelayRange.default_sizes
            (range_data w) (range_net w) ;;
     Ok (Mapping d));
    ("Concurrent Test"%string,
     r <- RelayConcurrent.test_concurrent_throughput
            (relay_clients w) (relay_finished w) ;;
     Ok (Flag (fst r))) ].

(** [RelaySpeedTest.run_all_tests] *)
Definition relay_run_all_tests (w : relay_world)
  : result (list (string * value range_results)) :=
  run_all_tests (relay_tests w).

End Suite.

(* ===================================================================== *)
(** ** Notions the further statements name *)
(* ===================================================================== *)

Module Notions.
Import Py.

(** The bounds of an attribute read from the wire. *)
Definition attribute_in_bounds (a : Stun.attribute) : Prop :=
  (Stun.attr_type a < 65536)%N /\ (Stun.attr_length a < 65536)%N /\
  (len (Stun.attr_value a) <= Stun.attr_length a)%N.

(** How many of the requests [i], ..., [i + todo - 1] have the verdict
    [True]. *)
Definition successes (verdicts : nat -> bool) (i todo : nat) : nat :=
  List.length (filter verdicts (seq i todo)).

(** An exchange that was answered, and the latency measured for it. *)
Definition replied (x : exchange) : bool :=
  match x with
  | Replied _ _ _ => true
  | _ => false
  end.

Definition latency_ms (x : exchange) : R :=
  match x with
  | Replied start_time end_time _ => ((end_time - start_time) * 1000)%R
  | _ => 0%R
  end.

Definition relay_replied (a : RelaySpeedTest.attempt) : bool :=
  match a with
  | RelaySpeedTest.Exchange x => replied x
  | RelaySpeedTest.NoSocket => false
  end.

Definition relay_latency_ms (a : RelaySpeedTest.attempt) : R :=
  match a with
  | RelaySpeedTest.Exchange x => latency_ms x
  | RelaySpeedTest.NoSocket => 0%R
  end.

(** The round-trip time of an attempt, in seconds. *)
Definition duration_s (a : RelaySpeedTest.attempt) : R :=
  match a with
  | RelaySpeedTest.Exchange (Replied start_time end_time _) =>
      (end_time - start_time)%R
  | _ => 0%R
  end.

(** The iterations among [i], ..., [i + todo - 1] of which
    [test_single_throughput] keeps a duration. *)
Definition completed_in (test_data : nat -> list byte)
           (net : nat -> RelaySpeedTest.attempt) (i todo : nat) : list nat :=
  filter (Spec.completed test_data net) (seq i todo).

(** The numbers of the report of the concurrent phase, without the list of
    clients. *)
Definition concurrent_figures
           (o : result (bool * option SpeedConcurrent.concurrent_report))
  : result (bool * option (Z * Z * R * R)) :=
  r <- o ;;
  Ok (fst r,
      option_map
        (fun c => (SpeedConcurrent.total_sent c,
                   SpeedConcurrent.total_received c,
                   SpeedConcurrent.overall_success_rate c,
                   SpeedConcurrent.avg_client_success_rate c))
        (snd r)).

(** A pass of a client of [SpeedTest] that ends its thread. *)
Definition fatal (p : SpeedConcurrent.pass) : bool :=
  match p with
  | SpeedConcurrent.NotSent | SpeedConcurrent.RecvFailed => true
  | _ => false
  end.

(** A pass of a client of [SpeedTest] whose message went out and which the
    loop survived. *)
Definition went_out (p : SpeedConcurrent.pass) : bool :=
  match p with
  | SpeedConcurrent.Echoed _ | SpeedConcurrent.TimedOut => true
  | _ => false
  end.

(** The entries [test_throughput] computes for its sizes, size number [k]
    first. *)
Fixpoint size_entries (test_data : nat -> list byte)
         (net : nat -> RelaySpeedTest.attempt) (sizes : list nat) (k : nat)
  : list (nat * option SpeedThroughput.entry) :=
  match sizes with
  | [] => []
  | size :: rest =>
      (size, SpeedThroughput.attempt_size size (test_data k) (net k))
        :: size_entries test_data net rest (S k)
  end.

(** What a stored report of [test_throughput_range] satisfies under its
    key. *)
Definition range_entry_ok (size : nat) (r : RelaySpeedTest.throughput_report)
  : Prop :=
  RelaySpeedTest.data_size r = size /\
  RelaySpeedTest.iterations r = 5%nat /\
  (1 <= RelaySpeedTest.successful_transfers r <= 5)%nat.

(** The counters of the stress loop after [n] passes. *)
Definition stress_counters_ok (c : SpeedTest.counters) (n : Z) : Prop :=
  (0 <= SpeedTest.messages_received c <= SpeedTest.messages_sent c)%Z /\
  (SpeedTest.messages_sent c <= n)%Z /\
  (0 <= SpeedTest.errors c <= n)%Z /\
  (SpeedTest.messages_received c + SpeedTest.errors c <= n)%Z /\
  (n <= SpeedTest.messages_sent c + SpeedTest.errors c)%Z.

(** What every report of a client of [SpeedTest] satisfies. *)
Definition client_report_ok (r : SpeedConcurrent.client_report) : Prop :=
  (0 <= SpeedConcurrent.messages_received r
   <= SpeedConcurrent.messages_sent r)%Z /\
  (0 <= SpeedConcurrent.success_rate r <= 100)%R.

(** The counters of a client of [RelaySpeedTest] after [n] passes. *)
Definition relay_counters_ok (c : RelayConcurrent.counters) (n : Z) : Prop :=
  (0 <= RelayConcurrent.messages_received c
   <= RelayConcurrent.messages_sent c)%Z /\
  (RelayConcurrent.messages_sent c <= n)%Z /\
  (0 <= RelayConcurrent.total_bytes_received c
   <= RelayConcurrent.total_bytes_sent c)%Z.

(** What every report of a client of [RelaySpeedTest] satisfies. *)
Definition relay_report_ok (r : RelayConcurrent.client_report) : Prop :=
  let c := RelayConcurrent.final r in
  (0 <= RelayConcurrent.messages_received c
   <= RelayConcurrent.messages_sent c)%Z /\
  (0 <= RelayConcurrent.total_bytes_received c
   <= RelayConcurrent.total_bytes_sent c)%Z /\
  (0 <= RelayConcurrent.success_rate r <= 100)%R.

(** The outcome of a test as [run_all_tests] stores it. *)
Definition stored_flag (r : result bool) : bool :=
  match r with
  | Ok b => b
  | Raise _ => false
  end.

End Notions.

(* ===================================================================== *)
(** * Part II: properties *)
(* ===================================================================== *)

Import Py.

(** ** Slices and the two-byte fields *)

Module BytesFacts.
Local Open Scope N_scope.

Lemma len_slice {A} (l : list A) (lo hi : N) :
  len (slice l lo hi) = N.min (hi - lo) (len l - lo).
Proof.
  unfold len, slice. rewrite length_firstn, length_skipn. lia.
Qed.

Lemma len_app {A} (l1 l2 : list A) : len (l1 ++ l2) = len l1 + len l2.
Proof. unfold len. rewrite length_app. lia. Qed.

(** A slice that ends inside the first of two joined sequences. *)
Lemma slice_app_left {A} (l1 l2 : list A) (lo hi : N) :
  hi <= len l1 -> slice (l1 ++ l2) lo hi = slice l1 lo hi.
Proof.
  unfold slice, len. intros H.
  destruct (N.le_gt_cases lo (N.of_nat (List.length l1))) as [Hlo|Hlo].
  - rewrite skipn_app, firstn_app, length_skipn.
    replace (N.to_nat (hi - lo) - (List.length l1 - N.to_nat lo))%nat
      with 0%nat by lia.
    rewrite firstn_O, app_nil_r. reflexivity.
  - replace (N.to_nat (hi - lo)) with 0%nat by lia. reflexivity.
Qed.

(** The slice that covers exactly the middle of three joined sequences. *)
Lemma slice_middle {A} (pre l post : list A) (lo hi : N) :
  lo = len pre -> hi = lo + len l ->
  slice (pre ++ l ++ post) lo hi = l.
Proof.
  intros -> ->. unfold slice, len.
  replace (N.to_nat (N.of_nat (List.length pre) + N.of_nat (List.length l)
                     - N.of_nat (List.length pre)))
    with (List.length l) by lia.
  rewrite Nat2N.id, skipn_app, skipn_all, Nat.sub_diag. cbn [skipn app].
  rewrite firstn_app, firstn_all, Nat.sub_diag, firstn_O, app_nil_r.
  reflexivity.
Qed.

Lemma unpack_H_two (s : list byte) :
  len s = 2 -> exists v, unpack_H s = Ok v.
Proof.
  unfold len.
  destruct s as [|a [|b [|c s]]]; cbn [List.length]; intros H; try lia.
  eexists; reflexivity.
Qed.

Lemma to_N_byte_of_N (v : N) : v < 256 -> Byte.to_N (byte_of_N v) = v.
Proof.
  intros H. unfold byte_of_N. rewrite N.mod_small by exact H.
  destruct (Byte.of_N v) as [b|] eqn:Hb.
  - apply Byte.to_of_N. exact Hb.
  - apply Byte.of_N_None_iff in Hb. lia.
Qed.

Lemma unpack_be16 (v : N) : v < 65536 -> unpack_H (Spec.be16 v) = Ok v.
Proof.
  intros H. unfold Spec.be16, unpack_H.
  rewrite !to_N_byte_of_N.
  - f_equal. pose proof (N.div_mod v 256). lia.
  - apply N.mod_lt. lia.
  - apply N.Div0.div_lt_upper_bound. lia.
Qed.

Lemma unhex_hex (s : list byte) : Spec.unhex (hex s) = s.
Proof.
  induction s as [|b s IH]; [reflexivity|].
  cbn [hex Spec.unhex]. rewrite IH. f_equal.
  destruct b; vm_compute; reflexivity.
Qed.

(** The hexadecimal text determines the bytes. *)
Lemma hex_inj (s1 s2 : list byte) : hex s1 = hex s2 -> s1 = s2.
Proof.
  intros H. rewrite <- (unhex_hex s1), <- (unhex_hex s2), H. reflexivity.
Qed.

End BytesFacts.

(** ** The attribute loop *)

Module StunFacts.
Import Stun BytesFacts.
Local Open Scope N_scope.

Lemma attr_step_next data msg_length offset offset' a :
  attr_step data msg_length offset = Next offset' a ->
  offset < 20 + msg_length /\ offset + 4 <= len data /\ offset + 4 <= offset'.
Proof.
  unfold attr_step.
  destruct (offset <? 20 + msg_length) eqn:Hc; cbn [negb]; [|discriminate].
  destruct (len data <? offset + 4) eqn:Hb; [discriminate|].
  destruct (unpack_H _); [|discriminate].
  destruct (unpack_H _); [|discriminate].
  intros [= <- <-].
  apply N.ltb_lt in Hc. apply N.ltb_ge in Hb. lia.
Qed.

Lemma attr_step_decreases data msg_length offset offset' a :
  attr_step data msg_length offset = Next offset' a ->
  (remaining msg_length offset' < remaining msg_length offset)%nat.
Proof.
  intros H. apply attr_step_next in H. unfold remaining. lia.
Qed.

(** Inside the bounds check both 2-byte fields are whole, so the
    unpacking in the loop body cannot raise. *)
Lemma attr_step_no_fault data msg_length offset e :
  attr_step data msg_length offset <> Fault e.
Proof.
  unfold attr_step.
  destruct (negb _); [discriminate|].
  destruct (len data <? offset + 4) eqn:Hb; [discriminate|].
  apply N.ltb_ge in Hb.
  destruct (unpack_H_two (slice data offset (offset + 2))) as [t Ht].
  { rewrite len_slice. lia. }
  destruct (unpack_H_two (slice data (offset + 2) (offset + 4))) as [l Hl].
  { rewrite len_slice. lia. }
  rewrite Ht, Hl. discriminate.
Qed.

Lemma attr_step_exit data msg_length offset :
  attr_step data msg_length offset = Exit <->
  20 + msg_length <= offset \/ len data < offset + 4.
Proof.
  pose proof (@attr_step_no_fault data msg_length offset) as NF.
  unfold attr_step in *.
  destruct (offset <? 20 + msg_length) eqn:Hc; cbn [negb] in *.
  - apply N.ltb_lt in Hc.
    destruct (len data <? offset + 4) eqn:Hb.
    + apply N.ltb_lt in Hb. split; [right; lia | reflexivity].
    + apply N.ltb_ge in Hb.
      destruct (unpack_H _); [|exfalso; eapply NF; reflexivity].
      destruct (unpack_H _); [|exfalso; eapply NF; reflexivity].
      split; [discriminate | lia].
  - apply N.ltb_ge in Hc. split; [left; lia | reflexivity].
Qed.

Lemma attr_loop_unfold data msg_length offset attributes :
  attr_loop data msg_length offset attributes =
  match attr_step data msg_length offset with
  | Exit => Ok attributes
  | Fault e => Raise e
  | Next offset' a => attr_loop data msg_length offset' (attributes ++ [a])
  end.
Proof.
  funelim (attr_loop data msg_length offset attributes);
    match goal with E : attr_step _ _ _ = _ |- _ => rewrite E end;
    reflexivity.
Qed.

(** The loop always hands back a list of attributes. *)
Lemma attr_loop_returns data msg_length offset attributes :
  exists attrs, attr_loop data msg_length offset attributes = Ok attrs.
Proof.
  remember (remaining msg_length offset) as n eqn:Hn.
  revert offset attributes Hn.
  induction n as [n IH] using lt_wf_ind; intros offset attributes ->.
  rewrite attr_loop_unfold.
  destruct (attr_step data msg_length offset) as [|e|offset' a] eqn:Hs.
  - eexists; reflexivity.
  - exfalso. eapply attr_step_no_fault; eassumption.
  - eapply IH; [eapply attr_step_decreases; eassumption | reflexivity].
Qed.

(** Fuel that covers the declared section is enough for [attr_run]. *)
Lemma attr_run_enough fuel data msg_length :
  forall offset attributes,
    (remaining msg_length offset + 4 <= 4 * fuel)%nat ->
    attr_run fuel data msg_length offset attributes =
    Some (attr_loop data msg_length offset attributes).
Proof.
  induction fuel as [|fuel IH]; intros offset attributes Hfuel; [lia|].
  rewrite attr_loop_unfold. cbn [attr_run].
  destruct (attr_step data msg_length offset) as [|e|offset' a] eqn:Hs;
    try reflexivity.
  apply IH. apply attr_step_next in Hs. unfold remaining in *. lia.
Qed.

Lemma header_fields data :
  20 <= len data ->
  exists t m, unpack_H (slice data 0 2) = Ok t /\
              unpack_H (slice data 2 4) = Ok m.
Proof.
  intros H.
  destruct (unpack_H_two (slice data 0 2)) as [t Ht].
  { rewrite len_slice. lia. }
  destruct (unpack_H_two (slice data 2 4)) as [m Hm].
  { rewrite len_slice. lia. }
  eauto.
Qed.

End StunFacts.

(** ** Attributes on the wire *)

Module WireFacts.
Import Stun Spec BytesFacts.
Local Open Scope N_scope.

Lemma len_wire_attribute a :
  len (wire_attribute a) = 4 + len (attr_value a).
Proof.
  unfold wire_attribute, be16, len. rewrite !length_app. cbn [List.length]. lia.
Qed.

(** One evaluation of the loop body in front of a serialized attribute
    reads that attribute and moves behind it. *)
Lemma attr_step_wire (a : attribute) (pre rest : list byte) (msg_length : N) :
  well_formed a ->
  len pre < 20 + msg_length ->
  attr_step (pre ++ wire_attribute a ++ rest) msg_length (len pre) =
  Next (len pre + 4 + attr_length a) a.
Proof.
  intros (Ht & Hl & Hv) Hinside.
  set (data := pre ++ wire_attribute a ++ rest).
  assert (S1 : slice data (len pre) (len pre + 2) = be16 (attr_type a)).
  { unfold data, wire_attribute. rewrite <- !app_assoc.
    apply slice_middle; reflexivity. }
  assert (S2 : slice data (len pre + 2) (len pre + 4) = be16 (attr_length a)).
  { unfold data, wire_attribute. rewrite <- !app_assoc.
    rewrite (app_assoc pre). apply slice_middle.
    - rewrite len_app. reflexivity.
    - change (len (be16 (attr_length a))) with 2. lia. }
  assert (S3 : slice data (len pre + 4) (len pre + 4 + attr_length a) =
               attr_value a).
  { unfold data, wire_attribute. rewrite <- !app_assoc.
    rewrite (app_assoc pre), (app_assoc (pre ++ _)). apply slice_middle.
    - rewrite !len_app. change (len (be16 (attr_type a))) with 2.
      change (len (be16 (attr_length a))) with 2. lia.
    - rewrite Hv. reflexivity. }
  unfold attr_step.
  replace (len pre <? 20 + msg_length) with true
    by (symmetry; apply N.ltb_lt; lia).
  cbn [negb].
  replace (len data <? len pre + 4) with false.
  2:{ symmetry. apply N.ltb_ge. unfold data.
      rewrite !len_app, len_wire_attribute. lia. }
  rewrite S1, (unpack_be16 _ Ht), S2, (unpack_be16 _ Hl), S3.
  destruct a; reflexivity.
Qed.

(** The loop, started in front of a serialized list of attributes that ends
    where the declared section ends, appends exactly that list. *)
Lemma attr_loop_wire (attrs : list attribute) :
  forall pre post msg_length acc,
    Forall well_formed attrs ->
    20 + msg_length = len pre + len (wire_attributes attrs) ->
    attr_loop (pre ++ wire_attributes attrs ++ post) msg_length (len pre) acc =
    Ok (acc ++ attrs).
Proof.
  induction attrs as [|a attrs IH]; intros pre post msg_length acc Hwf Hend.
  - rewrite StunFacts.attr_loop_unfold.
    replace (attr_step _ _ _) with Exit.
    + rewrite app_nil_r. reflexivity.
    + symmetry. apply StunFacts.attr_step_exit. left.
      change (len (wire_attributes [])) with 0 in Hend. lia.
  - inversion Hwf as [|? ? Ha Hwf']; subst.
    change (wire_attributes (a :: attrs))
      with (wire_attribute a ++ wire_attributes attrs) in *.
    rewrite len_app, len_wire_attribute in Hend.
    rewrite StunFacts.attr_loop_unfold, <- app_assoc.
    rewrite attr_step_wire by (exact Ha || lia).
    replace (len pre + 4 + attr_length a) with (len (pre ++ wire_attribute a)).
    2:{ destruct Ha as (_ & _ & Hv).
        rewrite len_app, len_wire_attribute. lia. }
    rewrite (app_assoc pre).
    rewrite IH.
    + rewrite <- app_assoc. reflexivity.
    + exact Hwf'.
    + rewrite len_app, len_wire_attribute. lia.
Qed.

(** A message laid out as the decoder expects it: header, transaction id,
    four more bytes, then the serialized attributes. *)
Lemma parse_wire_message (t : N) (tid filler : list byte)
      (attrs : list attribute) (post : list byte) :
  t < 65536 ->
  len tid = 12 ->
  len filler = 4 ->
  Forall well_formed attrs ->
  0 < len (wire_attributes attrs) < 65536 ->
  parse_stun_response
    (be16 t ++ be16 (len (wire_attributes attrs)) ++ tid ++ filler ++
     wire_attributes attrs ++ post) =
  Ok (Some (Parsed t (len (wire_attributes attrs)) (hex tid) (Some attrs)),
      None).
Proof.
  intros Ht Htid Hfiller Hwf [Hpos Hfit].
  set (body := wire_attributes attrs) in *.
  set (data := be16 t ++ be16 (len body) ++ tid ++ filler ++ body ++ post).
  assert (Hlen : len data = 20 + len body + len post).
  { unfold data. rewrite !len_app, Htid, Hfiller.
    change (len (be16 t)) with 2. change (len (be16 (len body))) with 2. lia. }
  assert (S1 : slice data 0 2 = be16 t).
  { unfold data. apply (slice_middle []); reflexivity. }
  assert (S2 : slice data 2 4 = be16 (len body)).
  { unfold data. apply slice_middle; reflexivity. }
  assert (S3 : slice data 4 16 = tid).
  { unfold data. rewrite (app_assoc (be16 t)). apply slice_middle.
    - reflexivity.
    - rewrite Htid. reflexivity. }
  assert (Hloop : attr_loop data (len body) 20 [] = Ok attrs).
  { pose proof (attr_loop_wire attrs
                  (be16 t ++ be16 (len body) ++ tid ++ filler) post
                  (len body) [] Hwf) as H.
    replace (len (be16 t ++ be16 (len body) ++ tid ++ filler)) with 20 in H
      by (rewrite !len_app, Htid, Hfiller; reflexivity).
    rewrite <- !app_assoc in H. apply H. reflexivity. }
  unfold parse_stun_response.
  replace (len data <? 20) with false by (symmetry; apply N.ltb_ge; lia).
  rewrite S1, (unpack_be16 _ Ht), S2, (unpack_be16 _ Hfit), S3. cbn [bind].
  replace (0 <? len body) with true by (symmetry; apply N.ltb_lt; lia).
  replace (20 + len body <=? len data) with true
    by (symmetry; apply N.leb_le; lia).
  cbn [andb]. rewrite Hloop. reflexivity.
Qed.

End WireFacts.

(* ===================================================================== *)
(** ** The response decoder: totality, truncation, termination *)
(* ===================================================================== *)

(** The error pair is returned for the short inputs and for no others. *)
Lemma parse_stun_response_error_iff_short (data : list byte) :
  (exists e, Stun.parse_stun_response data = Ok (None, Some e)) <->
  (len data < 20)%N.
Proof.
  unfold Stun.parse_stun_response.
  destruct (len data <? 20)%N eqn:Hshort.
  - apply N.ltb_lt in Hshort. split; [intros _; exact Hshort | eauto].
  - apply N.ltb_ge in Hshort. split; [|lia].
    intros [e He]. exfalso.
    destruct (unpack_H (slice data 0 2)) as [n|]; cbn [bind] in He;
      [|discriminate].
    destruct (unpack_H (slice data 2 4)) as [n0|]; cbn [bind] in He;
      [|discriminate].
    destruct (if ((0 <? n0)%N && (20 + n0 <=? len data)%N)%bool
              then attrs <- Stun.attr_loop data n0 20 [] ;; Ok (Some attrs)
              else Ok None);
      cbn [bind] in He; discriminate.
Qed.

(** C9. For every input of at least 20 bytes the response decoder returns a
    parsed message and no error; its declared length is the big-endian
    number at bytes 2-3, and when that length exceeds the bytes after the
    first 20 the message simply has no attributes field. *)
Theorem parse_stun_response_total_from_20 (data : list byte) :
  (20 <= len data)%N ->
  exists p,
    Stun.parse_stun_response data = Ok (Some p, None) /\
    unpack_H (slice data 2 4) = Ok (Stun.msg_length p) /\
    ((len data - 20 < Stun.msg_length p)%N -> Stun.attributes p = None).
Proof.
  intros Hlen.
  destruct (StunFacts.header_fields data Hlen) as (t & m & Ht & Hm).
  unfold Stun.parse_stun_response.
  destruct (len data <? 20)%N eqn:Hshort; [apply N.ltb_lt in Hshort; lia|].
  rewrite Ht, Hm. cbn [bind].
  destruct ((0 <? m)%N && (20 + m <=? len data)%N) eqn:Hguard.
  - destruct (StunFacts.attr_loop_returns data m 20 []) as [attrs Hattrs].
    rewrite Hattrs. cbn [bind].
    eexists. split; [reflexivity|]. split; [reflexivity|].
    cbn [Stun.msg_length Stun.attributes]. intros Hover.
    apply andb_true_iff in Hguard as [_ Hfit]. apply N.leb_le in Hfit. lia.
  - cbn [bind]. eexists. split; [reflexivity|]. split; reflexivity.
Qed.

Lemma parse_stun_response_total_from_20_witness :
  (20 <= len Samples.truncated_reply)%N /\
  exists p,
    Stun.parse_stun_response Samples.truncated_reply = Ok (Some p, None) /\
    unpack_H (slice Samples.truncated_reply 2 4) = Ok (Stun.msg_length p) /\
    ((len Samples.truncated_reply - 20 < Stun.msg_length p)%N ->
     Stun.attributes p = None).
Proof.
  split.
  - vm_compute. discriminate.
  - apply (parse_stun_response_total_from_20 Samples.truncated_reply).
    vm_compute. discriminate.
Defined.

(** C2, as the claim states it, fails: a 24-byte reply whose header declares
    8 attribute bytes, 4 more than are left after the first 20, is decoded
    without any error, the attributes being dropped. *)
Lemma truncated_attributes_not_reported :
  (20 <= len Samples.truncated_reply)%N /\
  unpack_H (slice Samples.truncated_reply 2 4) = Ok 8%N /\
  (len Samples.truncated_reply - 20 < 8)%N /\
  Stun.parse_stun_response Samples.truncated_reply =
  Ok (Some (Stun.Parsed 0x0101 8 "a0a1a2a3a4a5a6a7a8a9aaab" None), None).
Proof.
  vm_compute. repeat split; discriminate.
Qed.

(** C2 (amended). An input shorter than 20 bytes is refused with the error
    "Response too short"; an input of at least 20 bytes whose header declares
    more attribute bytes than follow the first 20 is not refused: the decoder
    returns the message type, the declared length and the transaction id read
    from the header, without an attributes field. *)
Theorem parse_stun_response_short_and_truncated (data : list byte) :
  ((len data < 20)%N ->
   Stun.parse_stun_response data =
   Ok (None, Some "Response too short"%string)) /\
  (forall t m,
     (20 <= len data)%N ->
     unpack_H (slice data 0 2) = Ok t ->
     unpack_H (slice data 2 4) = Ok m ->
     (len data - 20 < m)%N ->
     Stun.parse_stun_response data =
     Ok (Some (Stun.Parsed t m (hex (slice data 4 16)) None), None)).
Proof.
  unfold Stun.parse_stun_response. split.
  - intros H. apply N.ltb_lt in H. rewrite H. reflexivity.
  - intros t m Hlen Ht Hm Hover.
    destruct (len data <? 20)%N eqn:Hshort; [apply N.ltb_lt in Hshort; lia|].
    rewrite Ht, Hm. cbn [bind].
    replace (20 + m <=? len data)%N with false
      by (symmetry; apply N.leb_gt; lia).
    rewrite andb_false_r. reflexivity.
Qed.

Lemma parse_stun_response_short_and_truncated_witness :
  Stun.parse_stun_response [x01; x01; x00] =
  Ok (None, Some "Response too short"%string) /\
  Stun.parse_stun_response Samples.truncated_reply =
  Ok (Some (Stun.Parsed 0x0101 8
              (hex (slice Samples.truncated_reply 4 16)) None), None).
Proof.
  split.
  - apply (proj1 (parse_stun_response_short_and_truncated [x01; x01; x00])).
    vm_compute. reflexivity.
  - apply (proj2 (parse_stun_response_short_and_truncated
                    Samples.truncated_reply));
      vm_compute; (reflexivity || discriminate).
Defined.

(** C10. The attribute loop terminates for every input and every declared
    length: an evaluation of its body either leaves the loop, exactly when
    the offset has reached the end of the declared section or fewer than 4
    bytes remain, or moves the offset at least 4 bytes forward; so the loop
    is over within a number of evaluations bounded by the bytes of the
    declared section still ahead, and never with a raised exception. *)
Theorem attribute_loop_terminates
        (data : list byte) (msg_length offset : N)
        (attributes : list Stun.attribute) :
  (Stun.attr_step data msg_length offset = Stun.Exit <->
   (20 + msg_length <= offset \/ len data < offset + 4)%N) /\
  (forall offset' a,
     Stun.attr_step data msg_length offset = Stun.Next offset' a ->
     (offset + 4 <= offset')%N) /\
  (forall e, Stun.attr_step data msg_length offset <> Stun.Fault e) /\
  exists attrs,
    Stun.attr_run (Stun.remaining msg_length offset / 4 + 2)
                  data msg_length offset attributes = Some (Ok attrs) /\
    Stun.attr_loop data msg_length offset attributes = Ok attrs.
Proof.
  split; [apply StunFacts.attr_step_exit|].
  split; [intros offset' a H; apply StunFacts.attr_step_next in H; lia|].
  split; [intros e; apply StunFacts.attr_step_no_fault|].
  destruct (StunFacts.attr_loop_returns data msg_length offset attributes)
    as [attrs Hattrs].
  exists attrs. split; [|exact Hattrs].
  rewrite StunFacts.attr_run_enough, Hattrs; [reflexivity|].
  pose proof (Nat.div_mod_eq (Stun.remaining msg_length offset) 4) as Hd.
  pose proof (Nat.mod_upper_bound (Stun.remaining msg_length offset) 4) as Hm.
  lia.
Qed.

(* ===================================================================== *)
(** ** Requests, replies and the probe's verdict *)
(* ===================================================================== *)

Lemma create_stun_request_eq (randint : nat -> byte) :
  Stun.create_stun_request randint =
  Ok ([x00; x01; x00; x00] ++ map randint (seq 0 12), map randint (seq 0 12)).
Proof. reflexivity. Qed.

(** C6, as the claim states it, fails: the bytes [create_stun_request]
    produces are refused by [parse_stun_response], being 16 bytes long. *)
Lemma request_does_not_decode :
  exists request transaction_id,
    Stun.create_stun_request Samples.counting_draws =
    Ok (request, transaction_id) /\
    len transaction_id = 12%N /\
    Stun.parse_stun_response request =
    Ok (None, Some "Response too short"%string).
Proof.
  do 2 eexists. split; [reflexivity|]. split; reflexivity.
Qed.

(** C6 (amended). For every 12-byte transaction id drawn by
    [create_stun_request], the request is the 16 bytes made of the big-endian
    message type 0x0001 at offset 0, the big-endian attributes length 0 at
    offset 2 and the transaction id at offsets 4-15.  The decoder refuses
    these 16 bytes as too short; followed by at least 4 further bytes it
    decodes them to the same message type, length 0 and transaction id (as
    its hexadecimal text, which determines the id), with no attributes, the
    request carrying none.  With any 16-bit message type and, after 4 bytes
    behind the transaction id, attributes serialized as type, length and
    value whose total byte length (1 to 65535) stands in the header, it
    reproduces the transaction id and the identical attributes. *)
Theorem request_layout_and_padded_roundtrip (randint : nat -> byte) :
  exists request transaction_id,
    Stun.create_stun_request randint = Ok (request, transaction_id) /\
    len transaction_id = 12%N /\
    len request = 16%N /\
    unpack_H (slice request 0 2) = Ok 0x0001%N /\
    unpack_H (slice request 2 4) = Ok 0%N /\
    slice request 4 16 = transaction_id /\
    Stun.parse_stun_response request =
    Ok (None, Some "Response too short"%string) /\
    (forall rest,
       (4 <= len rest)%N ->
       Stun.parse_stun_response (request ++ rest) =
       Ok (Some (Stun.Parsed 0x0001 0 (hex transaction_id) None), None)) /\
    (forall other, hex other = hex transaction_id -> other = transaction_id) /\
    (forall t filler attrs post,
       (t < 65536)%N ->
       len filler = 4%N ->
       Forall Spec.well_formed attrs ->
       (0 < len (Spec.wire_attributes attrs) < 65536)%N ->
       Stun.parse_stun_response
         (Spec.be16 t ++ Spec.be16 (len (Spec.wire_attributes attrs)) ++
          transaction_id ++ filler ++ Spec.wire_attributes attrs ++ post) =
       Ok (Some (Stun.Parsed t (len (Spec.wire_attributes attrs))
                   (hex transaction_id) (Some attrs)),
           None)).
Proof.
  exists ([x00; x01; x00; x00] ++ map randint (seq 0 12)),
         (map randint (seq 0 12)).
  split; [apply create_stun_request_eq|].
  split; [reflexivity|]. split; [reflexivity|].
  split; [reflexivity|]. split; [reflexivity|]. split; [reflexivity|].
  split; [reflexivity|]. split; [|split].
  - intros rest Hrest.
    unfold Stun.parse_stun_response.
    replace (len (([x00; x01; x00; x00] ++ map randint (seq 0 12)) ++ rest)
             <? 20)%N with false.
    2:{ symmetry. apply N.ltb_ge. rewrite BytesFacts.len_app.
        change (len ([x00; x01; x00; x00] ++ map randint (seq 0 12)))
          with 16%N.
        lia. }
    rewrite !BytesFacts.slice_app_left by (vm_compute; discriminate).
    reflexivity.
  - intros other. apply BytesFacts.hex_inj.
  - intros t filler attrs post Ht Hfiller Hwf Hbody.
    apply WireFacts.parse_wire_message; auto.
Qed.

Lemma request_layout_and_padded_roundtrip_witness :
  Stun.parse_stun_response
    (Spec.be16 0x0101 ++
     Spec.be16 (len (Spec.wire_attributes
                       [Stun.Attribute 0x0001 8 Samples.mapped_value])) ++
     map Samples.counting_draws (seq 0 12) ++ [x21; x12; xa4; x42] ++
     Spec.wire_attributes [Stun.Attribute 0x0001 8 Samples.mapped_value] ++
     []) =
  Ok (Some (Stun.Parsed 0x0101 12 "a0a1a2a3a4a5a6a7a8a9aaab"
              (Some [Stun.Attribute 0x0001 8 Samples.mapped_value])),
      None).
Proof.
  destruct (request_layout_and_padded_roundtrip Samples.counting_draws)
    as (request & transaction_id & Hreq & _ & _ & _ & _ & _ & _ & _ & _ & Hwire).
  rewrite create_stun_request_eq in Hreq.
  injection Hreq as _ <-.
  apply (Hwire 0x0101%N [x21; x12; xa4; x42]
               [Stun.Attribute 0x0001 8 Samples.mapped_value] []).
  - reflexivity.
  - reflexivity.
  - repeat constructor.
  - vm_compute. split; reflexivity.
Defined.

(** C1, as the claim states it, fails: the request goes out with the
    transaction id of twelve bytes 0x00, the reply decodes and carries twelve
    bytes 0xff, and [test_stun_server] returns [True]. *)
Lemma foreign_transaction_id_accepted :
  exists request sent_id p,
    Stun.create_stun_request Samples.zero_draws = Ok (request, sent_id) /\
    Stun.parse_stun_response Samples.foreign_reply = Ok (Some p, None) /\
    Stun.transaction_id p <> hex sent_id /\
    Stun.test_stun_server Samples.zero_draws
      (Stun.Network true true (Stun.Datagram Samples.foreign_reply)) = Ok true.
Proof.
  do 3 eexists. split; [reflexivity|]. split; [reflexivity|].
  split; [discriminate | reflexivity].
Qed.

(** C1 (amended). For every probe exchange in which a reply is received and
    decodes successfully, the probe reports success exactly when the reply's
    message type is 0x0101 and the inspection of its first MAPPED-ADDRESS
    attribute raises no error; the transaction id of the request takes no
    part in the verdict, so a reply carrying an id B is classified the same
    whether the request carried B or another id A. *)
Theorem probe_verdict_ignores_transaction_id
        (randint : nat -> byte) (net : Stun.network)
        (response : list byte) (p : Stun.parsed) :
  Stun.socket_created net = true ->
  Stun.sendto_ok net = true ->
  Stun.recvfrom net = Stun.Datagram response ->
  Stun.parse_stun_response response = Ok (Some p, None) ->
  Stun.test_stun_server randint net = Ok (Spec.verdict p).
Proof.
  intros Hsock Hsend Hrecv Hparse.
  unfold Stun.test_stun_server, Stun.exchange.
  rewrite Hsock, create_stun_request_eq. cbn [bind].
  rewrite Hsend, Hrecv, Hparse. cbn [bind negb Stun.truthy].
  unfold Spec.verdict.
  destruct (Stun.msg_type p =? 257)%N; [|reflexivity].
  destruct (Stun.attributes p) as [attrs|]; [|reflexivity].
  destruct (Stun.find_mapped_address attrs); reflexivity.
Qed.

Lemma probe_verdict_ignores_transaction_id_witness :
  Stun.test_stun_server Samples.zero_draws
    (Stun.Network true true (Stun.Datagram Samples.foreign_reply)) =
  Ok (Spec.verdict (Stun.Parsed 0x0101 0 "ffffffffffffffffffffffff" None)).
Proof.
  apply (probe_verdict_ignores_transaction_id Samples.zero_draws
           (Stun.Network true true (Stun.Datagram Samples.foreign_reply))
           Samples.foreign_reply);
    reflexivity.
Defined.

(* ===================================================================== *)
(** ** The MAPPED-ADDRESS attribute *)
(* ===================================================================== *)

(** What [mapped_address] reads from a value of at least 8 bytes: the family
    is the 16-bit number at bytes 2-3, the port the one at bytes 4-5, and the
    address is taken from bytes 6-9. *)
Lemma mapped_address_offsets (value : list byte) :
  (8 <= len value)%N ->
  exists family port,
    unpack_H (slice value 2 4) = Ok family /\
    unpack_H (slice value 4 6) = Ok port /\
    Stun.mapped_address value =
    (if (family =? 0x01)%N then
       ip <- inet_ntoa (slice value 6 10) ;;
       Ok (Some (Stun.Mapped family port (Some ip)))
     else Ok (Some (Stun.Mapped family port None))).
Proof.
  intros H.
  destruct (BytesFacts.unpack_H_two (slice value 2 4)) as [family Hf].
  { rewrite BytesFacts.len_slice. lia. }
  destruct (BytesFacts.unpack_H_two (slice value 4 6)) as [port Hp].
  { rewrite BytesFacts.len_slice. lia. }
  exists family, port. split; [exact Hf|]. split; [exact Hp|].
  unfold Stun.mapped_address.
  apply N.leb_le in H. rewrite H, Hf, Hp. reflexivity.
Qed.

(** C3 (the code departs from the claim). On the 8-byte value
    00 01 12 34 c0 a8 01 02 (family 0x01 at byte 1, port 0x1234 at bytes 2-3,
    address 192.168.1.2 at bytes 4-7) the code reads family 0x1234 and port
    0xc0a8 and finds no IPv4 address, where the stated layout gives family 1,
    port 0x1234 and the address; and for port 1 the code takes the port for
    the family, asks [inet_ntoa] for bytes 6-9 of an 8-byte value, and the
    probe ends in failure although the reply is a success response. *)
Theorem mapped_address_reads_shifted_fields :
  Stun.mapped_address Samples.mapped_value =
  Ok (Some (Stun.Mapped 0x1234 0xc0a8 None)) /\
  Spec.spec_mapped_address Samples.mapped_value =
  Some (Stun.Mapped 0x01 0x1234 (Some (192, 168, 1, 2)%N)) /\
  Stun.mapped_address Samples.mapped_value_port_1 = Raise OSError /\
  Stun.test_stun_server Samples.zero_draws
    (Stun.Network true true (Stun.Datagram Samples.mapped_reply_port_1)) =
  Ok false.
Proof.
  repeat split; vm_compute; reflexivity.
Qed.

(* ===================================================================== *)
(** ** Summary statistics *)
(* ===================================================================== *)

Module StatsFacts.
Import Stats.
Local Open Scope R_scope.

Lemma fold_min_spec (rest : list R) :
  forall x,
    let m := fold_left running_min rest x in
    In m (x :: rest) /\ forall y, In y (x :: rest) -> m <= y.
Proof.
  induction rest as [|z rest IH]; intros x; cbn [fold_left].
  - split; [left; reflexivity|]. intros y [<-|[]]. lra.
  - destruct (IH (running_min x z)) as [Hin Hle]. split.
    + destruct Hin as [Hm|Hm]; [|right; right; exact Hm].
      rewrite <- Hm. unfold running_min.
      destruct (Rlt_dec z x); [right; left|left]; reflexivity.
    + intros y Hy.
      assert (Hstep : fold_left running_min rest (running_min x z)
                      <= running_min x z) by (apply Hle; left; reflexivity).
      set (m := fold_left running_min rest (running_min x z)) in *.
      unfold running_min in Hstep.
      destruct Hy as [<-|[<-|Hy]].
      * destruct (Rlt_dec z x); lra.
      * destruct (Rlt_dec z x); lra.
      * apply Hle. right. exact Hy.
Qed.

Lemma fold_max_spec (rest : list R) :
  forall x,
    let m := fold_left running_max rest x in
    In m (x :: rest) /\ forall y, In y (x :: rest) -> y <= m.
Proof.
  induction rest as [|z rest IH]; intros x; cbn [fold_left].
  - split; [left; reflexivity|]. intros y [<-|[]]. lra.
  - destruct (IH (running_max x z)) as [Hin Hle]. split.
    + destruct Hin as [Hm|Hm]; [|right; right; exact Hm].
      rewrite <- Hm. unfold running_max.
      destruct (Rlt_dec x z); [right; left|left]; reflexivity.
    + intros y Hy.
      assert (Hstep : running_max x z
                      <= fold_left running_max rest (running_max x z))
        by (apply Hle; left; reflexivity).
      set (m := fold_left running_max rest (running_max x z)) in *.
      unfold running_max in Hstep.
      destruct Hy as [<-|[<-|Hy]].
      * destruct (Rlt_dec x z); lra.
      * destruct (Rlt_dec x z); lra.
      * apply Hle. right. exact Hy.
Qed.

Lemma squared_deviations_nonneg (c : R) (data : list R) :
  0 <= squared_deviations c data.
Proof.
  unfold squared_deviations.
  induction data as [|x data IH]; cbn [map total fold_right]; [lra|].
  fold (total (map (fun x => (x - c) * (x - c)) data)).
  pose proof (Rle_0_sqr (x - c)) as Hsq. unfold Rsqr in Hsq. lra.
Qed.

(** Decides the comparisons of numerals met when [min] and [max] run on a
    concrete list, innermost first. *)
Ltac decide_comparisons :=
  repeat match goal with
         | |- context [Rlt_dec ?a ?b] =>
             lazymatch a with
             | context [Rlt_dec _ _] => fail
             | _ =>
                 lazymatch b with
                 | context [Rlt_dec _ _] => fail
                 | _ => destruct (Rlt_dec a b); try lra
                 end
             end
         end.

End StatsFacts.

Module RoundingFacts.
Import Stats.
Local Open Scope R_scope.

(** The sum of the squared deviations written out. *)
Lemma squared_deviations_fold (c : R) (data : list R) :
  squared_deviations c data =
  fold_right (fun x acc => (x - c) * (x - c) + acc) 0 data.
Proof.
  unfold squared_deviations, total.
  induction data as [|x data IH]; cbn [map fold_right]; [reflexivity|].
  rewrite IH. reflexivity.
Qed.

(** Without rounding the block is [summary]. *)
Lemma rounded_summary_exact (samples : list R) :
  rounded_summary (fun x => x) samples = summary samples.
Proof. reflexivity. Qed.

Lemma round_down_integer (z : Z) : Spec.round_down (IZR z) = IZR z.
Proof.
  unfold Spec.round_down. f_equal. symmetry. apply Int_part_spec. lra.
Qed.

End RoundingFacts.

(** C8. For every non-empty list of completed duration samples the summary
    is defined and consists of the arithmetic mean, the minimum, the maximum
    and the sample (n-1) standard deviation, the results of
    [statistics.mean] and [statistics.stdev] being rounded to binary64 by
    [rnd]: the mean is the rounding of the sum divided by the number of
    samples, and times that number it is the sum where it needs no
    rounding; the minimum and the maximum are members of the list bounding
    all of it; the deviation is 0 for a single sample, and otherwise the
    rounding of the square root of the sum of the squared deviations from
    the exact mean divided by n-1, so that, where this root is a binary64
    number, its square times n-1 is that sum.  The block the programs embed
    is the case without rounding.  In particular the samples 10, 20, 30 give
    mean 20, minimum 10, maximum 30 and deviation 10 under every rounding
    that leaves 20 and 10 as they are. *)
Theorem summary_statistics :
  (forall (rnd : R -> R) (samples : list R),
     samples <> [] ->
     let n := INR (List.length samples) in
     let mean := (fold_right Rplus 0 samples / n)%R in
     let variance :=
       (fold_right (fun x acc => (x - mean) * (x - mean) + acc) 0 samples /
        (n - 1))%R in
     exists f,
       Stats.rounded_summary rnd samples = Ok f /\
       Stats.average f = rnd mean /\
       (rnd mean = mean ->
        (Stats.average f * n = fold_right Rplus 0 samples)%R) /\
       In (Stats.minimum f) samples /\
       (forall x, In x samples -> (Stats.minimum f <= x)%R) /\
       In (Stats.maximum f) samples /\
       (forall x, In x samples -> (x <= Stats.maximum f)%R) /\
       ((List.length samples < 2)%nat -> Stats.std_dev f = 0%R) /\
       ((2 <= List.length samples)%nat ->
        (0 <= variance)%R /\
        Stats.std_dev f = rnd (sqrt variance) /\
        (rnd (sqrt variance) = sqrt variance ->
         (0 <= Stats.std_dev f)%R /\
         (Stats.std_dev f * Stats.std_dev f * (n - 1) =
          fold_right (fun x acc => (x - mean) * (x - mean) + acc) 0
            samples)%R))) /\
  (forall samples,
     Stats.summary samples = Stats.rounded_summary (fun x => x) samples) /\
  (forall rnd : R -> R,
     rnd 20%R = 20%R -> rnd 10%R = 10%R ->
     Stats.rounded_summary rnd [10; 20; 30]%R =
     Ok (Stats.Figures 20 10 30 10)).
Proof.
  split; [|split].
  - intros rnd samples Hne. cbv zeta.
    destruct samples as [|x rest]; [congruence|].
    unfold Stats.rounded_summary, Stats.rounded_mean, Stats.min, Stats.max.
    cbn [bind].
    destruct (StatsFacts.fold_min_spec rest x) as [Hmin_in Hmin_le].
    destruct (StatsFacts.fold_max_spec rest x) as [Hmax_in Hmax_le].
    fold (Stats.total (x :: rest)).
    rewrite <- !RoundingFacts.squared_deviations_fold.
    set (n := INR (List.length (x :: rest))).
    destruct (1 <? List.length (x :: rest))%nat eqn:Hmany.
    + apply Nat.ltb_lt in Hmany.
      unfold Stats.rounded_stdev.
      replace (List.length (x :: rest) <? 2)%nat with false
        by (symmetry; apply Nat.ltb_ge; lia).
      cbn [bind]. fold n. eexists. split; [reflexivity|].
      cbn [Stats.average Stats.minimum Stats.maximum Stats.std_dev].
      assert (Hn1 : (0 < n - 1)%R).
      { unfold n. replace 1%R with (INR 1) by reflexivity.
        rewrite <- minus_INR by lia. apply lt_0_INR. lia. }
      assert (Hvar : (0 <= Stats.squared_deviations
                             (Stats.total (x :: rest) / n) (x :: rest) /
                           (n - 1))%R).
      { apply Rmult_le_pos; [apply StatsFacts.squared_deviations_nonneg|].
        left. apply Rinv_0_lt_compat. exact Hn1. }
      assert (Hn : (0 < n)%R)
        by (unfold n; apply lt_0_INR; cbn [List.length]; lia).
      split; [reflexivity|].
      split; [intros ->; unfold Stats.total; field; lra|].
      split; [exact Hmin_in|].
      split; [exact Hmin_le|]. split; [exact Hmax_in|].
      split; [exact Hmax_le|]. split; [intros Hfew; lia|].
      intros _. split; [exact Hvar|]. split; [reflexivity|].
      intros Hexact. rewrite Hexact. split; [apply sqrt_pos|].
      rewrite sqrt_sqrt by exact Hvar. field. lra.
    + apply Nat.ltb_ge in Hmany.
      cbn [bind]. eexists. split; [reflexivity|].
      cbn [Stats.average Stats.minimum Stats.maximum Stats.std_dev].
      assert (Hn : (0 < n)%R)
        by (unfold n; apply lt_0_INR; cbn [List.length]; lia).
      split; [reflexivity|].
      split; [intros ->; unfold Stats.total; field; lra|].
      split; [exact Hmin_in|].
      split; [exact Hmin_le|]. split; [exact Hmax_in|].
      split; [exact Hmax_le|]. split; [reflexivity|].
      intros Hmore. lia.
  - intros samples. symmetry. apply RoundingFacts.rounded_summary_exact.
  - intros rnd H20 H10.
    unfold Stats.rounded_summary, Stats.rounded_mean, Stats.min, Stats.max,
      Stats.rounded_stdev.
    cbn [bind List.length Nat.ltb Nat.leb fold_left].
    unfold Stats.squared_deviations, Stats.running_min, Stats.running_max.
    cbn [map Stats.total fold_right List.length INR].
    StatsFacts.decide_comparisons.
    replace ((10 + (20 + (30 + 0))) / (1 + 1 + 1))%R with 20%R by lra.
    replace (((10 - 20) * (10 - 20) +
              ((20 - 20) * (20 - 20) + ((30 - 20) * (30 - 20) + 0))) /
             (1 + 1 + 1 - 1))%R with (10 * 10)%R by lra.
    rewrite sqrt_square by lra. rewrite H20, H10. reflexivity.
Qed.

Lemma summary_statistics_witness :
  Stats.rounded_summary Spec.round_down [10; 20; 30]%R =
  Ok (Stats.Figures 20 10 30 10).
Proof.
  apply (proj2 (proj2 summary_statistics) Spec.round_down).
  - apply (RoundingFacts.round_down_integer 20).
  - apply (RoundingFacts.round_down_integer 10).
Defined.

(** Rounding shows in the mean of 1, 2, 2: rounded down to an integer it is
    1, and three times it is not the sum. *)
Example rounded_mean_of_1_2_2 :
  Stats.rounded_mean Spec.round_down [1; 2; 2]%R = Ok 1%R.
Proof.
  unfold Stats.rounded_mean, Spec.round_down.
  cbn [Stats.total fold_right List.length INR]. do 2 f_equal.
  symmetry. apply Int_part_spec. lra.
Qed.

(* ===================================================================== *)
(** ** Latency sweeps *)
(* ===================================================================== *)

Module SweepFacts.

Lemma relay_latency_loop_count (net : nat -> RelaySpeedTest.attempt)
      (todo : nat) :
  forall i latencies,
    snd (RelaySpeedTest.latency_loop net i todo latencies) = (i + todo)%nat.
Proof.
  induction todo as [|todo IH]; intros i latencies;
    cbn [RelaySpeedTest.latency_loop].
  - cbn [snd]. lia.
  - destruct (net i) as [|[s e r| | |]]; rewrite IH; lia.
Qed.

(** The sweep of [test-relay-speed.py] starts every one of its iterations,
    whatever fails on the way. *)
Lemma relay_latency_runs_every_iteration
      (iterations : nat) (net : nat -> RelaySpeedTest.attempt) :
  SpeedTest.iterations_run (RelaySpeedTest.test_latency iterations net) =
  iterations.
Proof.
  unfold RelaySpeedTest.test_latency.
  pose proof (relay_latency_loop_count net iterations 0 []) as Hcount.
  destruct (RelaySpeedTest.latency_loop net 0 iterations [])
    as [latencies started].
  cbn [snd] in Hcount. subst started.
  destruct latencies; [reflexivity|].
  destruct (Stats.summary _); reflexivity.
Qed.

(** In the loop of [test-speed.py] the first failed exchange is the last
    iteration started. *)
Lemma speed_latency_loop_failure (net : nat -> exchange) (todo : nat) :
  forall i latencies k,
    (k < todo)%nat ->
    (forall j, (j < k)%nat ->
               exists s e r, net (i + j)%nat = Replied s e r) ->
    (forall s e r, net (i + k)%nat <> Replied s e r) ->
    SpeedTest.latency_loop net i todo latencies =
    (Raise (exchange_error (net (i + k)%nat)), S (i + k)).
Proof.
  induction todo as [|todo IH]; intros i latencies k Hk Hbefore Hfail; [lia|].
  cbn [SpeedTest.latency_loop].
  destruct k as [|k].
  - rewrite Nat.add_0_r in *.
    destruct (net i) as [s e r| | |] eqn:Hi; try reflexivity.
    exfalso. eapply Hfail. reflexivity.
  - destruct (Hbefore 0%nat) as (s & e & r & H0); [lia|].
    rewrite Nat.add_0_r in H0. rewrite H0.
    replace (i + S k)%nat with (S i + k)%nat by lia.
    apply IH; [lia| |].
    + intros j Hj. replace (S i + j)%nat with (i + S j)%nat by lia.
      apply Hbefore. lia.
    + replace (S i + k)%nat with (i + S k)%nat by lia. exact Hfail.
Qed.

(** [SpeedTest.test_latency] ends at its first failed exchange: it returns
    [False], stores nothing and leaves the later iterations out. *)
Lemma speed_latency_ends_at_first_failure
      (iterations : nat) (net : nat -> exchange) (k : nat) :
  (k < iterations)%nat ->
  (forall j, (j < k)%nat -> exists s e r, net j = Replied s e r) ->
  (forall s e r, net k <> Replied s e r) ->
  SpeedTest.test_latency iterations true net =
  SpeedTest.Run (Ok false) None (S k).
Proof.
  intros Hk Hbefore Hfail. unfold SpeedTest.test_latency.
  rewrite (speed_latency_loop_failure net iterations 0 [] k Hk Hbefore Hfail).
  reflexivity.
Qed.

End SweepFacts.

(** C4 (the code departs from the claim). In [SpeedTest.test_latency] asked
    for 3 iterations, a receive timeout in the first exchange ends the sweep:
    one iteration is started instead of three, the phase returns [False] and
    stores no sample.  [RelaySpeedTest.test_latency] on the same network
    starts all three. *)
Theorem speed_latency_timeout_ends_sweep :
  SpeedTest.test_latency 3 true Samples.first_times_out =
  SpeedTest.Run (Ok false) None 1 /\
  SpeedTest.iterations_run
    (RelaySpeedTest.test_latency 3 Samples.relay_first_times_out) = 3%nat.
Proof.
  split; [reflexivity|].
  apply SweepFacts.relay_latency_runs_every_iteration.
Qed.

(* ===================================================================== *)
(** ** Empty sample sets *)
(* ===================================================================== *)

Module EmptyFacts.
Import RelaySpeedTest.

Lemma throughput_loop_nothing_completed test_data net (todo : nat) :
  forall i durations successful,
    (forall j, (j < todo)%nat -> Spec.completed test_data net (i + j) = false) ->
    throughput_loop test_data net i todo durations successful =
    (durations, successful).
Proof.
  induction todo as [|todo IH]; intros i durations successful Hnone;
    [reflexivity|].
  cbn [throughput_loop].
  pose proof (Hnone 0%nat ltac:(lia)) as H0.
  rewrite Nat.add_0_r in H0. unfold Spec.completed in H0.
  assert (Hrest : forall j, (j < todo)%nat ->
                            Spec.completed test_data net (S i + j) = false).
  { intros j Hj. replace (S i + j)%nat with (i + S j)%nat by lia.
    apply Hnone. lia. }
  destruct (net i) as [|[s e r| | |]]; try (apply IH; exact Hrest).
  rewrite H0. apply IH; exact Hrest.
Qed.

End EmptyFacts.

Module StressLoopFacts.
Import SpeedTest.
Local Open Scope Z_scope.

(** What the loop adds to the two message counters. *)
Lemma fold_stress_counts (passes : list attempt) :
  forall c,
    messages_sent (fold_left stress_step passes c) =
    messages_sent c + Z.of_nat (List.length (filter Spec.was_sent passes)) /\
    messages_received (fold_left stress_step passes c) =
    messages_received c +
    Z.of_nat (List.length (filter Spec.was_echoed passes)).
Proof.
  induction passes as [|a passes IH]; intros c.
  - cbn [fold_left filter List.length]. lia.
  - cbn [fold_left]. destruct (IH (stress_step c a)) as [Hs Hr].
    rewrite Hs, Hr. destruct c as [sent received errs].
    destruct a as [[|]| |];
      cbn [stress_step filter Spec.was_sent Spec.was_echoed List.length
           messages_sent messages_received]; lia.
Qed.

(** A loop that sent nothing counted every pass as an error. *)
Lemma fold_stress_nothing_sent (passes : list attempt) :
  forall c,
    messages_sent (fold_left stress_step passes c) = messages_sent c ->
    fold_left stress_step passes c =
    Counters (messages_sent c) (messages_received c)
             (errors c + Z.of_nat (List.length passes)).
Proof.
  induction passes as [|a passes IH]; intros c Hsent.
  - cbn [fold_left List.length]. destruct c as [sent received errs].
    cbn [messages_sent messages_received errors]. f_equal. lia.
  - cbn [fold_left] in *.
    destruct (fold_stress_counts passes (stress_step c a)) as [Hs _].
    assert (Hstep : messages_sent (stress_step c a) = messages_sent c).
    { destruct c as [sent received errs].
      destruct a as [same| |];
        cbn [stress_step messages_sent] in *; lia. }
    assert (Ha : a = NotSent).
    { destruct c as [sent received errs].
      destruct a as [same| |]; cbn [stress_step messages_sent] in Hstep;
        try lia; reflexivity. }
    subst a. rewrite IH by (rewrite Hsent; symmetry; exact Hstep).
    destruct c as [sent received errs].
    cbn [stress_step messages_sent messages_received errors List.length].
    f_equal. lia.
Qed.

Lemma stress_loop_nothing_sent (passes : list attempt) :
  messages_sent (stress_loop passes) = 0 ->
  stress_loop passes = Counters 0 0 (Z.of_nat (List.length passes)).
Proof.
  unfold stress_loop. intros H.
  apply (fold_stress_nothing_sent passes (Counters 0 0 0)). exact H.
Qed.

End StressLoopFacts.

(** C5, as the claim states it, fails twice: when no transfer of
    [test_single_throughput] completes, the summary is [None] and not an
    aggregate with a count of 0; and the summary of a stress loop that made
    no pass raises [ZeroDivisionError] when the elapsed time is 0. *)
Lemma empty_summaries_depart_from_claim :
  (RelaySpeedTest.test_single_throughput 4 2 Samples.payloads Samples.silent =
   Ok None /\
   ~ exists r,
       RelaySpeedTest.test_single_throughput 4 2 Samples.payloads
         Samples.silent = Ok (Some r) /\
       RelaySpeedTest.successful_transfers r = 0%nat) /\
  SpeedTest.stress_summary (SpeedTest.stress_loop []) 0 =
  Raise ZeroDivisionError.
Proof.
  split; [split; [reflexivity|]|reflexivity].
  intros (r & H & _). discriminate H.
Qed.

(** C5 (amended). Summarizing an empty set of samples is a defined
    operation.  The throughput summary returns [None] in place of an
    aggregate, whatever the payload size and the iteration count (0
    included), and so does [test_single_throughput] whenever no iteration
    completes.  The stress summary, when no message was sent and the elapsed
    time is not 0, is an aggregate with 0 messages sent and received, every
    pass counted as an error, the success rate set to the sentinel 0 and 0
    messages divided by the elapsed time as the messages per second; the
    phase stores it and is not a success. *)
Theorem empty_sample_set_summaries :
  (forall data_size iterations successful,
     RelaySpeedTest.throughput_summary data_size iterations [] successful =
     Ok None) /\
  (forall data_size iterations test_data net,
     (forall i, (i < iterations)%nat ->
                Spec.completed test_data net i = false) ->
     RelaySpeedTest.test_single_throughput data_size iterations test_data net =
     Ok None) /\
  (forall passes actual_duration,
     SpeedTest.messages_sent (SpeedTest.stress_loop passes) = 0%Z ->
     PrimFloat.eqb actual_duration 0 = false ->
     SpeedTest.success_rate (SpeedTest.stress_loop passes) = 0%float /\
     SpeedTest.test_stress true passes actual_duration =
     SpeedTest.Run (Ok false)
       (Some (SpeedTest.StressReport actual_duration
                (SpeedTest.Counters 0 0 (Z.of_nat (List.length passes)))
                0 (0 / actual_duration)))
       (List.length passes)).
Proof.
  split; [reflexivity|]. split.
  - intros data_size iterations test_data net Hnone.
    unfold RelaySpeedTest.test_single_throughput.
    rewrite EmptyFacts.throughput_loop_nothing_completed; [reflexivity|].
    intros j Hj. apply Hnone. exact Hj.
  - intros passes actual_duration Hsent Hd.
    unfold SpeedTest.test_stress, SpeedTest.stress_summary, SpeedTest.fdiv.
    rewrite (StressLoopFacts.stress_loop_nothing_sent passes Hsent).
    rewrite Hd. split; reflexivity.
Qed.

Lemma empty_sample_set_summaries_witness :
  RelaySpeedTest.test_single_throughput 4 2 Samples.payloads Samples.silent =
  Ok None /\
  SpeedTest.test_stress true [SpeedTest.NotSent; SpeedTest.NotSent] 20 =
  SpeedTest.Run (Ok false)
    (Some (SpeedTest.StressReport 20 (SpeedTest.Counters 0 0 2) 0 0)) 2.
Proof.
  split.
  - apply (proj1 (proj2 empty_sample_set_summaries)).
    intros i _. reflexivity.
  - apply (proj2 (proj2 (proj2 empty_sample_set_summaries)
                    [SpeedTest.NotSent; SpeedTest.NotSent] 20%float
                    eq_refl eq_refl)).
Defined.

(* ===================================================================== *)
(** ** The stress verdict *)
(* ===================================================================== *)

Module VerdictFacts.
Import Spec.
Local Open Scope Z_scope.








End VerdictFacts.


(** The verdict at 70, at exactly 80 and at 90 percent. *)
Example stress_verdicts :
  SpeedTest.returned (SpeedTest.test_stress true Samples.seven_of_ten 20) =
  Ok false /\
  SpeedTest.returned (SpeedTest.test_stress true Samples.four_of_five 20) =
  Ok false /\
  SpeedTest.returned (SpeedTest.test_stress true Samples.nine_of_ten 20) =
  Ok true.
Proof.
  repeat split; vm_compute; reflexivity.
Qed.

(* ===================================================================== *)
(** * Part III: further properties of the programs *)
(* ===================================================================== *)

(** ** What a decoded response holds *)

Module DecodeFacts.
Import Stun BytesFacts Notions.
Local Open Scope N_scope.

Lemma unpack_H_bound (s : list byte) (v : N) :
  unpack_H s = Ok v -> v < 65536.
Proof.
  destruct s as [|a [|b [|c s]]]; cbn [unpack_H]; try discriminate.
  intros [= <-].
  pose proof (Byte.to_N_bounded a). pose proof (Byte.to_N_bounded b).
  destruct (Byte.to_N a); lia.
Qed.

Lemma length_hex (s : list byte) :
  String.length (hex s) = (2 * List.length s)%nat.
Proof.
  induction s as [|b s IH]; [reflexivity|].
  cbn [hex String.length List.length]. rewrite IH. lia.
Qed.

(** What a successful return of [parse_stun_response] says of its input. *)
Lemma parse_ok_inv (data : list byte) (p : parsed) :
  parse_stun_response data = Ok (Some p, None) ->
  20 <= len data /\
  unpack_H (slice data 0 2) = Ok (msg_type p) /\
  unpack_H (slice data 2 4) = Ok (msg_length p) /\
  transaction_id p = hex (slice data 4 16) /\
  ((attributes p = None /\
    (0 <? msg_length p) && (20 + msg_length p <=? len data) = false) \/
   (exists attrs,
      attributes p = Some attrs /\
      attr_loop data (msg_length p) 20 [] = Ok attrs /\
      0 < msg_length p /\ 20 + msg_length p <= len data)).
Proof.
  unfold parse_stun_response.
  destruct (len data <? 20) eqn:Hshort; [discriminate|].
  apply N.ltb_ge in Hshort.
  destruct (unpack_H (slice data 0 2)) as [t|]; cbn [bind]; [|discriminate].
  destruct (unpack_H (slice data 2 4)) as [m|]; cbn [bind]; [|discriminate].
  destruct ((0 <? m) && (20 + m <=? len data)) eqn:Hguard.
  - destruct (attr_loop data m 20 []) as [attrs|] eqn:Hloop; cbn [bind];
      [|discriminate].
    intros [= <-]. cbn [msg_type msg_length transaction_id attributes].
    repeat split; auto. right. exists attrs.
    apply andb_true_iff in Hguard as [Hpos Hfit].
    apply N.ltb_lt in Hpos. apply N.leb_le in Hfit. auto.
  - cbn [bind]. intros [= <-].
    cbn [msg_type msg_length transaction_id attributes].
    repeat split; auto.
Qed.

Lemma attr_step_in_bounds data msg_length offset offset' a :
  attr_step data msg_length offset = Next offset' a ->
  attribute_in_bounds a.
Proof.
  unfold attr_step.
  destruct (negb _); [discriminate|].
  destruct (len data <? offset + 4); [discriminate|].
  destruct (unpack_H (slice data offset (offset + 2))) as [t|] eqn:Ht;
    [|discriminate].
  destruct (unpack_H (slice data (offset + 2) (offset + 4))) as [l|] eqn:Hl;
    [|discriminate].
  intros [= _ <-]. unfold attribute_in_bounds.
  cbn [attr_type attr_length attr_value].
  split; [eapply unpack_H_bound; eassumption|].
  split; [eapply unpack_H_bound; eassumption|].
  rewrite len_slice. lia.
Qed.

(** The loop keeps the attributes it was given, appends attributes within
    bounds, and at most one for every 4 bytes of the declared section still
    ahead (rounded up). *)
Lemma attr_loop_in_bounds data msg_length :
  forall offset acc attrs,
    attr_loop data msg_length offset acc = Ok attrs ->
    exists new,
      attrs = acc ++ new /\
      Forall attribute_in_bounds new /\
      (4 * List.length new <= remaining msg_length offset + 3)%nat.
Proof.
  intros offset.
  remember (remaining msg_length offset) as n eqn:Hn.
  revert offset Hn.
  induction n as [n IH] using lt_wf_ind; intros offset -> acc attrs.
  rewrite StunFacts.attr_loop_unfold.
  destruct (attr_step data msg_length offset) as [|e|offset' a] eqn:Hs.
  - intros [= <-]. exists []. rewrite app_nil_r.
    split; [reflexivity|]. split; [constructor|]. cbn [List.length]. lia.
  - discriminate.
  - intros Hloop.
    pose proof (attr_step_in_bounds _ _ _ _ _ Hs) as Ha.
    pose proof (StunFacts.attr_step_next _ _ _ _ _ Hs) as (Hin & _ & Hadv).
    destruct (IH (remaining msg_length offset')
                 ltac:(eapply StunFacts.attr_step_decreases; eassumption)
                 offset' eq_refl _ _ Hloop)
      as (new & -> & Hnew & Hcount).
    exists (a :: new). rewrite <- app_assoc. split; [reflexivity|].
    split; [constructor; assumption|].
    cbn [List.length]. unfold remaining in *. lia.
Qed.

End DecodeFacts.

(** X1. Whatever bytes are decoded successfully, the message type and the
    declared length are 16-bit numbers read big-endian from bytes 0-1 and
    2-3, the input has at least 20 bytes, and the transaction id is the text
    of 24 hexadecimal digits of bytes 4-15. *)
Theorem parsed_header_is_bounded (data : list byte) (p : Stun.parsed) :
  Stun.parse_stun_response data = Ok (Some p, None) ->
  (20 <= len data)%N /\
  unpack_H (slice data 0 2) = Ok (Stun.msg_type p) /\
  unpack_H (slice data 2 4) = Ok (Stun.msg_length p) /\
  (Stun.msg_type p < 65536)%N /\
  (Stun.msg_length p < 65536)%N /\
  Stun.transaction_id p = hex (slice data 4 16) /\
  String.length (Stun.transaction_id p) = 24%nat.
Proof.
  intros H.
  destruct (DecodeFacts.parse_ok_inv data p H) as (Hlen & Ht & Hm & Hid & _).
  split; [exact Hlen|]. split; [exact Ht|]. split; [exact Hm|].
  split; [eapply DecodeFacts.unpack_H_bound; exact Ht|].
  split; [eapply DecodeFacts.unpack_H_bound; exact Hm|].
  split; [exact Hid|].
  rewrite Hid, DecodeFacts.length_hex.
  pose proof (BytesFacts.len_slice data 4 16) as Hs.
  unfold len in *. lia.
Qed.

Lemma parsed_header_is_bounded_witness :
  (20 <= len Samples.foreign_reply)%N /\
  unpack_H (slice Samples.foreign_reply 0 2) = Ok 0x0101%N.
Proof.
  destruct (parsed_header_is_bounded Samples.foreign_reply
              (Stun.Parsed 0x0101 0 "ffffffffffffffffffffffff" None)
              eq_refl) as (Hlen & Ht & _).
  split; [exact Hlen | exact Ht].
Defined.

(** X2. When a decoded response has an attributes list, the header declared
    a positive length that fits the input, every attribute in the list has a
    16-bit type and a 16-bit length, its value is never longer than that
    length (it is shorter when the input ends first), and the list has at
    most one attribute for every 4 declared bytes, rounded up. *)
Theorem parsed_attributes_are_bounded
        (data : list byte) (p : Stun.parsed) (attrs : list Stun.attribute) :
  Stun.parse_stun_response data = Ok (Some p, None) ->
  Stun.attributes p = Some attrs ->
  (0 < Stun.msg_length p)%N /\
  (20 + Stun.msg_length p <= len data)%N /\
  Forall Notions.attribute_in_bounds attrs /\
  (4 * len attrs <= Stun.msg_length p + 3)%N.
Proof.
  intros H Hattrs.
  destruct (DecodeFacts.parse_ok_inv data p H)
    as (_ & _ & _ & _ & [[Hnone _]|(attrs' & Hsome & Hloop & Hpos & Hfit)]).
  { congruence. }
  assert (attrs' = attrs) by congruence. subst attrs'.
  destruct (DecodeFacts.attr_loop_in_bounds _ _ _ _ _ Hloop)
    as (new & -> & Hnew & Hcount).
  cbn [app] in *.
  split; [exact Hpos|]. split; [exact Hfit|]. split; [exact Hnew|].
  unfold Stun.remaining, len in *. lia.
Qed.

Lemma parsed_attributes_are_bounded_witness :
  Forall Notions.attribute_in_bounds
    [Stun.Attribute 0x0001 8 Samples.mapped_value_port_1].
Proof.
  apply (parsed_attributes_are_bounded Samples.mapped_reply_port_1
           (Stun.Parsed 0x0101 12 "a0a1a2a3a4a5a6a7a8a9aaab"
              (Some [Stun.Attribute 0x0001 8 Samples.mapped_value_port_1]))
           [Stun.Attribute 0x0001 8 Samples.mapped_value_port_1]);
    reflexivity.
Defined.

(* ===================================================================== *)
(** ** The probe and its callers *)
(* ===================================================================== *)

Module ProbeSuiteFacts.
Import Stun StunSuite Notions.
Local Open Scope N_scope.

(** With a socket the probe hands back a truth value, and [True] only for a
    decoded success response. *)
Lemma probe_returns (randint : nat -> byte) (net : network) :
  socket_created net = true ->
  exists b,
    test_stun_server randint net = Ok b /\
    (b = true ->
     sendto_ok net = true /\
     exists response p,
       recvfrom net = Datagram response /\
       parse_stun_response response = Ok (Some p, None) /\
       msg_type p = 0x0101).
Proof.
  intros Hsock. unfold test_stun_server. rewrite Hsock.
  destruct (exchange randint net) as [b|e] eqn:Hx.
  2:{ exists false. split; [reflexivity | discriminate]. }
  exists b. split; [reflexivity|]. intros ->.
  unfold exchange in Hx. cbn [create_stun_request bind pack_HH pack_H] in Hx.
  cbn [N.ltb N.compare Pos.compare Pos.compare_cont bind] in Hx.
  destruct (sendto_ok net); cbn [negb] in Hx; [|discriminate].
  split; [reflexivity|].
  destruct (recvfrom net) as [response| |]; try discriminate.
  destruct (parse_stun_response response) as [[parsed error]|] eqn:Hp;
    cbn [bind] in Hx; [|discriminate].
  destruct error as [[|c s]|]; cbn [truthy] in Hx; try discriminate.
  - unfold parse_stun_response in Hp.
    destruct (len response <? 20); [discriminate|].
    destruct (unpack_H _); cbn [bind] in Hp; [|discriminate].
    destruct (unpack_H _); cbn [bind] in Hp; [|discriminate].
    destruct (if _ : bool then _ else _) in Hp; cbn [bind] in Hp; discriminate.
  - destruct parsed as [p|]; [|discriminate].
    destruct (msg_type p =? 257) eqn:Ht; [|discriminate].
    apply N.eqb_eq in Ht. exists response, p. auto.
Qed.

(** Without a socket the [finally] clause raises. *)
Lemma probe_without_socket (randint : nat -> byte) (net : network) :
  socket_created net = false ->
  test_stun_server randint net = Raise UnboundLocalError.
Proof. intros H. unfold test_stun_server. rewrite H. reflexivity. Qed.

Lemma requests_loop_counts draws nets (verdicts : nat -> bool) (todo : nat) :
  forall i success_count,
    (forall j, (i <= j < i + todo)%nat ->
               test_stun_server (draws j) (nets j) = Ok (verdicts j)) ->
    requests_loop draws nets i todo success_count =
    Ok (success_count + successes verdicts i todo)%nat.
Proof.
  induction todo as [|todo IH]; intros i success_count Hall.
  - cbn. f_equal. lia.
  - cbn [requests_loop]. rewrite (Hall i) by lia. cbn [bind].
    rewrite IH by (intros j Hj; apply Hall; lia).
    unfold successes. cbn [seq filter].
    destruct (verdicts i); cbn [List.length]; f_equal; lia.
Qed.

Lemma successes_all (verdicts : nat -> bool) (todo : nat) :
  forall i,
    (successes verdicts i todo <= todo)%nat /\
    ((successes verdicts i todo =? todo)%nat =
     forallb verdicts (seq i todo)).
Proof.
  unfold successes.
  induction todo as [|todo IH]; intros i; [split; reflexivity|].
  destruct (IH (S i)) as [Hle Heq].
  cbn [seq filter forallb].
  destruct (verdicts i); cbn [List.length andb].
  - split; [lia|]. exact Heq.
  - split; [lia|]. apply Nat.eqb_neq. lia.
Qed.

End ProbeSuiteFacts.

(** X3. With a socket, [test_stun_server] never raises: it returns a truth
    value, and [True] only when the request was sent and a datagram arrived
    that decodes to a message of type 0x0101; a timeout, a failed send or
    receive and an undecodable reply all give [False]. *)
Theorem probe_returns_true_only_for_success_response
        (randint : nat -> byte) (net : Stun.network) :
  Stun.socket_created net = true ->
  exists b,
    Stun.test_stun_server randint net = Ok b /\
    (b = true ->
     Stun.sendto_ok net = true /\
     exists response p,
       Stun.recvfrom net = Stun.Datagram response /\
       Stun.parse_stun_response response = Ok (Some p, None) /\
       Stun.msg_type p = 0x0101%N).
Proof. apply ProbeSuiteFacts.probe_returns. Qed.

Lemma probe_returns_true_only_for_success_response_witness :
  exists b,
    Stun.test_stun_server Samples.zero_draws
      (Stun.Network true true Stun.TimedOut) = Ok b.
Proof.
  destruct (probe_returns_true_only_for_success_response Samples.zero_draws
              (Stun.Network true true Stun.TimedOut) eq_refl) as (b & Hb & _).
  exists b. exact Hb.
Defined.

(** X4. Of the attributes of a response only the first one of type 0x0001
    is inspected: the attributes before it and all attributes after it,
    further MAPPED-ADDRESS attributes included, play no part; without such
    an attribute nothing is inspected and nothing can fail. *)
Theorem only_first_mapped_address_is_inspected
        (attrs : list Stun.attribute) :
  (forall before a after,
     attrs = before ++ a :: after ->
     Forall (fun x => Stun.attr_type x <> 0x0001%N) before ->
     Stun.attr_type a = 0x0001%N ->
     Stun.find_mapped_address attrs = Stun.mapped_address (Stun.attr_value a)) /\
  (Forall (fun x => Stun.attr_type x <> 0x0001%N) attrs ->
   Stun.find_mapped_address attrs = Ok None).
Proof.
  split.
  - intros before a after -> Hbefore Ha.
    induction Hbefore as [|x before Hx _ IH]; cbn [app Stun.find_mapped_address].
    + rewrite Ha. reflexivity.
    + apply N.eqb_neq in Hx. rewrite Hx. exact IH.
  - intros Hnone.
    induction Hnone as [|x rest Hx _ IH]; cbn [Stun.find_mapped_address];
      [reflexivity|].
    apply N.eqb_neq in Hx. rewrite Hx. exact IH.
Qed.

(** X5. When none of its probes raises, [test_multiple_requests] returns
    [True] exactly when every one of the [count] probes returned [True]; for
    [count = 0] it returns [True]. *)
Theorem multiple_requests_succeed_iff_all_do
        (count : nat) (draws : nat -> nat -> byte)
        (nets : nat -> Stun.network) (verdicts : nat -> bool) :
  (forall i, (i < count)%nat ->
             Stun.test_stun_server (draws i) (nets i) = Ok (verdicts i)) ->
  StunSuite.test_multiple_requests count draws nets =
  Ok (forallb verdicts (seq 0 count)).
Proof.
  intros Hall. unfold StunSuite.test_multiple_requests.
  rewrite (ProbeSuiteFacts.requests_loop_counts draws nets verdicts)
    by (intros j Hj; apply Hall; lia).
  cbn [bind Nat.add]. f_equal.
  apply ProbeSuiteFacts.successes_all.
Qed.

Lemma multiple_requests_succeed_iff_all_do_witness :
  StunSuite.test_multiple_requests 3 (fun _ => Samples.zero_draws)
    (fun i => Stun.Network true true
                match i with
                | 1%nat => Stun.TimedOut
                | _ => Stun.Datagram Samples.foreign_reply
                end) =
  Ok (forallb (fun i => negb (i =? 1)%nat) (seq 0 3)).
Proof.
  apply (multiple_requests_succeed_iff_all_do 3 (fun _ => Samples.zero_draws)
           _ (fun i => negb (i =? 1)%nat)).
  intros [|[|[|i]]] Hi; reflexivity.
Defined.

(** X6. How [main] ends follows from its first probe.  When the probe
    returned [False], [main] calls [sys.exit(1)] and makes no follow-up
    request.  When it returned [True], [main] ends normally whatever the
    three follow-up requests meet once their sockets exist, and
    [UnboundLocalError] leaves [main] when one of these sockets cannot be
    created.  The same exception leaves [main] when the socket of the first
    probe cannot be created. *)
Theorem main_exit_follows_first_probe
        (draws : nat -> nat -> byte) (nets : nat -> Stun.network) :
  (Stun.test_stun_server (draws 0%nat) (nets 0%nat) = Ok false ->
   StunSuite.main draws nets = Ok (StunSuite.SystemExit 1)) /\
  (Stun.test_stun_server (draws 0%nat) (nets 0%nat) = Ok true ->
   StunSuite.main draws nets =
   if forallb (fun i => Stun.socket_created (nets i)) [1; 2; 3]%nat
   then Ok StunSuite.Completed
   else Raise UnboundLocalError) /\
  (Stun.socket_created (nets 0%nat) = false ->
   StunSuite.main draws nets = Raise UnboundLocalError).
Proof.
  split; [|split].
  - intros Hfirst. unfold StunSuite.main. rewrite Hfirst. reflexivity.
  - intros Hfirst. unfold StunSuite.main. rewrite Hfirst. cbn [bind].
    unfold StunSuite.test_multiple_requests.
    cbn [StunSuite.requests_loop forallb andb].
    destruct (Stun.socket_created (nets 1%nat)) eqn:H1.
    2:{ rewrite (ProbeSuiteFacts.probe_without_socket _ _ H1). reflexivity. }
    destruct (ProbeSuiteFacts.probe_returns (draws 1%nat) (nets 1%nat) H1)
      as (b1 & -> & _).
    cbn [bind andb].
    destruct (Stun.socket_created (nets 2%nat)) eqn:H2.
    2:{ rewrite (ProbeSuiteFacts.probe_without_socket _ _ H2). reflexivity. }
    destruct (ProbeSuiteFacts.probe_returns (draws 2%nat) (nets 2%nat) H2)
      as (b2 & -> & _).
    cbn [bind andb].
    destruct (Stun.socket_created (nets 3%nat)) eqn:H3.
    2:{ rewrite (ProbeSuiteFacts.probe_without_socket _ _ H3). reflexivity. }
    destruct (ProbeSuiteFacts.probe_returns (draws 3%nat) (nets 3%nat) H3)
      as (b3 & -> & _).
    reflexivity.
  - intros H0. unfold StunSuite.main.
    rewrite (ProbeSuiteFacts.probe_without_socket _ _ H0). reflexivity.
Qed.

Lemma main_exit_follows_first_probe_witness :
  StunSuite.main (fun _ => Samples.zero_draws)
    (fun i => Stun.Network true true
                match i with
                | 0%nat => Stun.Datagram Samples.foreign_reply
                | _ => Stun.TimedOut
                end) =
  Ok StunSuite.Completed /\
  StunSuite.main (fun _ => Samples.zero_draws)
    (fun i => Stun.Network (negb (i =? 2)%nat) true
                (Stun.Datagram Samples.foreign_reply)) =
  Raise UnboundLocalError.
Proof.
  split.
  - exact (proj1 (proj2 (main_exit_follows_first_probe
                           (fun _ => Samples.zero_draws)
                           (fun i => Stun.Network true true
                                       match i with
                                       | 0%nat =>
                                           Stun.Datagram Samples.foreign_reply
                                       | _ => Stun.TimedOut
                                       end)))
             eq_refl).
  - exact (proj1 (proj2 (main_exit_follows_first_probe
                           (fun _ => Samples.zero_draws)
                           (fun i => Stun.Network (negb (i =? 2)%nat) true
                                       (Stun.Datagram Samples.foreign_reply))))
             eq_refl).
Defined.

(** X7. [test_simple_stun] is no stricter than [test_stun_server]: on the
    same socket behaviour, whenever the full probe returns [True] the simple
    one does, with any transaction ids; and the simple probe returns [True]
    exactly for a sent request answered by at least 20 bytes that start with
    the type 0x0101. *)
Theorem simple_probe_accepts_what_full_probe_accepts
        (randint randint' : nat -> byte) (net : Stun.network) :
  (Stun.test_stun_server randint net = Ok true ->
   SimpleStun.test_simple_stun randint' net = Ok true) /\
  (SimpleStun.test_simple_stun randint' net = Ok true <->
   Stun.socket_created net = true /\ Stun.sendto_ok net = true /\
   exists response,
     Stun.recvfrom net = Stun.Datagram response /\
     (20 <= len response)%N /\
     unpack_H (slice response 0 2) = Ok 0x0101%N).
Proof.
  assert (Hsimple :
    SimpleStun.test_simple_stun randint' net = Ok true <->
    Stun.socket_created net = true /\ Stun.sendto_ok net = true /\
    exists response,
      Stun.recvfrom net = Stun.Datagram response /\
      (20 <= len response)%N /\
      unpack_H (slice response 0 2) = Ok 0x0101%N).
  { unfold SimpleStun.test_simple_stun, SimpleStun.exchange.
    cbn [bind pack_HH pack_H N.ltb N.compare Pos.compare Pos.compare_cont].
    destruct (Stun.socket_created net); [|split; [discriminate|intros [H _]; discriminate]].
    destruct (Stun.sendto_ok net); cbn [negb];
      [|split; [discriminate|intros (_ & H & _); discriminate]].
    destruct (Stun.recvfrom net) as [response| |];
      try (split; [discriminate|intros (_ & _ & r & H & _); discriminate]).
    destruct (20 <=? len response)%N eqn:Hlen.
    - apply N.leb_le in Hlen.
      destruct (unpack_H (slice response 0 2)) as [t|e] eqn:Ht; cbn [bind].
      + destruct (t =? 257)%N eqn:Heq.
        * apply N.eqb_eq in Heq. subst t. split; [|reflexivity].
          intros _. repeat split. exists response. auto.
        * apply N.eqb_neq in Heq. split; [discriminate|].
          intros (_ & _ & r & [= <-] & _ & Hr). congruence.
      + split; [discriminate|].
        intros (_ & _ & r & [= <-] & _ & Hr). congruence.
    - apply N.leb_gt in Hlen. split; [discriminate|].
      intros (_ & _ & r & [= <-] & Hr & _). lia. }
  split; [|exact Hsimple].
  intros Hfull. apply Hsimple.
  destruct (Stun.socket_created net) eqn:Hsock.
  2:{ unfold Stun.test_stun_server in Hfull. rewrite Hsock in Hfull.
      discriminate. }
  destruct (ProbeSuiteFacts.probe_returns randint net Hsock)
    as (b & Hb & Htrue).
  assert (b = true) by congruence. subst b.
  destruct (Htrue eq_refl) as (Hsend & response & p & Hrecv & Hparse & Htype).
  destruct (DecodeFacts.parse_ok_inv response p Hparse) as (Hlen & Ht & _).
  split; [reflexivity|]. split; [exact Hsend|].
  exists response. rewrite Htype in Ht. auto.
Qed.

(* ===================================================================== *)
(** ** More on the summary statistics *)
(* ===================================================================== *)

Module SummaryFacts.
Import Stats.
Local Open Scope R_scope.

Lemma Ok_inj {A} (a b : A) : Ok a = Ok b -> a = b.
Proof. congruence. Qed.

(** The summary of a non-empty list, field by field. *)
Lemma summary_cons (x : R) (rest : list R) :
  exists std,
    summary (x :: rest) =
    Ok (Figures (total (x :: rest) / INR (List.length (x :: rest)))
                (fold_left running_min rest x)
                (fold_left running_max rest x) std) /\
    0 <= std /\
    (rest = [] -> std = 0) /\
    (rest <> [] ->
     std = sqrt (squared_deviations
                   (total (x :: rest) / INR (List.length (x :: rest)))
                   (x :: rest)
                 / (INR (List.length (x :: rest)) - 1))).
Proof.
  unfold summary, mean, min, max. cbn [bind].
  destruct rest as [|y rest].
  - cbn [List.length Nat.ltb Nat.leb bind]. exists 0.
    split; [reflexivity|]. split; [lra|]. split; [reflexivity|]. congruence.
  - unfold stdev.
    replace (1 <? List.length (x :: y :: rest))%nat with true by reflexivity.
    replace (List.length (x :: y :: rest) <? 2)%nat with false by reflexivity.
    cbn [bind]. eexists. split; [reflexivity|].
    split; [apply sqrt_pos|]. split; [discriminate | reflexivity].
Qed.

Lemma total_bounds (lo hi : R) (data : list R) :
  (forall x, In x data -> lo <= x <= hi) ->
  lo * INR (List.length data) <= total data <= hi * INR (List.length data).
Proof.
  induction data as [|x data IH]; intros Hall.
  - cbn. lra.
  - change (total (x :: data)) with (x + total data).
    cbn [List.length]. rewrite S_INR.
    destruct (Hall x (or_introl eq_refl)) as [Hlo Hhi].
    destruct IH as [IHlo IHhi].
    { intros y Hy. apply Hall. right. exact Hy. }
    lra.
Qed.

Lemma total_nonneg (data : list R) :
  (forall x, In x data -> 0 <= x) -> 0 <= total data.
Proof.
  induction data as [|x data IH]; intros Hpos; [cbn; lra|].
  change (total (x :: data)) with (x + total data).
  assert (0 <= x) by (apply Hpos; left; reflexivity).
  assert (0 <= total data)
    by (apply IH; intros y Hy; apply Hpos; right; exact Hy).
  lra.
Qed.

Lemma total_nonneg_zero (data : list R) :
  (forall x, In x data -> 0 <= x) ->
  total data = 0 ->
  forall x, In x data -> x = 0.
Proof.
  induction data as [|y data IH]; intros Hpos Hzero x Hx; [destruct Hx|].
  change (total (y :: data)) with (y + total data) in Hzero.
  assert (Hy : 0 <= y) by (apply Hpos; left; reflexivity).
  assert (Hrest : 0 <= total data)
    by (apply total_nonneg; intros z Hz; apply Hpos; right; exact Hz).
  destruct Hx as [<-|Hx]; [lra|].
  apply IH; [intros z Hz; apply Hpos; right; exact Hz | lra | exact Hx].
Qed.

Lemma total_constant (c : R) (data : list R) :
  (forall x, In x data -> x = c) ->
  total data = c * INR (List.length data).
Proof.
  induction data as [|x data IH]; intros Hall.
  - cbn. lra.
  - change (total (x :: data)) with (x + total data).
    cbn [List.length]. rewrite S_INR, IH
      by (intros y Hy; apply Hall; right; exact Hy).
    rewrite (Hall x (or_introl eq_refl)). lra.
Qed.

Lemma squared_deviations_zero (c : R) (data : list R) :
  squared_deviations c data = 0 <-> forall x, In x data -> x = c.
Proof.
  unfold squared_deviations. split.
  - intros Hzero x Hx.
    assert (Hsq : (x - c) * (x - c) = 0).
    { apply (total_nonneg_zero (map (fun x => (x - c) * (x - c)) data)).
      - intros y Hy. apply in_map_iff in Hy as (z & <- & _).
        pose proof (Rle_0_sqr (z - c)) as H. unfold Rsqr in H. exact H.
      - exact Hzero.
      - apply in_map_iff. exists x. split; [reflexivity | exact Hx]. }
    apply Rmult_integral in Hsq. lra.
  - intros Hall.
    induction data as [|x data IH]; [reflexivity|].
    cbn [map total fold_right].
    fold (total (map (fun x => (x - c) * (x - c)) data)).
    rewrite IH by (intros y Hy; apply Hall; right; exact Hy).
    rewrite (Hall x (or_introl eq_refl)). lra.
Qed.

End SummaryFacts.

(** X8. In the summary of any non-empty list of samples the mean lies
    between the minimum and the maximum, and the deviation is not negative. *)
Theorem summary_mean_between_extremes (samples : list R) (f : Stats.figures) :
  Stats.summary samples = Ok f ->
  (Stats.minimum f <= Stats.average f <= Stats.maximum f)%R /\
  (0 <= Stats.std_dev f)%R.
Proof.
  destruct samples as [|x rest]; [discriminate|].
  destruct (SummaryFacts.summary_cons x rest) as (std & Hsum & Hstd & _).
  rewrite Hsum. intros Hf. apply SummaryFacts.Ok_inj in Hf. subst f.
  cbn [Stats.minimum Stats.average Stats.maximum Stats.std_dev].
  split; [|exact Hstd].
  destruct (StatsFacts.fold_min_spec rest x) as [_ Hmin].
  destruct (StatsFacts.fold_max_spec rest x) as [_ Hmax].
  cbv zeta in Hmin, Hmax.
  set (lo := fold_left Stats.running_min rest x) in *.
  set (hi := fold_left Stats.running_max rest x) in *.
  destruct (SummaryFacts.total_bounds lo hi (x :: rest)) as [Hlo Hhi].
  { intros y Hy. split; [apply Hmin | apply Hmax]; exact Hy. }
  assert (Hn : (0 < INR (List.length (x :: rest)))%R).
  { apply lt_0_INR. cbn [List.length]. lia. }
  set (n := INR (List.length (x :: rest))) in *.
  set (t := Stats.total (x :: rest)) in *.
  clearbody lo hi n t.
  assert (Heq : (t / n * n = t)%R) by (field; lra).
  split; apply Rmult_le_reg_r with n; try exact Hn; rewrite Heq; assumption.
Qed.

Lemma summary_mean_between_extremes_witness :
  (10 <= 20 <= 30)%R /\ (0 <= 10)%R.
Proof.
  apply (summary_mean_between_extremes [10; 20; 30]%R
           (Stats.Figures 20 10 30 10)).
  destruct (SummaryFacts.summary_cons 10 [20; 30]%R)
    as (std & Hsum & _ & _ & Hstd).
  rewrite Hsum. f_equal.
  unfold Stats.running_min, Stats.running_max. cbn [fold_left].
  StatsFacts.decide_comparisons.
  rewrite (Hstd ltac:(discriminate)).
  unfold Stats.squared_deviations.
  cbn [map Stats.total fold_right List.length INR].
  f_equal; try lra.
  replace ((10 - (10 + (20 + (30 + 0))) / (1 + 1 + 1)) *
           (10 - (10 + (20 + (30 + 0))) / (1 + 1 + 1)) +
           ((20 - (10 + (20 + (30 + 0))) / (1 + 1 + 1)) *
            (20 - (10 + (20 + (30 + 0))) / (1 + 1 + 1)) +
            ((30 - (10 + (20 + (30 + 0))) / (1 + 1 + 1)) *
             (30 - (10 + (20 + (30 + 0))) / (1 + 1 + 1)) + 0)))%R
    with 200%R by lra.
  replace (200 / (1 + 1 + 1 - 1))%R with (10 * 10)%R by lra.
  apply sqrt_square. lra.
Defined.

(** X9. The deviation of a summary is 0 exactly when all samples are equal
    (a single sample included). *)
Theorem summary_deviation_zero_iff_constant
        (samples : list R) (f : Stats.figures) :
  Stats.summary samples = Ok f ->
  (Stats.std_dev f = 0%R <->
   forall x y, In x samples -> In y samples -> x = y).
Proof.
  destruct samples as [|x rest]; [discriminate|].
  destruct (SummaryFacts.summary_cons x rest)
    as (std & Hsum & Hpos & Hone & Hmany).
  rewrite Hsum. intros Hf. apply SummaryFacts.Ok_inj in Hf. subst f.
  cbn [Stats.std_dev].
  destruct rest as [|y rest].
  - split; [|intros _; apply Hone; reflexivity].
    intros _ a b [<-|[]] [<-|[]]. reflexivity.
  - rewrite (Hmany ltac:(discriminate)).
    set (l := x :: y :: rest) in *.
    set (n := INR (List.length l)) in *.
    set (c := (Stats.total l / n)%R) in *.
    assert (Hn : (1 < n)%R).
    { unfold n, l. cbn [List.length]. rewrite !S_INR.
      pose proof (pos_INR (List.length rest)). lra. }
    assert (Hss : (0 <= Stats.squared_deviations c l)%R)
      by apply StatsFacts.squared_deviations_nonneg.
    assert (Hvar : (0 <= Stats.squared_deviations c l / (n - 1))%R).
    { apply Rmult_le_pos; [exact Hss|].
      left. apply Rinv_0_lt_compat. lra. }
    split.
    + intros Hzero a b Ha Hb.
      apply sqrt_eq_0 in Hzero; [|exact Hvar].
      assert (Hss0 : Stats.squared_deviations c l = 0%R).
      { apply Rmult_eq_reg_r with (/ (n - 1))%R.
        - rewrite Rmult_0_l. exact Hzero.
        - apply Rinv_neq_0_compat. lra. }
      pose proof (proj1 (SummaryFacts.squared_deviations_zero c l) Hss0) as Hc.
      rewrite (Hc a Ha), (Hc b Hb). reflexivity.
    + intros Hsame.
      assert (Hall : forall z, In z l -> z = x).
      { intros z Hz. apply Hsame; [exact Hz | left; reflexivity]. }
      assert (Hc : c = x).
      { unfold c. rewrite (SummaryFacts.total_constant x l Hall).
        fold n. field. lra. }
      rewrite Hc.
      rewrite (proj2 (SummaryFacts.squared_deviations_zero x l) Hall).
      unfold Rdiv. rewrite Rmult_0_l. apply sqrt_0.
Qed.

Lemma summary_deviation_zero_iff_constant_witness :
  (0%R = 0%R <-> forall x y, In x [5%R] -> In y [5%R] -> x = y).
Proof.
  apply (summary_deviation_zero_iff_constant [5%R]
           (Stats.Figures ((5 + 0) / 1) 5 5 0)).
  reflexivity.
Defined.

(* ===================================================================== *)
(** ** The verdicts of the latency sweeps *)
(* ===================================================================== *)

Module LatencyFacts.
Import Notions.

Lemma speed_latency_loop_spec (net : nat -> exchange) (todo : nat) :
  forall i latencies,
    (forallb (fun j => replied (net j)) (seq i todo) = true /\
     SpeedTest.latency_loop net i todo latencies =
     (Ok (latencies ++ map (fun j => latency_ms (net j)) (seq i todo)),
      (i + todo)%nat)) \/
    (forallb (fun j => replied (net j)) (seq i todo) = false /\
     exists e k,
       SpeedTest.latency_loop net i todo latencies = (Raise e, k) /\
       (k <= i + todo)%nat).
Proof.
  induction todo as [|todo IH]; intros i latencies.
  - left. cbn. rewrite app_nil_r, Nat.add_0_r. split; reflexivity.
  - cbn [SpeedTest.latency_loop seq forallb map].
    destruct (net i) as [s e r| | |] eqn:Hi; cbn [replied andb latency_ms].
    2-4: right; split; [reflexivity|]; do 2 eexists;
         split; [reflexivity | lia].
    destruct (IH (S i) (latencies ++ [((e - s) * 1000)%R]))
      as [[Hall Hloop]|(Hnot & e' & k & Hloop & Hk)].
    + left. split; [exact Hall|]. rewrite Hloop, <- app_assoc.
      f_equal. lia.
    + right. split; [exact Hnot|]. exists e', k. split; [exact Hloop | lia].
Qed.

Lemma relay_latency_loop_spec (net : nat -> RelaySpeedTest.attempt)
      (todo : nat) :
  forall i latencies,
    RelaySpeedTest.latency_loop net i todo latencies =
    (latencies ++
       map (fun j => relay_latency_ms (net j))
           (filter (fun j => relay_replied (net j)) (seq i todo)),
     (i + todo)%nat).
Proof.
  induction todo as [|todo IH]; intros i latencies.
  - cbn. rewrite app_nil_r, Nat.add_0_r. reflexivity.
  - cbn [RelaySpeedTest.latency_loop seq filter].
    destruct (net i) as [|[s e r| | |]] eqn:Hi;
      cbn [relay_replied replied]; rewrite IH.
    + f_equal. lia.
    + cbn [map relay_latency_ms latency_ms]. rewrite Hi.
      cbn [relay_latency_ms latency_ms]. rewrite <- app_assoc.
      f_equal. lia.
    + f_equal. lia.
    + f_equal. lia.
    + f_equal. lia.
Qed.

Lemma summary_defined (samples : list R) :
  samples <> [] -> exists f, Stats.summary samples = Ok f.
Proof.
  destruct samples as [|x rest]; [congruence|]. intros _.
  destruct (SummaryFacts.summary_cons x rest) as (std & H & _).
  eexists. exact H.
Qed.

Lemma existsb_filter_nil {A} (f : A -> bool) (l : list A) :
  existsb f l = false <-> filter f l = [].
Proof.
  induction l as [|a l IH]; [split; reflexivity|].
  cbn [existsb filter]. destruct (f a); cbn [orb]; [|exact IH].
  split; discriminate.
Qed.

End LatencyFacts.

(** X10. With its socket, [SpeedTest.test_latency] returns [True] exactly
    when at least one iteration was asked for and every exchange was
    answered; it then stores one latency per iteration, in order, each the
    elapsed time in milliseconds; otherwise it returns [False], stores
    nothing and has started no more iterations than asked for. *)
Theorem speed_latency_passes_iff_all_answered
        (iterations : nat) (net : nat -> exchange) :
  let r := SpeedTest.test_latency iterations true net in
  SpeedTest.returned r =
  Ok ((0 <? iterations)%nat &&
      forallb (fun i => Notions.replied (net i)) (seq 0 iterations)) /\
  (SpeedTest.iterations_run r <= iterations)%nat /\
  (SpeedTest.returned r = Ok true ->
   SpeedTest.iterations_run r = iterations /\
   exists f,
     SpeedTest.stored r =
     Some (SpeedTest.LatencyReport f
             (map (fun i => Notions.latency_ms (net i)) (seq 0 iterations)))) /\
  (SpeedTest.returned r = Ok false -> SpeedTest.stored r = None).
Proof.
  cbv zeta. unfold SpeedTest.test_latency.
  destruct (LatencyFacts.speed_latency_loop_spec net iterations 0 [])
    as [[Hall Hloop]|(Hnot & e & k & Hloop & Hk)]; rewrite Hloop.
  - rewrite Hall, andb_true_r. cbn [app bind Nat.add].
    destruct iterations as [|n].
    + cbn. repeat split; try lia; discriminate.
    + destruct (LatencyFacts.summary_defined
                  (map (fun i => Notions.latency_ms (net i)) (seq 0 (S n))))
        as [f Hf]; [discriminate|].
      rewrite Hf. cbn [bind SpeedTest.returned SpeedTest.stored
                       SpeedTest.iterations_run].
      repeat split; try lia; try discriminate.
      exists f. reflexivity.
  - rewrite Hnot, andb_false_r.
    cbn [bind SpeedTest.returned SpeedTest.stored SpeedTest.iterations_run].
    repeat split; try lia; try discriminate.
Qed.

(** X11. [RelaySpeedTest.test_latency] never raises and starts every
    iteration; it returns [True] exactly when at least one exchange was
    answered, and then stores the latencies of the answered exchanges, in
    order; an iteration whose socket, send or receive failed leaves no
    sample. *)
Theorem relay_latency_passes_iff_one_answered
        (iterations : nat) (net : nat -> RelaySpeedTest.attempt) :
  let r := RelaySpeedTest.test_latency iterations net in
  let answered :=
    filter (fun i => Notions.relay_replied (net i)) (seq 0 iterations) in
  SpeedTest.returned r =
  Ok (existsb (fun i => Notions.relay_replied (net i)) (seq 0 iterations)) /\
  SpeedTest.iterations_run r = iterations /\
  (answered = [] -> SpeedTest.stored r = None) /\
  (answered <> [] ->
   exists f,
     SpeedTest.stored r =
     Some (SpeedTest.LatencyReport f
             (map (fun i => Notions.relay_latency_ms (net i)) answered))).
Proof.
  cbv zeta. unfold RelaySpeedTest.test_latency.
  rewrite LatencyFacts.relay_latency_loop_spec. cbn [app Nat.add].
  destruct (filter (fun i => Notions.relay_replied (net i)) (seq 0 iterations))
    as [|j answered] eqn:Hanswered.
  - apply LatencyFacts.existsb_filter_nil in Hanswered. rewrite Hanswered.
    cbn. repeat split; congruence.
  - assert (Hex : existsb (fun i => Notions.relay_replied (net i))
                          (seq 0 iterations) = true).
    { destruct (existsb _ _) eqn:H; [reflexivity|].
      apply LatencyFacts.existsb_filter_nil in H. congruence. }
    rewrite Hex.
    destruct (LatencyFacts.summary_defined
                (map (fun i => Notions.relay_latency_ms (net i))
                     (j :: answered)))
      as [f Hf]; [discriminate|].
    cbn [map] in *. rewrite Hf.
    cbn [SpeedTest.returned SpeedTest.stored SpeedTest.iterations_run].
    repeat split; try discriminate.
    intros _. exists f. reflexivity.
Qed.

(* ===================================================================== *)
(** ** Throughput reports *)
(* ===================================================================== *)

Module ThroughputFacts.
Import Notions RelaySpeedTest.
Local Open Scope R_scope.

Lemma throughput_loop_spec test_data net (todo : nat) :
  forall i durations successful,
    throughput_loop test_data net i todo durations successful =
    (durations ++
       map (fun j => duration_s (net j)) (completed_in test_data net i todo),
     (successful + List.length (completed_in test_data net i todo))%nat).
Proof.
  unfold completed_in.
  induction todo as [|todo IH]; intros i durations successful.
  - cbn. rewrite app_nil_r, Nat.add_0_r. reflexivity.
  - cbn [throughput_loop seq filter].
    assert (Hc : Spec.completed test_data net i =
                 match net i with
                 | Exchange (Replied _ _ response) =>
                     same_bytes response (test_data i)
                 | _ => false
                 end) by reflexivity.
    rewrite Hc. clear Hc.
    destruct (net i) as [|[s e response| | |]] eqn:Hi;
      try (rewrite IH; reflexivity).
    destruct (same_bytes response (test_data i)); rewrite IH; [|reflexivity].
    cbn [map List.length]. rewrite Hi. cbn [duration_s].
    rewrite <- app_assoc. f_equal. lia.
Qed.

Lemma length_completed_in test_data net i todo :
  (List.length (completed_in test_data net i todo) <= todo)%nat.
Proof.
  unfold completed_in.
  pose proof (filter_length_le (Spec.completed test_data net) (seq i todo))
    as H.
  rewrite length_seq in H. exact H.
Qed.

Lemma div_ok (x y : R) : y <> 0 -> Stats.div x y = Ok (x / y).
Proof.
  intros H. unfold Stats.div. destruct (Req_dec_T y 0); [contradiction|].
  reflexivity.
Qed.

Lemma div_zero (x : R) : Stats.div x 0 = Raise ZeroDivisionError.
Proof.
  unfold Stats.div. destruct (Req_dec_T 0 0); [reflexivity | congruence].
Qed.

(** The summary of a non-empty list of durations: it raises for a zero
    mean and otherwise is the report spelled out here. *)
Lemma throughput_summary_cases (data_size iterations : nat)
      (durations : list R) (successful : nat) :
  durations <> [] ->
  iterations <> 0%nat ->
  exists f,
    Stats.summary durations = Ok f /\
    Stats.average f = Stats.total durations / INR (List.length durations) /\
    (Stats.total durations = 0 ->
     throughput_summary data_size iterations durations successful =
     Raise ZeroDivisionError) /\
    (Stats.total durations <> 0 ->
     throughput_summary data_size iterations durations successful =
     Ok (Some
           (ThroughputReport data_size iterations successful
              (INR successful / INR iterations * 100)
              (Stats.average f * 1000) (Stats.minimum f * 1000)
              (Stats.maximum f * 1000) (Stats.std_dev f * 1000)
              (INR data_size * 8 / (Stats.average f * 1000000))
              (INR data_size * 8 * 2 / (Stats.average f * 1000000))))).
Proof.
  intros Hne Hiter.
  destruct durations as [|x rest]; [congruence|].
  destruct (SummaryFacts.summary_cons x rest) as (std & Hsum & _).
  eexists. split; [exact Hsum|]. split; [reflexivity|].
  assert (Hn : 0 < INR (List.length (x :: rest))).
  { apply lt_0_INR. cbn [List.length]. lia. }
  unfold throughput_summary. rewrite Hsum. cbn [bind Stats.average].
  set (t := Stats.total (x :: rest)) in *.
  set (n := INR (List.length (x :: rest))) in *.
  clearbody t n.
  split.
  - intros Ht. rewrite Ht.
    replace (0 / n * 1000000) with 0 by (field; lra).
    rewrite div_zero. reflexivity.
  - intros Ht.
    assert (Havg : t / n * 1000000 <> 0).
    { intros H. apply Ht.
      assert (Hq : t / n = 0) by lra.
      apply (f_equal (fun v => v * n)) in Hq.
      replace (t / n * n) with t in Hq by (field; lra). lra. }
    rewrite !(div_ok _ _ Havg). cbn [bind].
    rewrite div_ok by (apply not_0_INR; exact Hiter).
    reflexivity.
Qed.

End ThroughputFacts.

(** X12. Every report [test_single_throughput] returns is consistent: it
    carries the payload size and the iteration count it was asked for; its
    number of successful transfers is the number of iterations whose reply
    equalled the payload, at least 1 and at most the iteration count; its
    success rate is that share in percent, above 0 and at most 100; the
    round-trip throughput is twice the one-way throughput; and the minimum,
    mean and maximum durations are in this order. *)
Theorem throughput_report_is_consistent
        (data_size iterations : nat) (test_data : nat -> list byte)
        (net : nat -> RelaySpeedTest.attempt)
        (r : RelaySpeedTest.throughput_report) :
  RelaySpeedTest.test_single_throughput data_size iterations test_data net =
  Ok (Some r) ->
  RelaySpeedTest.data_size r = data_size /\
  RelaySpeedTest.iterations r = iterations /\
  RelaySpeedTest.successful_transfers r =
  List.length (Notions.completed_in test_data net 0 iterations) /\
  (1 <= RelaySpeedTest.successful_transfers r <= iterations)%nat /\
  (RelaySpeedTest.success_rate r =
   INR (RelaySpeedTest.successful_transfers r) / INR iterations * 100)%R /\
  (0 < RelaySpeedTest.success_rate r <= 100)%R /\
  (RelaySpeedTest.throughput_roundtrip_mbps r =
   2 * RelaySpeedTest.throughput_mbps r)%R /\
  (RelaySpeedTest.min_duration_ms r <= RelaySpeedTest.avg_duration_ms r
   <= RelaySpeedTest.max_duration_ms r)%R.
Proof.
  unfold RelaySpeedTest.test_single_throughput.
  rewrite ThroughputFacts.throughput_loop_spec. cbn [app Nat.add].
  pose proof (ThroughputFacts.length_completed_in test_data net 0 iterations)
    as Hle.
  set (done := Notions.completed_in test_data net 0 iterations) in *.
  destruct done as [|j done'] eqn:Hdone.
  { cbn. discriminate. }
  rewrite <- Hdone in *.
  assert (Hpos : (1 <= List.length done)%nat)
    by (rewrite Hdone; cbn [List.length]; lia).
  set (durations := map (fun j => Notions.duration_s (net j)) done).
  assert (Hne : durations <> []).
  { unfold durations. rewrite Hdone. discriminate. }
  destruct (ThroughputFacts.throughput_summary_cases data_size iterations
              durations (List.length done) Hne ltac:(lia))
    as (f & Hsum & Havg & Hraise & Hok).
  destruct (Req_dec_T (Stats.total durations) 0) as [Hz|Hnz].
  { rewrite (Hraise Hz). discriminate. }
  rewrite (Hok Hnz). intros Hr. apply SummaryFacts.Ok_inj in Hr.
  assert (Hr' : r = RelaySpeedTest.ThroughputReport data_size iterations
                      (List.length done)
                      (INR (List.length done) / INR iterations * 100)
                      (Stats.average f * 1000) (Stats.minimum f * 1000)
                      (Stats.maximum f * 1000) (Stats.std_dev f * 1000)
                      (INR data_size * 8 / (Stats.average f * 1000000))
                      (INR data_size * 8 * 2 / (Stats.average f * 1000000)))
    by congruence.
  clear Hr. subst r.
  cbn [RelaySpeedTest.data_size RelaySpeedTest.iterations
       RelaySpeedTest.successful_transfers RelaySpeedTest.success_rate
       RelaySpeedTest.throughput_roundtrip_mbps RelaySpeedTest.throughput_mbps
       RelaySpeedTest.min_duration_ms RelaySpeedTest.avg_duration_ms
       RelaySpeedTest.max_duration_ms].
  assert (Hn : (0 < INR iterations)%R) by (apply lt_0_INR; lia).
  assert (Hs : (0 < INR (List.length done))%R) by (apply lt_0_INR; lia).
  assert (Hsn : (INR (List.length done) <= INR iterations)%R)
    by (apply le_INR; exact Hle).
  assert (Havg0 : Stats.average f <> 0%R).
  { rewrite Havg. intros H. apply Hnz.
    assert (Hl : (0 < INR (List.length durations))%R).
    { apply lt_0_INR. destruct durations; [congruence | cbn; lia]. }
    apply (f_equal (fun v => (v * INR (List.length durations))%R)) in H.
    replace (Stats.total durations / INR (List.length durations) *
             INR (List.length durations))%R
      with (Stats.total durations) in H by (field; lra).
    lra. }
  assert (Hbetween :
    (Stats.minimum f <= Stats.average f <= Stats.maximum f)%R).
  { destruct durations as [|x rest] eqn:Hd; [congruence|].
    destruct (SummaryFacts.summary_cons x rest) as (std & Hsum' & _).
    rewrite Hsum' in Hsum. apply SummaryFacts.Ok_inj in Hsum. subst f.
    cbn [Stats.minimum Stats.average Stats.maximum].
    destruct (StatsFacts.fold_min_spec rest x) as [_ Hmin].
    destruct (StatsFacts.fold_max_spec rest x) as [_ Hmax].
    cbv zeta in Hmin, Hmax.
    destruct (SummaryFacts.total_bounds
                (fold_left Stats.running_min rest x)
                (fold_left Stats.running_max rest x) (x :: rest))
      as [Hlo Hhi].
    { intros y Hy. split; [apply Hmin | apply Hmax]; exact Hy. }
    assert (Hl : (0 < INR (List.length (x :: rest)))%R)
      by (apply lt_0_INR; cbn [List.length]; lia).
    set (lo := fold_left Stats.running_min rest x) in *.
    set (hi := fold_left Stats.running_max rest x) in *.
    set (t := Stats.total (x :: rest)) in *.
    set (n := INR (List.length (x :: rest))) in *.
    clearbody lo hi t n.
    assert (Heq : (t / n * n = t)%R) by (field; lra).
    split; apply Rmult_le_reg_r with n; try exact Hl; rewrite Heq;
      assumption. }
  repeat split; try lia; try lra.
  - apply Rmult_lt_0_compat; [|lra].
    apply Rmult_lt_0_compat; [exact Hs|]. apply Rinv_0_lt_compat. exact Hn.
  - assert (Hq : (INR (List.length done) / INR iterations <= 1)%R).
    { apply Rmult_le_reg_r with (INR iterations); [exact Hn|].
      replace (INR (List.length done) / INR iterations * INR iterations)%R
        with (INR (List.length done)) by (field; lra).
      lra. }
    lra.
Qed.

Lemma throughput_report_is_consistent_witness :
  exists r,
    RelaySpeedTest.test_single_throughput 4 1 Samples.payloads
      (fun _ => RelaySpeedTest.Exchange (Replied 0 1 [x61; x62; x63; x64])) =
    Ok (Some r) /\
    RelaySpeedTest.successful_transfers r = 1%nat.
Proof.
  assert (H : exists r,
             RelaySpeedTest.test_single_throughput 4 1 Samples.payloads
               (fun _ => RelaySpeedTest.Exchange
                           (Replied 0 1 [x61; x62; x63; x64])) =
             Ok (Some r)).
  { unfold RelaySpeedTest.test_single_throughput.
    rewrite ThroughputFacts.throughput_loop_spec.
    change (Notions.completed_in Samples.payloads
              (fun _ => RelaySpeedTest.Exchange
                          (Replied 0 1 [x61; x62; x63; x64])) 0 1)
      with [0%nat].
    cbn [app map Notions.duration_s List.length Nat.add].
    destruct (ThroughputFacts.throughput_summary_cases 4 1 [(1 - 0)%R] 1
                ltac:(discriminate) ltac:(discriminate))
      as (f & _ & _ & _ & Hok).
    rewrite Hok; [eexists; reflexivity|].
    cbn [Stats.total fold_right]. lra. }
  destruct H as [r Hr]. exists r. split; [exact Hr|].
  destruct (throughput_report_is_consistent 4 1 Samples.payloads _ r Hr)
    as (_ & _ & Hcount & _).
  exact Hcount.
Defined.

(** X13. [test_single_throughput] returns [None] exactly when no iteration
    completed, and the only exception that can leave it is
    [ZeroDivisionError], raised exactly when some iteration completed and
    the measured durations add up to 0. *)
Theorem single_throughput_outcomes
        (data_size iterations : nat) (test_data : nat -> list byte)
        (net : nat -> RelaySpeedTest.attempt) :
  let done := Notions.completed_in test_data net 0 iterations in
  let durations := map (fun j => Notions.duration_s (net j)) done in
  let outcome :=
    RelaySpeedTest.test_single_throughput data_size iterations test_data net in
  (outcome = Ok None <-> done = []) /\
  (outcome = Raise ZeroDivisionError <->
   done <> [] /\ Stats.total durations = 0%R) /\
  (forall e, outcome = Raise e -> e = ZeroDivisionError).
Proof.
  cbv zeta. unfold RelaySpeedTest.test_single_throughput.
  rewrite ThroughputFacts.throughput_loop_spec. cbn [app Nat.add].
  pose proof (ThroughputFacts.length_completed_in test_data net 0 iterations)
    as Hle.
  destruct (Notions.completed_in test_data net 0 iterations)
    as [|j done'] eqn:Hdone.
  { cbn. repeat split; try discriminate; try congruence.
    intros [H _]. congruence. }
  set (done := j :: done') in *.
  set (durations := map (fun j => Notions.duration_s (net j)) done).
  assert (Hne : durations <> []) by discriminate.
  assert (Hiter : iterations <> 0%nat)
    by (unfold done in Hle; cbn [List.length] in Hle; lia).
  destruct (ThroughputFacts.throughput_summary_cases data_size iterations
              durations (List.length done) Hne Hiter)
    as (f & _ & _ & Hraise & Hok).
  destruct (Req_dec_T (Stats.total durations) 0) as [Hz|Hnz].
  - rewrite (Hraise Hz). repeat split; try discriminate; try congruence.
  - rewrite (Hok Hnz). repeat split; try discriminate.
    intros [_ H]. contradiction.
Qed.

(* ===================================================================== *)
(** ** Dictionaries of results *)
(* ===================================================================== *)

Module DictFacts.

Section Items.
Context {K V : Type} (eq_dec : forall a b : K, {a = b} + {a <> b}).

Lemma get_set (d : list (K * V)) (k k' : K) (v : V) :
  Dict.get eq_dec (Dict.set eq_dec d k v) k' =
  if eq_dec k' k then Some v else Dict.get eq_dec d k'.
Proof.
  induction d as [|[k0 v0] d IH]; cbn [Dict.set Dict.get].
  - destruct (eq_dec k' k); reflexivity.
  - destruct (eq_dec k k0) as [->|Hk]; cbn [Dict.get].
    + destruct (eq_dec k' k0); reflexivity.
    + destruct (eq_dec k' k0) as [->|Hk'].
      * destruct (eq_dec k0 k); [congruence | reflexivity].
      * exact IH.
Qed.

Lemma set_absent (d : list (K * V)) (k : K) (v : V) :
  ~ In k (Dict.keys d) -> Dict.set eq_dec d k v = d ++ [(k, v)].
Proof.
  induction d as [|[k0 v0] d IH]; cbn [Dict.set Dict.keys map fst In app];
    intros Hk; [reflexivity|].
  destruct (eq_dec k k0) as [->|_]; [exfalso; auto|].
  f_equal. apply IH. intros H. apply Hk. right. exact H.
Qed.

Lemma keys_set (d : list (K * V)) (k k' : K) (v : V) :
  In k' (Dict.keys (Dict.set eq_dec d k v)) <-> k' = k \/ In k' (Dict.keys d).
Proof.
  induction d as [|[k0 v0] d IH]; cbn [Dict.set Dict.keys map fst In].
  - intuition congruence.
  - destruct (eq_dec k k0) as [->|Hk]; cbn [Dict.keys map fst In].
    + intuition congruence.
    + unfold Dict.keys in IH. rewrite IH. intuition congruence.
Qed.

Lemma NoDup_keys_set (d : list (K * V)) (k : K) (v : V) :
  NoDup (Dict.keys d) -> NoDup (Dict.keys (Dict.set eq_dec d k v)).
Proof.
  induction d as [|[k0 v0] d IH]; cbn [Dict.set Dict.keys map fst];
    intros Hnd.
  - constructor; [intros [] | constructor].
  - inversion Hnd as [|? ? Hnotin Hnd']; subst.
    destruct (eq_dec k k0) as [->|Hk]; cbn [Dict.keys map fst].
    + constructor; assumption.
    + constructor; [|apply IH; exact Hnd'].
      intros Hin. apply (keys_set d k k0 v) in Hin.
      destruct Hin as [Heq|Hin]; [congruence | contradiction].
Qed.

End Items.

End DictFacts.

Module RangeFacts.
Import Notions RelaySpeedTest.

Lemma report_counts (data_size iterations : nat) test_data net r :
  test_single_throughput data_size iterations test_data net = Ok (Some r) ->
  RelaySpeedTest.data_size r = data_size /\
  RelaySpeedTest.iterations r = iterations /\
  (1 <= successful_transfers r <= iterations)%nat.
Proof.
  unfold test_single_throughput.
  rewrite ThroughputFacts.throughput_loop_spec. cbn [app Nat.add].
  pose proof (ThroughputFacts.length_completed_in test_data net 0 iterations)
    as Hle.
  destruct (completed_in test_data net 0 iterations) as [|j done'] eqn:Hdone.
  { cbn. discriminate. }
  destruct (ThroughputFacts.throughput_summary_cases data_size iterations
              (map (fun j => duration_s (net j)) (j :: done'))
              (List.length (j :: done')) ltac:(discriminate)
              ltac:(cbn [List.length] in Hle; lia))
    as (f & _ & _ & Hraise & Hok).
  destruct (Req_dec_T
              (Stats.total (map (fun j => duration_s (net j)) (j :: done'))) 0)
    as [Hz|Hnz].
  { rewrite (Hraise Hz). discriminate. }
  rewrite (Hok Hnz). intros Hr. apply SummaryFacts.Ok_inj in Hr.
  assert (Hd : RelaySpeedTest.data_size r = data_size) by (inversion Hr; reflexivity).
  assert (Hi : RelaySpeedTest.iterations r = iterations) by (inversion Hr; reflexivity).
  assert (Hs : successful_transfers r = List.length (j :: done'))
    by (inversion Hr; reflexivity).
  rewrite Hs. cbn [List.length] in *. repeat split; try assumption; lia.
Qed.

Lemma range_loop_invariant (sizes : list nat) test_data net :
  forall k results final,
    RelayRange.range_loop sizes k test_data net results = Ok final ->
    NoDup (Dict.keys results) ->
    (forall size r, Dict.get Nat.eq_dec results size = Some r ->
                    range_entry_ok size r) ->
    NoDup (Dict.keys final) /\
    (forall size r, Dict.get Nat.eq_dec final size = Some r ->
                    range_entry_ok size r /\
                    (In size sizes \/
                     Dict.get Nat.eq_dec results size = Some r)).
Proof.
  induction sizes as [|size0 sizes IH]; intros k results final;
    cbn [RelayRange.range_loop].
  - intros [= <-] Hnd Hok. split; [exact Hnd|].
    intros size r Hget. split; [apply Hok; exact Hget | right; exact Hget].
  - destruct (test_single_throughput size0 5 (test_data k) (net k))
      as [[report|]|e] eqn:Hsingle; cbn [bind]; [| |discriminate].
    + intros Hloop Hnd Hok.
      pose proof (report_counts _ _ _ _ _ Hsingle) as Hreport.
      destruct (IH _ _ _ Hloop) as [Hnd' Hfinal].
      { apply DictFacts.NoDup_keys_set. exact Hnd. }
      { intros size r. rewrite DictFacts.get_set.
        destruct (Nat.eq_dec size size0) as [->|_].
        - intros [= <-]. exact Hreport.
        - apply Hok. }
      split; [exact Hnd'|].
      intros size r Hget. destruct (Hfinal size r Hget) as [Hentry Hfrom].
      split; [exact Hentry|].
      destruct Hfrom as [Hin|Hprev]; [left; right; exact Hin|].
      rewrite DictFacts.get_set in Hprev.
      destruct (Nat.eq_dec size size0) as [->|_];
        [left; left; reflexivity | right; exact Hprev].
    + intros Hloop Hnd Hok.
      destruct (IH _ _ _ Hloop Hnd Hok) as [Hnd' Hfinal].
      split; [exact Hnd'|].
      intros size r Hget. destruct (Hfinal size r Hget) as [Hentry Hfrom].
      split; [exact Hentry|].
      destruct Hfrom as [Hin|Hprev]; [left; right; exact Hin | right; exact Hprev].
Qed.

End RangeFacts.

(** X14. Whenever [test_throughput_range] returns, the dictionary it returns
    has no repeated key, and every report in it is stored under one of the
    sizes asked for, carries that size, was made from 5 iterations and
    counts between 1 and 5 successful transfers: a size without a completed
    transfer has no entry. *)
Theorem throughput_range_entries
        (sizes : list nat) (test_data : nat -> nat -> list byte)
        (net : nat -> nat -> RelaySpeedTest.attempt)
        (results : list (nat * RelaySpeedTest.throughput_report)) :
  RelayRange.test_throughput_range sizes test_data net = Ok results ->
  NoDup (Dict.keys results) /\
  forall size r,
    Dict.get Nat.eq_dec results size = Some r ->
    In size sizes /\ Notions.range_entry_ok size r.
Proof.
  intros H. unfold RelayRange.test_throughput_range in H.
  destruct (RangeFacts.range_loop_invariant sizes test_data net 0 [] results H)
    as [Hnd Hall].
  - constructor.
  - intros size r. cbn. discriminate.
  - split; [exact Hnd|].
    intros size r Hget. destruct (Hall size r Hget) as [Hok [Hin|Hprev]].
    + split; assumption.
    + cbn in Hprev. discriminate.
Qed.

Lemma throughput_range_entries_witness :
  exists results r,
    RelayRange.test_throughput_range [4; 8]%nat (fun _ => Samples.payloads)
      Samples.first_size_echoes = Ok results /\
    Dict.get Nat.eq_dec results 4%nat = Some r /\
    Dict.get Nat.eq_dec results 8%nat = None /\
    NoDup (Dict.keys results) /\
    Notions.range_entry_ok 4 r.
Proof.
  assert (H0 : exists r,
             RelaySpeedTest.test_single_throughput 4 5 Samples.payloads
               (Samples.first_size_echoes 0) = Ok (Some r)).
  { unfold RelaySpeedTest.test_single_throughput.
    rewrite ThroughputFacts.throughput_loop_spec.
    change (Notions.completed_in Samples.payloads
              (Samples.first_size_echoes 0) 0 5)
      with [0; 1; 2; 3; 4]%nat.
    cbn [app map Notions.duration_s Samples.first_size_echoes List.length
         Nat.add].
    destruct (ThroughputFacts.throughput_summary_cases 4 5
                [(1 - 0)%R; (1 - 0)%R; (1 - 0)%R; (1 - 0)%R; (1 - 0)%R] 5
                ltac:(discriminate) ltac:(discriminate))
      as (f & _ & _ & _ & Hok).
    rewrite Hok; [eexists; reflexivity|].
    cbn [Stats.total fold_right]. lra. }
  destruct H0 as [r Hr].
  assert (Hrun : RelayRange.test_throughput_range [4; 8]%nat
                   (fun _ => Samples.payloads) Samples.first_size_echoes =
                 Ok [(4%nat, r)]).
  { unfold RelayRange.test_throughput_range. cbn [RelayRange.range_loop].
    rewrite Hr. reflexivity. }
  exists [(4%nat, r)], r.
  split; [exact Hrun|]. split; [reflexivity|]. split; [reflexivity|].
  destruct (throughput_range_entries [4; 8]%nat (fun _ => Samples.payloads)
              Samples.first_size_echoes [(4%nat, r)] Hrun)
    as [Hnodup Hall].
  split; [exact Hnodup|].
  apply (Hall 4%nat r). reflexivity.
Defined.

Module SpeedThroughputFacts.
Import Notions SpeedThroughput.

Lemma same_bytes_true (a b : list byte) :
  RelaySpeedTest.same_bytes a b = true <-> a = b.
Proof.
  unfold RelaySpeedTest.same_bytes.
  destruct (list_eq_dec Byte.byte_eq_dec a b); split; congruence.
Qed.

(** A size counts as a success exactly for an echo equal to the payload
    whose two clock readings differ. *)
Lemma succeeded_iff (size : nat) (test_data : list byte)
      (a : RelaySpeedTest.attempt) :
  succeeded (attempt_size size test_data a) = true <->
  exists start_time end_time,
    a = RelaySpeedTest.Exchange (Replied start_time end_time test_data) /\
    end_time <> start_time.
Proof.
  unfold attempt_size, measure.
  destruct a as [|[s e response| | |]];
    try (split; [discriminate | intros (? & ? & H & _); discriminate]).
  destruct (RelaySpeedTest.same_bytes response test_data) eqn:Hsame.
  - apply same_bytes_true in Hsame. subst response.
    unfold Stats.div.
    destruct (Req_dec_T ((e - s) * 1000000) 0) as [Hz|Hnz]; cbn [bind succeeded].
    + split; [discriminate|].
      intros (s' & e' & [= <- <-] & Hne). exfalso. apply Hne. lra.
    + split; [|reflexivity]. intros _. exists s, e. split; [reflexivity|].
      intros ->. apply Hnz. lra.
  - split; [discriminate|].
    intros (s' & e' & [= _ _ ->] & _).
    assert (RelaySpeedTest.same_bytes test_data test_data = true)
      by (apply same_bytes_true; reflexivity).
    congruence.
Qed.

Lemma keys_app {K V} (d1 d2 : list (K * V)) :
  Dict.keys (d1 ++ d2) = Dict.keys d1 ++ Dict.keys d2.
Proof. unfold Dict.keys. apply map_app. Qed.

Lemma keys_size_entries test_data net (sizes : list nat) :
  forall k, Dict.keys (size_entries test_data net sizes k) = sizes.
Proof.
  induction sizes as [|size sizes IH]; intros k; [reflexivity|].
  cbn [size_entries Dict.keys map fst]. f_equal. apply IH.
Qed.

(** With distinct sizes no entry is overwritten. *)
Lemma sizes_loop_distinct test_data net (sizes : list nat) :
  forall k results,
    NoDup (Dict.keys results ++ sizes) ->
    sizes_loop sizes k test_data net results =
    results ++ size_entries test_data net sizes k.
Proof.
  induction sizes as [|size sizes IH]; intros k results Hnd.
  - cbn. rewrite app_nil_r. reflexivity.
  - cbn [sizes_loop size_entries].
    assert (Habsent : ~ In size (Dict.keys results)).
    { intros Hin. apply NoDup_remove_2 in Hnd. apply Hnd.
      apply in_or_app. left. exact Hin. }
    rewrite (DictFacts.set_absent Nat.eq_dec) by exact Habsent.
    rewrite IH.
    + rewrite <- app_assoc. reflexivity.
    + rewrite keys_app. cbn [Dict.keys map fst]. rewrite <- app_assoc.
      exact Hnd.
Qed.

Lemma existsb_size_entries test_data net (sizes : list nat) :
  forall k,
    existsb succeeded (Dict.values (size_entries test_data net sizes k)) = true
    <->
    exists j size,
      nth_error sizes j = Some size /\
      succeeded (attempt_size size (test_data (k + j)%nat) (net (k + j)%nat))
      = true.
Proof.
  induction sizes as [|size sizes IH]; intros k.
  - cbn. split; [discriminate|]. intros ([|j] & s & H & _); discriminate.
  - cbn [size_entries Dict.values map snd existsb].
    rewrite orb_true_iff. unfold Dict.values in IH. rewrite IH. split.
    + intros [H|(j & s & Hnth & H)].
      * exists 0%nat, size. rewrite Nat.add_0_r. split; [reflexivity | exact H].
      * exists (S j), s. replace (k + S j)%nat with (S k + j)%nat by lia.
        split; [exact Hnth | exact H].
    + intros ([|j] & s & Hnth & H).
      * cbn in Hnth. injection Hnth as <-. rewrite Nat.add_0_r in H.
        left. exact H.
      * right. exists j, s. replace (S k + j)%nat with (k + S j)%nat by lia.
        split; [exact Hnth | exact H].
Qed.

End SpeedThroughputFacts.

(** X15. For distinct sizes, [SpeedTest.test_throughput] stores one entry
    per size, in order, and returns [True] exactly when for at least one
    size the echo equalled the payload and the two clock readings around the
    exchange differed; an echo measured in zero time counts as a failure
    instead of raising. *)
Theorem speed_throughput_passes_iff_one_size_echoes
        (data_sizes : list nat) (test_data : nat -> list byte)
        (net : nat -> RelaySpeedTest.attempt) :
  NoDup data_sizes ->
  let outcome := SpeedThroughput.test_throughput data_sizes test_data net in
  Dict.keys (snd outcome) = data_sizes /\
  (fst outcome = true <->
   exists k size start_time end_time,
     nth_error data_sizes k = Some size /\
     net k =
     RelaySpeedTest.Exchange (Replied start_time end_time (test_data k)) /\
     end_time <> start_time).
Proof.
  intros Hnd. cbv zeta. unfold SpeedThroughput.test_throughput.
  cbn [fst snd].
  rewrite SpeedThroughputFacts.sizes_loop_distinct by exact Hnd.
  cbn [app]. split; [apply SpeedThroughputFacts.keys_size_entries|].
  rewrite SpeedThroughputFacts.existsb_size_entries. cbn [Nat.add].
  split.
  - intros (j & size & Hnth & H).
    apply SpeedThroughputFacts.succeeded_iff in H
      as (s & e & Hnet & Hne).
    exists j, size, s, e. auto.
  - intros (k & size & s & e & Hnth & Hnet & Hne).
    exists k, size. split; [exact Hnth|].
    apply SpeedThroughputFacts.succeeded_iff. exists s, e. auto.
Qed.

Lemma speed_throughput_passes_iff_one_size_echoes_witness :
  Dict.keys
    (snd (SpeedThroughput.test_throughput SpeedThroughput.default_sizes
            Samples.payloads Samples.silent)) =
  SpeedThroughput.default_sizes.
Proof.
  apply (speed_throughput_passes_iff_one_size_echoes
           SpeedThroughput.default_sizes Samples.payloads Samples.silent).
  unfold SpeedThroughput.default_sizes.
  repeat constructor; cbn [In]; intros H;
    repeat (destruct H as [H|H]; [apply Nat.eqb_eq in H; vm_compute in H;
                                  discriminate|]);
    exact H.
Defined.

(* ===================================================================== *)
(** ** The stress counters *)
(* ===================================================================== *)

Module StressFacts.
Import Notions SpeedTest.
Local Open Scope Z_scope.

Lemma stress_step_ok (c : counters) (n : Z) (a : attempt) :
  stress_counters_ok c n -> stress_counters_ok (stress_step c a) (n + 1).
Proof.
  unfold stress_counters_ok. destruct c as [sent received errs].
  destruct a as [[|]| |]; cbn [stress_step messages_sent messages_received errors];
    lia.
Qed.

Lemma fold_stress_ok (passes : list attempt) :
  forall c n,
    stress_counters_ok c n ->
    stress_counters_ok (fold_left stress_step passes c)
                       (n + Z.of_nat (List.length passes)).
Proof.
  induction passes as [|a passes IH]; intros c n Hc.
  - cbn [fold_left List.length]. replace (n + Z.of_nat 0) with n by lia.
    exact Hc.
  - cbn [fold_left List.length].
    replace (n + Z.of_nat (S (List.length passes)))
      with ((n + 1) + Z.of_nat (List.length passes)) by lia.
    apply IH. apply stress_step_ok. exact Hc.
Qed.

End StressFacts.

(** X16. After any number of passes of the stress loop the counters are
    consistent: the messages received are at most the messages sent, which
    are at most the passes made; the received messages and the errors
    together are at most the passes made; and every pass counted as a sent
    message or as an error. *)
Theorem stress_counters_are_consistent (passes : list SpeedTest.attempt) :
  let c := SpeedTest.stress_loop passes in
  let n := Z.of_nat (List.length passes) in
  (0 <= SpeedTest.messages_received c <= SpeedTest.messages_sent c)%Z /\
  (SpeedTest.messages_sent c <= n)%Z /\
  (0 <= SpeedTest.errors c <= n)%Z /\
  (SpeedTest.messages_received c + SpeedTest.errors c <= n)%Z /\
  (n <= SpeedTest.messages_sent c + SpeedTest.errors c)%Z.
Proof.
  cbv zeta. unfold SpeedTest.stress_loop.
  apply (StressFacts.fold_stress_ok passes (SpeedTest.Counters 0 0 0) 0).
  unfold Notions.stress_counters_ok. cbn. lia.
Qed.

(* ===================================================================== *)
(** ** The concurrent phase *)
(* ===================================================================== *)

Module ConcurrentFacts.
Import Notions SpeedConcurrent.

Lemma client_loop_spec (passes : list pass) :
  forall sent received,
    (0 <= received <= sent)%Z ->
    (existsb fatal passes = true /\
     client_loop passes sent received = Raise OSError) \/
    (existsb fatal passes = false /\
     exists received',
       client_loop passes sent received =
       Ok ((sent + Z.of_nat (List.length (filter went_out passes)))%Z,
           received') /\
       (received <= received'
        <= received + Z.of_nat (List.length (filter went_out passes)))%Z).
Proof.
  induction passes as [|p passes IH]; intros sent received Hc.
  - right. split; [reflexivity|]. exists received. cbn.
    split; [f_equal; f_equal|]; lia.
  - destruct p as [same| | | |];
      cbn [client_loop existsb fatal orb filter went_out List.length].
    + destruct (IH (sent + 1)%Z (if same then (received + 1)%Z else received))
        as [[Hf Hl]|(Hf & r' & Hl & Hr)]; [destruct same; lia| |].
      * left. auto.
      * right. split; [exact Hf|]. exists r'. rewrite Hl.
        split; [f_equal; f_equal; lia | destruct same; lia].
    + destruct (IH sent received Hc) as [[Hf Hl]|(Hf & r' & Hl & Hr)].
      * left. auto.
      * right. split; [exact Hf|]. exists r'. rewrite Hl.
        split; [reflexivity | lia].
    + left. auto.
    + destruct (IH (sent + 1)%Z received)
        as [[Hf Hl]|(Hf & r' & Hl & Hr)]; [lia| |].
      * left. auto.
      * right. split; [exact Hf|]. exists r'. rewrite Hl.
        split; [f_equal; f_equal; lia | lia].
    + left. auto.
Qed.

Lemma pass_eq_dec (p q : pass) : {p = q} + {p <> q}.
Proof. decide equality. apply Bool.bool_dec. Defined.

(** In a loop without a fatal pass every pass went out or is a send that
    timed out. *)
Lemma went_out_count (passes : list pass) :
  existsb fatal passes = false ->
  (List.length (filter went_out passes) +
   count_occ pass_eq_dec passes SendTimedOut)%nat = List.length passes.
Proof.
  induction passes as [|p passes IH]; [reflexivity|].
  cbn [existsb]. intros H. apply orb_false_iff in H as [Hp Hrest].
  specialize (IH Hrest).
  destruct p as [same| | | |]; try discriminate Hp;
    cbn [filter went_out List.length count_occ];
    destruct (pass_eq_dec _ SendTimedOut) as [He|Hne];
    try discriminate He; try (exfalso; apply Hne; reflexivity);
    cbn [List.length]; lia.
Qed.

Lemma rate_bounds (sent received : Z) :
  (0 <= received <= sent)%Z -> (0 <= rate sent received <= 100)%R.
Proof.
  intros [Hr Hs]. unfold rate.
  destruct (0 <? sent)%Z eqn:Hpos; [|lra].
  apply Z.ltb_lt in Hpos.
  assert (H0 : (0 < IZR sent)%R) by (apply IZR_lt; exact Hpos).
  assert (H1 : (0 <= IZR received)%R) by (apply IZR_le; exact Hr).
  assert (H2 : (IZR received <= IZR sent)%R) by (apply IZR_le; exact Hs).
  assert (H3 : (0 <= IZR received / IZR sent)%R).
  { apply Rmult_le_pos; [exact H1|]. left. apply Rinv_0_lt_compat. exact H0. }
  assert (H4 : (IZR received / IZR sent <= 1)%R).
  { apply Rmult_le_reg_r with (IZR sent); [exact H0|].
    replace (IZR received / IZR sent * IZR sent)%R with (IZR received)
      by (field; lra).
    lra. }
  lra.
Qed.

(** What a client thread appends. *)
Lemma client_thread_spec (id : nat) (c : client) :
  (socket_created c = false \/ existsb fatal (passes c) = true) /\
  client_thread id c = Failed id
  \/
  socket_created c = true /\ existsb fatal (passes c) = false /\
  exists received,
    (0 <= received
     <= Z.of_nat (List.length (filter went_out (passes c))))%Z /\
    client_thread id c =
    Report (ClientReport id
              (Z.of_nat (List.length (filter went_out (passes c)))) received
              (actual_duration c)
              (rate (Z.of_nat (List.length (filter went_out (passes c))))
                 received)).
Proof.
  unfold client_thread.
  destruct (socket_created c); [|left; auto].
  destruct (client_loop_spec (passes c) 0 0 ltac:(lia))
    as [[Hf Hl]|(Hf & r' & Hl & Hr)]; rewrite Hl.
  - left. auto.
  - right. split; [reflexivity|]. split; [exact Hf|].
    exists r'. split; [lia | reflexivity].
Qed.

Lemma client_thread_ok (id : nat) (c : client) (r : client_report) :
  client_thread id c = Report r -> client_report_ok r.
Proof.
  destruct (client_thread_spec id c)
    as [[_ H]|(_ & _ & received & Hr & H)]; rewrite H; [discriminate|].
  intros [= <-]. unfold client_report_ok.
  cbn [messages_received messages_sent success_rate].
  split; [lia|]. apply rate_bounds. lia.
Qed.

Lemma successful_ok (clients : nat -> client) (finished : list nat) :
  Forall client_report_ok
    (successful (map (fun id => client_thread id (clients id)) finished)).
Proof.
  induction finished as [|id finished IH]; cbn [map successful];
    [constructor|].
  destruct (client_thread id (clients id)) as [r|id'] eqn:Hc; [|exact IH].
  constructor; [|exact IH]. eapply client_thread_ok. exact Hc.
Qed.

Lemma totals_ok (reports : list client_report) :
  Forall client_report_ok reports ->
  (0 <= total (map messages_received reports)
   <= total (map messages_sent reports))%Z.
Proof.
  induction 1 as [|r reports [Hr _] _ IH]; cbn [map total fold_right]; [lia|].
  fold (total (map messages_received reports)).
  fold (total (map messages_sent reports)). lia.
Qed.

Lemma mean_ok (reports : list client_report) :
  reports <> [] ->
  Forall client_report_ok reports ->
  exists avg,
    Stats.mean (map success_rate reports) = Ok avg /\
    avg = (Stats.total (map success_rate reports) /
           INR (List.length reports))%R /\
    (0 <= avg <= 100)%R.
Proof.
  intros Hne Hok.
  destruct reports as [|r reports]; [congruence|].
  exists (Stats.total (map success_rate (r :: reports)) /
          INR (List.length (r :: reports)))%R.
  split.
  { cbn [map Stats.mean List.length]. rewrite length_map. reflexivity. }
  split; [reflexivity|].
  destruct (SummaryFacts.total_bounds 0 100 (map success_rate (r :: reports)))
    as [Hlo Hhi].
  { intros x Hx. apply in_map_iff in Hx as (y & <- & Hy).
    rewrite Forall_forall in Hok. apply (Hok y Hy). }
  rewrite length_map in Hlo, Hhi.
  assert (Hn : (0 < INR (List.length (r :: reports)))%R)
    by (apply lt_0_INR; cbn [List.length]; lia).
  set (t := Stats.total (map success_rate (r :: reports))) in *.
  set (n := INR (List.length (r :: reports))) in *.
  clearbody t n.
  assert (Heq : (t / n * n = t)%R) by (field; lra).
  split; apply Rmult_le_reg_r with n; try exact Hn; rewrite Heq; lra.
Qed.

(** The analysis, case by case. *)
Lemma analyse_cases (results : list client_entry) :
  Forall client_report_ok (successful results) ->
  let reports := successful results in
  let sent := total (map messages_sent reports) in
  let received := total (map messages_received reports) in
  (reports = [] /\ analyse results = Ok (false, None)) \/
  (reports <> [] /\ sent = 0%Z /\ analyse results = Raise ZeroDivisionError) \/
  (reports <> [] /\ sent <> 0%Z /\
   exists avg,
     Stats.mean (map success_rate reports) = Ok avg /\
     (0 <= avg <= 100)%R /\
     (0 <= IZR received / IZR sent * 100 <= 100)%R /\
     analyse results =
     Ok (true,
         Some (ConcurrentReport sent received
                 (IZR received / IZR sent * 100) avg reports))).
Proof.
  intros Hok. cbv zeta. unfold analyse.
  destruct (successful results) as [|r reports] eqn:Hs.
  { left. auto. }
  right.
  destruct (mean_ok (r :: reports) ltac:(discriminate) Hok)
    as (avg & Hmean & _ & Havg).
  pose proof (totals_ok (r :: reports) Hok) as Htot.
  rewrite Hmean. cbn [bind].
  set (sent := total (map messages_sent (r :: reports))) in *.
  set (received := total (map messages_received (r :: reports))) in *.
  destruct (Z.eq_dec sent 0) as [Hz|Hnz].
  - left. split; [discriminate|]. split; [exact Hz|].
    rewrite Hz. rewrite ThroughputFacts.div_zero. reflexivity.
  - right. split; [discriminate|]. split; [exact Hnz|].
    exists avg. split; [reflexivity|]. split; [exact Havg|].
    assert (Hsent : IZR sent <> 0%R).
    { intros H. apply Hnz. apply eq_IZR. exact H. }
    rewrite (ThroughputFacts.div_ok _ _ Hsent). cbn [bind].
    split; [|reflexivity].
    assert (Hb := rate_bounds sent received Htot).
    unfold rate in Hb.
    replace (0 <? sent)%Z with true in Hb
      by (symmetry; apply Z.ltb_lt; lia).
    exact Hb.
Qed.

Lemma successful_perm (l l' : list client_entry) :
  Permutation l l' -> Permutation (successful l) (successful l').
Proof.
  induction 1 as [|x l l' _ IH|x y l|l l' l'' _ IH1 _ IH2].
  - constructor.
  - destruct x; cbn [successful]; [constructor|]; exact IH.
  - destruct x, y; cbn [successful];
      try apply Permutation_refl; apply perm_swap.
  - eapply Permutation_trans; eassumption.
Qed.

Lemma total_perm (l l' : list Z) : Permutation l l' -> total l = total l'.
Proof.
  induction 1 as [|x l l' _ IH|x y l|l l' l'' _ IH1 _ IH2];
    cbn [total fold_right] in *; try fold (total l) in *;
    try fold (total l') in *; lia.
Qed.

Lemma real_total_perm (l l' : list R) :
  Permutation l l' -> Stats.total l = Stats.total l'.
Proof.
  induction 1 as [|x l l' _ IH|x y l|l l' l'' _ IH1 _ IH2];
    cbn [Stats.total fold_right] in *; try fold (Stats.total l) in *;
    try fold (Stats.total l') in *; lra.
Qed.

(** The figures of the analysis as a function of the totals alone. *)
Lemma figures_analyse (results : list client_entry) :
  let reports := successful results in
  reports <> [] ->
  concurrent_figures (analyse results) =
  (ratio <- Stats.div (IZR (total (map messages_received reports)))
                      (IZR (total (map messages_sent reports))) ;;
   Ok (true,
       Some (total (map messages_sent reports),
             total (map messages_received reports),
             (ratio * 100)%R,
             (Stats.total (map success_rate reports) /
              INR (List.length reports))%R))).
Proof.
  cbv zeta. unfold analyse.
  destruct (successful results) as [|r reports]; [congruence|]. intros _.
  unfold Stats.mean. cbn [map bind List.length]. rewrite length_map.
  destruct (Stats.div _ _); reflexivity.
Qed.

End ConcurrentFacts.

(** X17. A client thread of [SpeedTest] appends an error entry exactly when
    its socket could not be created or one of its passes met a send or a
    receive error other than a timeout.  Otherwise it appends a report under
    its own id in which the messages sent are the passes whose message went
    out, that is all passes but the sends that timed out, which are skipped
    without being counted; the messages received are between 0 and the
    messages sent, and the success rate is between 0 and 100. *)
Theorem speed_client_entry (id : nat) (c : SpeedConcurrent.client) :
  (SpeedConcurrent.client_thread id c = SpeedConcurrent.Failed id <->
   SpeedConcurrent.socket_created c = false \/
   existsb Notions.fatal (SpeedConcurrent.passes c) = true) /\
  (forall r,
     SpeedConcurrent.client_thread id c = SpeedConcurrent.Report r ->
     SpeedConcurrent.client_id r = id /\
     SpeedConcurrent.messages_sent r =
     Z.of_nat (List.length (filter Notions.went_out
                              (SpeedConcurrent.passes c))) /\
     (SpeedConcurrent.messages_sent r =
      Z.of_nat (List.length (SpeedConcurrent.passes c)) -
      Z.of_nat (count_occ ConcurrentFacts.pass_eq_dec
                  (SpeedConcurrent.passes c) SpeedConcurrent.SendTimedOut))%Z /\
     (0 <= SpeedConcurrent.messages_received r
      <= SpeedConcurrent.messages_sent r)%Z /\
     SpeedConcurrent.duration r = SpeedConcurrent.actual_duration c /\
     (0 <= SpeedConcurrent.success_rate r <= 100)%R).
Proof.
  destruct (ConcurrentFacts.client_thread_spec id c)
    as [[Hwhy H]|(Hsock & Hf & received & Hr & H)]; rewrite H.
  - split; [split; auto|]. discriminate.
  - split.
    + split; [discriminate|]. intros [Hs|Hs]; congruence.
    + intros r Hrep.
      assert (Hr' : r = SpeedConcurrent.ClientReport id
                          (Z.of_nat
                             (List.length
                                (filter Notions.went_out
                                   (SpeedConcurrent.passes c))))
                          received (SpeedConcurrent.actual_duration c)
                          (SpeedConcurrent.rate
                             (Z.of_nat
                                (List.length
                                   (filter Notions.went_out
                                      (SpeedConcurrent.passes c))))
                             received))
        by congruence.
      clear Hrep. subst r.
      cbn [SpeedConcurrent.client_id SpeedConcurrent.messages_sent
           SpeedConcurrent.messages_received SpeedConcurrent.duration
           SpeedConcurrent.success_rate].
      pose proof (ConcurrentFacts.went_out_count (SpeedConcurrent.passes c) Hf)
        as Hcount.
      split; [reflexivity|]. split; [reflexivity|]. split; [lia|].
      split; [exact Hr|]. split; [reflexivity|].
      apply ConcurrentFacts.rate_bounds. exact Hr.
Qed.

(** Of three passes, an echo, a send that timed out and a receive that
    timed out, two count as sent and one as received. *)
Example send_timeout_is_skipped :
  exists rate,
    SpeedConcurrent.client_thread 0
      (SpeedConcurrent.Client true
         [SpeedConcurrent.Echoed true; SpeedConcurrent.SendTimedOut;
          SpeedConcurrent.TimedOut] 10) =
    SpeedConcurrent.Report (SpeedConcurrent.ClientReport 0 2 1 10 rate).
Proof. eexists. reflexivity. Qed.

(** X18. The concurrent phase of [SpeedTest] ends in one of three ways:
    when every thread appended an error entry it returns [False]; when some
    thread reported but no reporting thread sent a message, the overall rate
    divides by zero and [ZeroDivisionError] leaves the method; otherwise it
    returns [True] and stores totals with the received messages between 0
    and the sent ones and both rates between 0 and 100. *)
Theorem speed_concurrent_outcomes
        (clients : nat -> SpeedConcurrent.client) (finished : list nat) :
  let results :=
    map (fun id => SpeedConcurrent.client_thread id (clients id)) finished in
  let reports := SpeedConcurrent.successful results in
  let sent :=
    SpeedConcurrent.total (map SpeedConcurrent.messages_sent reports) in
  let outcome :=
    SpeedConcurrent.test_concurrent_throughput clients finished in
  (reports = [] /\ outcome = Ok (false, None)) \/
  (reports <> [] /\ sent = 0%Z /\ outcome = Raise ZeroDivisionError) \/
  (reports <> [] /\ sent <> 0%Z /\
   exists report,
     outcome = Ok (true, Some report) /\
     SpeedConcurrent.clients report = reports /\
     SpeedConcurrent.total_sent report = sent /\
     (0 <= SpeedConcurrent.total_received report <= sent)%Z /\
     (0 <= SpeedConcurrent.overall_success_rate report <= 100)%R /\
     (0 <= SpeedConcurrent.avg_client_success_rate report <= 100)%R).
Proof.
  cbv zeta. unfold SpeedConcurrent.test_concurrent_throughput.
  pose proof (ConcurrentFacts.successful_ok clients finished) as Hok.
  pose proof (ConcurrentFacts.totals_ok _ Hok) as Htot.
  destruct (ConcurrentFacts.analyse_cases _ Hok)
    as [[Hnil H]|[(Hne & Hz & H)|(Hne & Hnz & avg & _ & Havg & Hover & H)]].
  - left. auto.
  - right. left. auto.
  - right. right. split; [exact Hne|]. split; [exact Hnz|].
    eexists. split; [exact H|].
    cbn [SpeedConcurrent.clients SpeedConcurrent.total_sent
         SpeedConcurrent.total_received SpeedConcurrent.overall_success_rate
         SpeedConcurrent.avg_client_success_rate].
    auto.
Qed.

(** X19. The outcome of the concurrent phase of [SpeedTest] does not depend
    on the order in which the threads end: for two orders of the same
    clients it returns or raises alike, with the same totals, the same
    overall rate and the same mean client rate. *)
Theorem speed_concurrent_order_independent
        (clients : nat -> SpeedConcurrent.client)
        (finished finished' : list nat) :
  Permutation finished finished' ->
  Notions.concurrent_figures
    (SpeedConcurrent.test_concurrent_throughput clients finished) =
  Notions.concurrent_figures
    (SpeedConcurrent.test_concurrent_throughput clients finished').
Proof.
  intros Hperm. unfold SpeedConcurrent.test_concurrent_throughput.
  set (entry := fun id => SpeedConcurrent.client_thread id (clients id)).
  assert (Hs : Permutation (SpeedConcurrent.successful (map entry finished))
                           (SpeedConcurrent.successful (map entry finished')))
    by (apply ConcurrentFacts.successful_perm, Permutation_map; exact Hperm).
  destruct (SpeedConcurrent.successful (map entry finished)) as [|r rs] eqn:H1.
  - apply Permutation_nil in Hs.
    unfold SpeedConcurrent.analyse. rewrite H1, Hs. reflexivity.
  - assert (H2 : SpeedConcurrent.successful (map entry finished') <> []).
    { intros H. rewrite H in Hs. apply Permutation_sym, Permutation_nil in Hs.
      discriminate. }
    rewrite !ConcurrentFacts.figures_analyse by (rewrite ?H1; congruence).
    rewrite H1.
    rewrite (ConcurrentFacts.total_perm _ _
               (Permutation_map SpeedConcurrent.messages_received Hs)).
    rewrite (ConcurrentFacts.total_perm _ _
               (Permutation_map SpeedConcurrent.messages_sent Hs)).
    rewrite (ConcurrentFacts.real_total_perm _ _
               (Permutation_map SpeedConcurrent.success_rate Hs)).
    rewrite (Permutation_length Hs). reflexivity.
Qed.

Lemma speed_concurrent_order_independent_witness :
  Notions.concurrent_figures
    (SpeedConcurrent.test_concurrent_throughput
       (fun id => SpeedConcurrent.Client true
                    (repeat (SpeedConcurrent.Echoed true) id) 10)
       [0; 1; 2]%nat) =
  Notions.concurrent_figures
    (SpeedConcurrent.test_concurrent_throughput
       (fun id => SpeedConcurrent.Client true
                    (repeat (SpeedConcurrent.Echoed true) id) 10)
       [1; 0; 2]%nat).
Proof.
  apply (speed_concurrent_order_independent _ [0; 1; 2]%nat [1; 0; 2]%nat).
  apply perm_swap.
Defined.

Module RelayClientFacts.
Import Notions RelayConcurrent.
Local Open Scope Z_scope.

Lemma client_step_ok (c : counters) (n : Z) (p : pass) :
  relay_counters_ok c n -> relay_counters_ok (client_step c p) (n + 1).
Proof.
  unfold relay_counters_ok. destruct c as [sent received bs br].
  destruct p as [message response|message|message]; cbn [client_step].
  - destruct (RelaySpeedTest.same_bytes response message) eqn:Hsame;
      cbn [messages_sent messages_received total_bytes_sent
           total_bytes_received].
    + apply SpeedThroughputFacts.same_bytes_true in Hsame. subst response.
      lia.
    + lia.
  - cbn [messages_sent messages_received total_bytes_sent
         total_bytes_received]. lia.
  - cbn [messages_sent messages_received total_bytes_sent
         total_bytes_received]. lia.
Qed.

Lemma fold_client_ok (passes : list pass) :
  forall c n,
    relay_counters_ok c n ->
    relay_counters_ok (fold_left client_step passes c)
                      (n + Z.of_nat (List.length passes)).
Proof.
  induction passes as [|p passes IH]; intros c n Hc.
  - cbn [fold_left List.length]. replace (n + Z.of_nat 0) with n by lia.
    exact Hc.
  - cbn [fold_left List.length].
    replace (n + Z.of_nat (S (List.length passes)))
      with ((n + 1) + Z.of_nat (List.length passes)) by lia.
    apply IH. apply client_step_ok. exact Hc.
Qed.

Lemma client_loop_ok (passes : list pass) :
  relay_counters_ok (client_loop passes) (Z.of_nat (List.length passes)).
Proof.
  unfold client_loop.
  apply (fold_client_ok passes (Counters 0 0 0 0) 0).
  unfold relay_counters_ok. cbn. lia.
Qed.

End RelayClientFacts.

(** X20. A client thread of [RelaySpeedTest] survives every failed send and
    receive: it appends an error entry exactly when its socket could not be
    created or the time it measured is 0.  Otherwise it appends a report
    under its own id with the counters of its loop, in which the messages
    received are at most the messages sent, these at most the passes made,
    the bytes received at most the bytes sent, the success rate is between 0
    and 100, and the two throughput figures are the bits sent and received
    per microsecond of the measured time. *)
Theorem relay_client_entry (id : nat) (c : RelayConcurrent.client) :
  let n := RelayConcurrent.client_loop (RelayConcurrent.passes c) in
  let d := RelayConcurrent.actual_duration c in
  (RelayConcurrent.client_thread id c = RelayConcurrent.Failed id <->
   RelayConcurrent.socket_created c = false \/ d = 0%R) /\
  (0 <= RelayConcurrent.messages_received n
   <= RelayConcurrent.messages_sent n)%Z /\
  (RelayConcurrent.messages_sent n
   <= Z.of_nat (List.length (RelayConcurrent.passes c)))%Z /\
  (0 <= RelayConcurrent.total_bytes_received n
   <= RelayConcurrent.total_bytes_sent n)%Z /\
  (forall r,
     RelayConcurrent.client_thread id c = RelayConcurrent.Report r ->
     RelayConcurrent.client_id r = id /\
     RelayConcurrent.final r = n /\
     RelayConcurrent.duration r = d /\
     (0 <= RelayConcurrent.success_rate r <= 100)%R /\
     (RelayConcurrent.throughput_mbps r =
      IZR (RelayConcurrent.total_bytes_sent n) * 8 / (d * 1000000))%R /\
     (RelayConcurrent.throughput_roundtrip_mbps r =
      IZR (RelayConcurrent.total_bytes_received n) * 8 / (d * 1000000))%R).
Proof.
  cbv zeta.
  pose proof (RelayClientFacts.client_loop_ok (RelayConcurrent.passes c))
    as (Hrecv & Hsent & Hbytes).
  split; [|split; [exact Hrecv|split; [exact Hsent|split; [exact Hbytes|]]]].
  - unfold RelayConcurrent.client_thread.
    destruct (RelayConcurrent.socket_created c);
      [|split; [auto | reflexivity]].
    destruct (Req_dec_T (RelayConcurrent.actual_duration c) 0) as [Hz|Hnz].
    + rewrite Hz. replace (0 * 1000000)%R with 0%R by lra.
      rewrite ThroughputFacts.div_zero. cbn [bind]. split; auto.
    + assert (Hd : (RelayConcurrent.actual_duration c * 1000000 <> 0)%R)
        by (intros H; apply Hnz; lra).
      rewrite !(ThroughputFacts.div_ok _ _ Hd). cbn [bind].
      split; [discriminate|]. intros [H|H]; [discriminate | contradiction].
  - intros r. unfold RelayConcurrent.client_thread.
    destruct (RelayConcurrent.socket_created c); [|discriminate].
    destruct (Req_dec_T (RelayConcurrent.actual_duration c) 0) as [Hz|Hnz].
    + rewrite Hz. replace (0 * 1000000)%R with 0%R by lra.
      rewrite ThroughputFacts.div_zero. cbn [bind]. discriminate.
    + assert (Hd : (RelayConcurrent.actual_duration c * 1000000 <> 0)%R)
        by (intros H; apply Hnz; lra).
      rewrite !(ThroughputFacts.div_ok _ _ Hd). cbn [bind].
      intros Hr.
      assert (Hr' : r = RelayConcurrent.ClientReport id
                          (RelayConcurrent.client_loop (RelayConcurrent.passes c))
                          (RelayConcurrent.actual_duration c)
                          (SpeedConcurrent.rate
                             (RelayConcurrent.messages_sent
                                (RelayConcurrent.client_loop
                                   (RelayConcurrent.passes c)))
                             (RelayConcurrent.messages_received
                                (RelayConcurrent.client_loop
                                   (RelayConcurrent.passes c))))
                          (IZR (RelayConcurrent.total_bytes_sent
                                  (RelayConcurrent.client_loop
                                     (RelayConcurrent.passes c))) * 8 /
                           (RelayConcurrent.actual_duration c * 1000000))
                          (IZR (RelayConcurrent.total_bytes_received
                                  (RelayConcurrent.client_loop
                                     (RelayConcurrent.passes c))) * 8 /
                           (RelayConcurrent.actual_duration c * 1000000)))
        by congruence.
      clear Hr. subst r.
      cbn [RelayConcurrent.client_id RelayConcurrent.final
           RelayConcurrent.duration RelayConcurrent.success_rate
           RelayConcurrent.throughput_mbps
           RelayConcurrent.throughput_roundtrip_mbps].
      repeat split; try reflexivity;
        apply ConcurrentFacts.rate_bounds; exact Hrecv.
Qed.

Module RelayConcurrentFacts.
Import Notions RelayConcurrent.

Lemma relay_client_thread_ok (id : nat) (c : client) (r : client_report) :
  client_thread id c = Report r -> relay_report_ok r.
Proof.
  unfold client_thread.
  destruct (socket_created c); [|discriminate].
  destruct (Stats.div (IZR (total_bytes_sent (client_loop (passes c))) * 8) _)
    as [t|e]; cbn [bind]; [|discriminate].
  destruct (Stats.div _ _) as [t'|e]; cbn [bind]; [|discriminate].
  intros H.
  assert (Hr : r = ClientReport id (client_loop (passes c)) (actual_duration c)
                     (SpeedConcurrent.rate
                        (messages_sent (client_loop (passes c)))
                        (messages_received (client_loop (passes c)))) t t')
    by congruence.
  clear H. subst r.
  destruct (RelayClientFacts.client_loop_ok (passes c))
    as (Hrecv & _ & Hbytes).
  unfold relay_report_ok. cbn [final success_rate].
  split; [exact Hrecv|]. split; [exact Hbytes|].
  apply ConcurrentFacts.rate_bounds. exact Hrecv.
Qed.

Lemma relay_successful_ok (clients : nat -> client) (finished : list nat) :
  Forall relay_report_ok
    (successful (map (fun id => client_thread id (clients id)) finished)).
Proof.
  induction finished as [|id finished IH]; cbn [map successful];
    [constructor|].
  destruct (client_thread id (clients id)) as [r|id'] eqn:Hc; [|exact IH].
  constructor; [|exact IH]. eapply relay_client_thread_ok. exact Hc.
Qed.

Lemma relay_totals_ok (reports : list client_report) :
  Forall relay_report_ok reports ->
  let counts := map final reports in
  (0 <= SpeedConcurrent.total (map messages_received counts)
   <= SpeedConcurrent.total (map messages_sent counts))%Z /\
  (0 <= SpeedConcurrent.total (map total_bytes_received counts)
   <= SpeedConcurrent.total (map total_bytes_sent counts))%Z.
Proof.
  cbv zeta.
  induction 1 as [|r reports (Hr & Hb & _) _ IH];
    cbn [map SpeedConcurrent.total fold_right]; [lia|].
  cbv zeta in Hr, Hb.
  fold (SpeedConcurrent.total (map messages_received (map final reports))).
  fold (SpeedConcurrent.total (map messages_sent (map final reports))).
  fold (SpeedConcurrent.total (map total_bytes_received (map final reports))).
  fold (SpeedConcurrent.total (map total_bytes_sent (map final reports))).
  lia.
Qed.

Lemma mean_defined (xs : list R) :
  xs <> [] -> exists avg, Stats.mean xs = Ok avg.
Proof.
  destruct xs as [|x xs]; [congruence|]. intros _.
  unfold Stats.mean. eexists. reflexivity.
Qed.

End RelayConcurrentFacts.

(** X23. The concurrent phase of [RelaySpeedTest] ends in one of three
    ways: when every thread appended an error entry it returns [False] and
    stores nothing; when some thread reported but no reporting thread sent a
    message, the overall rate divides by zero and [ZeroDivisionError] leaves
    the method; otherwise it returns [True] and stores the reports and the
    totals, with the messages received at most the messages sent, the bytes
    received at most the bytes sent and the overall rate between 0 and
    100. *)
Theorem relay_concurrent_outcomes
        (clients : nat -> RelayConcurrent.client) (finished : list nat) :
  let results :=
    map (fun id => RelayConcurrent.client_thread id (clients id)) finished in
  let reports := RelayConcurrent.successful results in
  let counts := map RelayConcurrent.final reports in
  let sent :=
    SpeedConcurrent.total (map RelayConcurrent.messages_sent counts) in
  let outcome :=
    RelayConcurrent.test_concurrent_throughput clients finished in
  (reports = [] /\ outcome = Ok (false, None)) \/
  (reports <> [] /\ sent = 0%Z /\ outcome = Raise ZeroDivisionError) \/
  (reports <> [] /\ sent <> 0%Z /\
   exists report,
     outcome = Ok (true, Some report) /\
     RelayConcurrent.clients report = reports /\
     RelayConcurrent.total_sent report = sent /\
     (0 <= RelayConcurrent.total_received report <= sent)%Z /\
     RelayConcurrent.sum_bytes_sent report =
     SpeedConcurrent.total (map RelayConcurrent.total_bytes_sent counts) /\
     (0 <= RelayConcurrent.sum_bytes_received report
      <= RelayConcurrent.sum_bytes_sent report)%Z /\
     (0 <= RelayConcurrent.overall_success_rate report <= 100)%R).
Proof.
  cbv zeta. unfold RelayConcurrent.test_concurrent_throughput.
  pose proof (RelayConcurrentFacts.relay_successful_ok clients finished) as Hok.
  set (results := map _ finished) in *. clearbody results.
  unfold RelayConcurrent.analyse.
  destruct (RelayConcurrent.successful results) as [|r reports] eqn:Hs.
  { left. auto. }
  right.
  destruct (RelayConcurrentFacts.relay_totals_ok (r :: reports) Hok)
    as [Hmsg Hbytes].
  destruct (RelayConcurrentFacts.mean_defined
              (map RelayConcurrent.success_rate (r :: reports)))
    as [avg Havg]; [discriminate|].
  destruct (RelayConcurrentFacts.mean_defined
              (map RelayConcurrent.throughput_mbps (r :: reports)))
    as [avg' Havg']; [discriminate|].
  rewrite Havg, Havg'. cbn [bind].
  set (counts := map RelayConcurrent.final (r :: reports)) in *.
  set (sent := SpeedConcurrent.total
                 (map RelayConcurrent.messages_sent counts)) in *.
  set (received := SpeedConcurrent.total
                     (map RelayConcurrent.messages_received counts)) in *.
  destruct (Z.eq_dec sent 0) as [Hz|Hnz].
  - left. split; [discriminate|]. split; [exact Hz|].
    rewrite Hz. rewrite ThroughputFacts.div_zero. reflexivity.
  - right. split; [discriminate|]. split; [exact Hnz|].
    assert (Hsent : IZR sent <> 0%R).
    { intros H. apply Hnz. apply eq_IZR. exact H. }
    rewrite (ThroughputFacts.div_ok _ _ Hsent). cbn [bind].
    eexists. split; [reflexivity|].
    cbn [RelayConcurrent.clients RelayConcurrent.total_sent
         RelayConcurrent.total_received RelayConcurrent.sum_bytes_sent
         RelayConcurrent.sum_bytes_received
         RelayConcurrent.overall_success_rate].
    split; [reflexivity|]. split; [reflexivity|].
    split; [exact Hmsg|]. split; [reflexivity|]. split; [exact Hbytes|].
    assert (Hb := ConcurrentFacts.rate_bounds sent received Hmsg).
    unfold SpeedConcurrent.rate in Hb.
    replace (0 <? sent)%Z with true in Hb
      by (symmetry; apply Z.ltb_lt; lia).
    exact Hb.
Qed.

(* ===================================================================== *)
(** ** [run_all_tests] *)
(* ===================================================================== *)

(** X21. [SpeedTest.run_all_tests] never raises: whatever its four phases
    meet, it returns a dictionary with exactly the four test names, in
    order, each with a truth value: the value the test returned, and
    [False] for a test that raised. *)
Theorem speed_run_all_tests_returns (w : Suite.speed_world) :
  Suite.speed_run_all_tests w =
  Ok [ ("Latency Test"%string,
        Suite.Flag
          (Notions.stored_flag
             (SpeedTest.returned
                (SpeedTest.test_latency 10 (Suite.latency_socket w)
                   (Suite.latency_net w)))));
       ("Throughput Test"%string,
        Suite.Flag
          (fst (SpeedThroughput.test_throughput SpeedThroughput.default_sizes
                  (Suite.throughput_data w) (Suite.throughput_net w))));
       ("Concurrent Test"%string,
        Suite.Flag
          (Notions.stored_flag
             (r <- SpeedConcurrent.test_concurrent_throughput
                     (Suite.concurrent_clients w) (Suite.concurrent_finished w) ;;
              Ok (fst r))));
       ("Stress Test"%string,
        Suite.Flag
          (Notions.stored_flag
             (SpeedTest.returned
                (SpeedTest.test_stress (Suite.stress_socket w)
                   (Suite.stress_passes w) (Suite.stress_duration w))))) ].
Proof.
  unfold Suite.speed_run_all_tests, Suite.speed_tests, Suite.flag_of.
  set (o1 := SpeedTest.returned (SpeedTest.test_latency _ _ _)).
  set (b2 := fst (SpeedThroughput.test_throughput _ _ _)).
  set (o3 := SpeedConcurrent.test_concurrent_throughput _ _).
  set (o4 := SpeedTest.returned (SpeedTest.test_stress _ _ _)).
  clearbody o1 b2 o3 o4.
  destruct o1 as [[|]|], b2, o3 as [[[|] ?]|], o4 as [[|]|]; reflexivity.
Qed.

(** X22. [RelaySpeedTest.run_all_tests] cannot complete once its throughput
    phase returns: the dictionary that phase returns is stored among the
    truth values of the other tests, and the final count of passed tests
    adds it to an integer, which raises [TypeError].  It returns only when
    the throughput phase itself raised, with [False] stored for it. *)
Theorem relay_run_all_tests_raises (w : Suite.relay_world) :
  (forall d,
     RelayRange.test_throughput_range RelayRange.default_sizes
       (Suite.range_data w) (Suite.range_net w) = Ok d ->
     Suite.relay_run_all_tests w = Raise TypeError) /\
  (forall e,
     RelayRange.test_throughput_range RelayRange.default_sizes
       (Suite.range_data w) (Suite.range_net w) = Raise e ->
     exists a c,
       Suite.relay_run_all_tests w =
       Ok [ ("Latency Test"%string, Suite.Flag a);
            ("Throughput Range Test"%string, Suite.Flag false);
            ("Concurrent Test"%string, Suite.Flag c) ]).
Proof.
  unfold Suite.relay_run_all_tests, Suite.relay_tests, Suite.flag_of.
  set (o1 := SpeedTest.returned (RelaySpeedTest.test_latency _ _)).
  set (o2 := RelayRange.test_throughput_range _ _ _).
  set (o3 := RelayConcurrent.test_concurrent_throughput _ _).
  clearbody o1 o2 o3.
  split.
  - intros d ->.
    destruct o1 as [[|]|], o3 as [[[|] ?]|]; reflexivity.
  - intros e ->.
    destruct o1 as [[|]|], o3 as [[[|] ?]|]; do 2 eexists; reflexivity.
Qed.

Lemma relay_run_all_tests_raises_witness :
  Suite.relay_run_all_tests
    (Suite.RelayWorld Samples.silent (fun _ => Samples.payloads)
       (fun _ => Samples.silent)
       (fun _ => RelayConcurrent.Client true [] 10) [0; 1; 2]%nat) =
  Raise TypeError.
Proof.
  apply (proj1 (relay_run_all_tests_raises
                  (Suite.RelayWorld Samples.silent (fun _ => Samples.payloads)
                     (fun _ => Samples.silent)
                     (fun _ => RelayConcurrent.Client true [] 10)
                     [0; 1; 2]%nat)) []).
  reflexivity.
Defined.
